(** * icpc_trainer: submission evaluation and spaced-repetition scheduling

    A shallow embedding of the core of the [icpc_trainer] package:

    - [fsrs_logic.py]  : the review model ([calculate_next_review]);
    - [workflow.py]    : the verification harness ([run_tests]), the
                         output normalizer ([_normalize_output]), the
                         sample cache and [setup_workspace];
    - [models.py]      : the rows of the three tables;
    - [tui.py]         : the due-review query of [_populate_daily_review],
                         the rating dialogue, [_record_attempt],
                         [_load_problems_for_contest], [_update_fsrs] and
                         the selection of the practice tab;
    - [scraper.py]     : the retry loop of [_goto_with_retries].

    Modelling conventions.

    - A Python [float] is modelled by an exact rational ([Q]): the
      arithmetic of the review model is the arithmetic of the source with
      rounding error, infinities and NaN left out.
    - A Python [int] is a [Z].
    - A naive [datetime] is the number of microseconds elapsed since
      0001-01-01T00:00:00, a [Z] between [0] and [datetime_max]; a
      [timedelta] is a signed number of microseconds.  Arithmetic that
      leaves the representable range raises [OverflowError], as in Python.
    - A Python [str] is a list of Unicode code points ([list N]).
    - An exception is a value of [exn]; code that can raise returns a
      [result].
    - A table of the database is the list of its rows, in the order in
      which the storage engine delivers them; a workspace directory is
      the list of its files, name and content.
    - A clock reading is an argument of the function that takes it. *)

From Stdlib Require Import ZArith NArith QArith Qround Qminmax Lia Lqa List Bool.
From Stdlib Require Import Permutation Sorted.
From Stdlib Require Import Ascii String DecimalString.
Import ListNotations.

Set Implicit Arguments.

(* ================================================================== *)
(** ** Exceptions *)

Inductive exn : Type :=
| ValueError
| OverflowError.

Inductive result (A : Type) : Type :=
| Ok (a : A)
| Raise (e : exn).

Arguments Ok {A} a.
Arguments Raise {A} e.

Definition bind {A B : Type} (m : result A) (k : A -> result B) : result B :=
  match m with
  | Ok a => k a
  | Raise e => Raise e
  end.

Notation "x <- m ;; k" := (bind m (fun x => k))
  (at level 61, m at next level, right associativity).

(* ================================================================== *)
(** ** Python built-ins used by the sources *)

Module Py.

(** [a < b] on floats. *)
Definition Qltb (a b : Q) : bool := negb (Qle_bool b a).

(** [max(a, b)]: the first argument is kept unless the second one is
    strictly greater. *)
Definition max (a b : Q) : Q := if Qltb a b then b else a.

(** [min(a, b)]: the first argument is kept unless the second one is
    strictly smaller. *)
Definition min (a b : Q) : Q := if Qltb b a then b else a.

(** [max(a, b)] on integers. *)
Definition maxZ (a b : Z) : Z := if (a <? b)%Z then b else a.

(** [round(x)] of a float: the nearest integer, a tie going to the even
    neighbour. *)
Definition round (x : Q) : Z :=
  let f := Qfloor x in
  let d := x - inject_Z f in
  if Qltb d 0.5 then f
  else if Qltb 0.5 d then (f + 1)%Z
  else if Z.even f then f else (f + 1)%Z.

(** *** [datetime] and [timedelta] *)

Definition datetime := Z.
Definition timedelta := Z.

Definition us_per_day : Z := 86400000000%Z.

(** [datetime.max] is 9999-12-31T23:59:59.999999; day 3652059 of the
    proleptic Gregorian calendar is its date. *)
Definition datetime_max : datetime := (3652059 * us_per_day - 1)%Z.

(** [timedelta(days=n)]: the magnitude of the day count is limited. *)
Definition timedelta_days (n : Z) : result timedelta :=
  if (Z.abs n <=? 999999999)%Z then Ok (n * us_per_day)%Z
  else Raise OverflowError.

(** [d + td] on a [datetime]. *)
Definition datetime_add (d : datetime) (td : timedelta) : result datetime :=
  let r := (d + td)%Z in
  if ((0 <=? r) && (r <=? datetime_max))%Z then Ok r
  else Raise OverflowError.

(** The instant [n] days after [d] can be computed as
    [d + timedelta(days=n)]. *)
Definition days_after_representable (d : datetime) (n : Z) : Prop :=
  (Z.abs n <= 999999999 /\ 0 <= d + n * us_per_day <= datetime_max)%Z.

(** *** [sorted] *)

(** Insertion of [x] into a list sorted by [key], in front of the first
    element whose key is not smaller. *)
Fixpoint insert_by {A K : Type} (le : K -> K -> bool) (key : A -> K)
    (x : A) (l : list A) : list A :=
  match l with
  | [] => [x]
  | y :: l' =>
      if le (key x) (key y) then x :: l
      else y :: insert_by le key x l'
  end.

(** [sorted(l, key=key)]: a stable sort, elements with equal keys keep
    the order they came in. *)
Fixpoint sorted_by {A K : Type} (le : K -> K -> bool) (key : A -> K)
    (l : list A) : list A :=
  match l with
  | [] => []
  | x :: l' => insert_by le key x (sorted_by le key l')
  end.

End Py.

(* ================================================================== *)
(** ** Python strings *)

Module Str.

(** A code point and a text. *)
Definition char : Type := N.
Definition str : Type := list char.

Definition LF : char := 10%N.
Definition CR : char := 13%N.

(** An ASCII literal of the source as a text. *)
Definition lit (s : string) : str :=
  List.map N_of_ascii (list_ascii_of_string s).

(** [c.isspace()]: the code points Python treats as whitespace. *)
Definition isspace (c : char) : bool :=
  ((9 <=? c) && (c <=? 13) || (28 <=? c) && (c <=? 32) ||
   (c =? 133) || (c =? 160) || (c =? 5760) ||
   (8192 <=? c) && (c <=? 8202) ||
   (c =? 8232) || (c =? 8233) || (c =? 8239) || (c =? 8287) ||
   (c =? 12288))%N.

Fixpoint eqb (a b : str) : bool :=
  match a, b with
  | [], [] => true
  | x :: a', y :: b' => (x =? y)%N && eqb a' b'
  | _, _ => false
  end.

(** [s.startswith(p)]. *)
Fixpoint startswith (p s : str) : bool :=
  match p, s with
  | [], _ => true
  | x :: p', y :: s' => (x =? y)%N && startswith p' s'
  | _ :: _, [] => false
  end.

(** [s.replace(old, new)] for a non-empty [old]: the occurrences of [old]
    are found from left to right and do not overlap.  [skip] counts the
    characters of an occurrence that was just replaced and is still to be
    passed over. *)
Fixpoint replace_from (old new : str) (skip : nat) (s : str) : str :=
  match s with
  | [] => []
  | c :: s' =>
      match skip with
      | S k => replace_from old new k s'
      | O =>
          if startswith old s
          then new ++ replace_from old new (Nat.pred (List.length old)) s'
          else c :: replace_from old new O s'
      end
  end.

Definition replace (old new s : str) : str := replace_from old new O s.

(** [s.lstrip()]. *)
Fixpoint lstrip (s : str) : str :=
  match s with
  | [] => []
  | c :: s' => if isspace c then lstrip s' else s
  end.

(** [s.rstrip()]: a character is dropped when it is whitespace and
    nothing is left after it. *)
Fixpoint rstrip (s : str) : str :=
  match s with
  | [] => []
  | c :: s' =>
      match rstrip s' with
      | [] => if isspace c then [] else [c]
      | r => c :: r
      end
  end.

(** [s.strip()]. *)
Definition strip (s : str) : str := rstrip (lstrip s).

(** [s.split(sep)] for a separator of one character: the fields between
    the separators, at least one. *)
Fixpoint split (sep : char) (s : str) : list str :=
  match s with
  | [] => [[]]
  | c :: s' =>
      if (c =? sep)%N then [] :: split sep s'
      else
        match split sep s' with
        | [] => [[c]]
        | l :: ls => (c :: l) :: ls
        end
  end.

(** [sep.join(parts)]. *)
Fixpoint join (sep : str) (parts : list str) : str :=
  match parts with
  | [] => []
  | [p] => p
  | p :: ps => p ++ sep ++ join sep ps
  end.

(** [str(n)] of an integer. *)
Definition of_int (n : Z) : str :=
  lit (NilEmpty.string_of_int (Z.to_int n)).

(** [a <= b] on texts: the order of the code points, position by
    position, a proper prefix coming first. *)
Fixpoint leb (a b : str) : bool :=
  match a, b with
  | [], _ => true
  | _ :: _, [] => false
  | x :: a', y :: b' =>
      if (x <? y)%N then true
      else if (x =? y)%N then leb a' b'
      else false
  end.

End Str.

(* ================================================================== *)
(** ** fsrs_logic.py *)

Module Rating.

Inductive t : Type := AGAIN | HARD | GOOD | EASY.

(** The value of a member of the [IntEnum]. *)
Definition value (r : t) : Z :=
  match r with
  | AGAIN => 1%Z
  | HARD => 2%Z
  | GOOD => 3%Z
  | EASY => 4%Z
  end.

(** [Rating(rating)]: lookup of a member by value. *)
Definition of_int (rating : Z) : result t :=
  if (rating =? 1)%Z then Ok AGAIN
  else if (rating =? 2)%Z then Ok HARD
  else if (rating =? 3)%Z then Ok GOOD
  else if (rating =? 4)%Z then Ok EASY
  else Raise ValueError.

Definition eqb (a b : t) : bool := (value a =? value b)%Z.

End Rating.

Module FSRSReviewState.
Record t : Type := mk {
  stability : Q;
  difficulty : Q;
  last_reviewed : Py.datetime
}.
End FSRSReviewState.

Module FSRSUpdateResult.
Record t : Type := mk {
  stability : Q;
  difficulty : Q;
  last_reviewed : Py.datetime;
  next_review_date : Py.datetime
}.
End FSRSUpdateResult.

Module Fsrs.

Definition _clamp (value low high : Q) : Q :=
  Py.max low (Py.min high value).

Definition _retrievability (stability elapsed_days : Q) : Q :=
  let safe_stability := Py.max stability 0.1 in
  let safe_days := Py.max elapsed_days 0.0 in
  / (1.0 + (safe_days / (9.0 * safe_stability))).

(** [now] is the value read from [datetime.utcnow()]. *)
Definition calculate_next_review
    (now : Py.datetime)
    (last_state : FSRSReviewState.t)
    (rating : Z)
    (elapsed_days : Q) : result FSRSUpdateResult.t :=
  rating_value <- Rating.of_int rating ;;
  let previous_stability := Py.max (FSRSReviewState.stability last_state) 0.1 in
  let previous_difficulty := _clamp (FSRSReviewState.difficulty last_state) 1.0 10.0 in
  let retrievability := _retrievability previous_stability elapsed_days in
  let '(new_difficulty, new_stability, next_interval_days) :=
    if Rating.eqb rating_value Rating.AGAIN then
      (_clamp (previous_difficulty + 0.6 * (1.0 - retrievability)) 1.0 10.0,
       Py.max 0.1 (previous_stability * (0.35 + 0.25 * retrievability)),
       1%Z)
    else
      let '(difficulty_delta, recall_bonus, interval_multiplier) :=
        if Rating.eqb rating_value Rating.HARD then (0.15, 0.9, 1.3)
        else if Rating.eqb rating_value Rating.GOOD then (-0.1, 1.2, 2.4)
        else (-0.3, 1.5, 3.2) in
      let new_difficulty := _clamp (previous_difficulty + difficulty_delta) 1.0 10.0 in
      let growth :=
        1.0 + (11.0 - new_difficulty) * 0.04 * (1.0 - retrievability) * recall_bonus in
      let new_stability := Py.max 0.1 (previous_stability * growth) in
      (new_difficulty, new_stability,
       Py.maxZ 1 (Py.round (new_stability * interval_multiplier))) in
  delta <- Py.timedelta_days next_interval_days ;;
  next_review_date <- Py.datetime_add now delta ;;
  Ok (FSRSUpdateResult.mk new_stability new_difficulty now next_review_date).

End Fsrs.

(** A clock reading used by the examples: 2026-01-01T00:00:00, day 739617
    of the calendar. *)
Definition clock_2026 : Py.datetime := (739616 * Py.us_per_day)%Z.

Definition fresh_state : FSRSReviewState.t :=
  FSRSReviewState.mk 0.5 5.0 clock_2026.


(* ================================================================== *)
(** ** The review model as §4.4 of the specification words it *)

Module FsrsSpec.


Definition clamp (x lo hi : Q) : Q := Qmax lo (Qmin hi x).

(** [r = (1 + elapsed_days / (9 * stability))^-1]. *)
Definition retrievability (stability elapsed_days : Q) : Q :=
  / (1 + elapsed_days / (9 * stability)).




End FsrsSpec.

(* ================================================================== *)
(** ** workflow.py *)

Module CompletedProcess.
Record t : Type := mk {
  returncode : Z;
  stdout : Str.str;
  stderr : Str.str
}.
End CompletedProcess.

Module Workflow.

Import Str.

(** What [run_tests] finds outside itself: whether the source file
    exists, what the compiler answers, the regular files of the workspace
    directory (name and content, one entry per name) and what the
    compiled binary answers on a given standard input. *)
Record World : Type := mkWorld {
  source_exists : bool;
  compile_proc : CompletedProcess.t;
  directory : list (str * str);
  solution_bin : str -> CompletedProcess.t
}.

(** [path.exists()] and [path.read_text()] of a file of the workspace
    directory: [None] when there is no such file. *)
Fixpoint read_text (dir : list (str * str)) (name : str) : option str :=
  match dir with
  | [] => None
  | (n, content) :: dir' =>
      if Str.eqb n name then Some content else read_text dir' name
  end.

(** [s.endswith(p)]. *)
Definition endswith (p s : str) : bool := startswith (rev p) (rev s).

(** [workspace_dir.glob("*.in")]: the files whose name ends in [.in]. *)
Definition glob_in (dir : list (str * str)) : list (str * str) :=
  filter (fun f => endswith (lit ".in") (fst f)) dir.

(** [path.with_suffix(".out")] for a name ending in [.in].  The name
    [.in] itself has no suffix for [pathlib], so [.out] is added to it;
    in every other name the final [.in] is replaced.  (For a name made of
    dots followed by [in], such as [..in], recent versions of [pathlib]
    see no suffix either; no statement below depends on such names.) *)
Definition with_suffix_out (name : str) : str :=
  match firstn (List.length name - 3) name with
  | [] => name ++ lit ".out"
  | stem => stem ++ lit ".out"
  end.

Definition _normalize_output (content : str) : str :=
  let normalized := replace [CR] [LF] (replace [CR; LF] [LF] content) in
  join [LF] (List.map rstrip (split LF (strip normalized))).

(** The variables of the loop of [run_tests], and the input files on
    which the binary was executed so far, oldest first. *)
Record Run : Type := mkRun {
  all_passed : bool;
  logs : list str;
  executed : list str
}.

(** One turn of the loop, for the input file [input_file] (its name and
    its content). *)
Definition test_case (w : World) (st : Run) (input_file : str * str) : Run :=
  let expected_file := with_suffix_out (fst input_file) in
  match read_text (directory w) expected_file with
  | None =>
      mkRun false
        (logs st ++ [lit "Missing expected output file: " ++ expected_file])
        (executed st)
  | Some expected_output =>
      let test_input := snd input_file in
      let run_proc := solution_bin w test_input in
      let ran := executed st ++ [fst input_file] in
      if negb (CompletedProcess.returncode run_proc =? 0)%Z then
        mkRun false
          (logs st ++
           [lit "[" ++ fst input_file ++ lit "] Runtime error (code " ++
            of_int (CompletedProcess.returncode run_proc) ++ lit "):" ++
            [LF] ++ strip (CompletedProcess.stderr run_proc)])
          ran
      else
        let actual := _normalize_output (CompletedProcess.stdout run_proc) in
        let expected := _normalize_output expected_output in
        if negb (Str.eqb actual expected) then
          mkRun false
            (logs st ++
             [join [LF]
                [lit "[" ++ fst input_file ++ lit "] Wrong answer";
                 lit "Expected:" ++ [LF] ++ rstrip expected_output;
                 lit "Got:" ++ [LF] ++
                 rstrip (CompletedProcess.stdout run_proc)]])
            ran
        else mkRun (all_passed st) (logs st) ran
  end.

(** [sorted(workspace_dir.glob("*.in"))]: paths of one directory are
    ordered by their names. *)
Definition input_files (w : World) : list (str * str) :=
  Py.sorted_by Str.leb fst (glob_in (directory w)).

(** [run_tests(file_path)]: the verdict, the diagnostics, and the input
    files the binary was executed on. *)
Definition run_tests (w : World) (file_path : str) : bool * str * list str :=
  if negb (source_exists w) then
    (false, lit "Source file not found: " ++ file_path, [])
  else if negb (CompletedProcess.returncode (compile_proc w) =? 0)%Z then
    (false,
     match CompletedProcess.stderr (compile_proc w) with
     | [] => lit "Compilation failed."
     | err => err
     end,
     [])
  else
    match input_files w with
    | [] => (false, lit "No .in test files found.", [])
    | files =>
        let st := fold_left (test_case w) files (mkRun true [] []) in
        (all_passed st, join [LF; LF] (logs st), executed st)
    end.

End Workflow.

(* ================================================================== *)
(** ** The harness and the normalizer as the specification words them *)

Module WorkflowSpec.

Import Str.

(** A blank line: nothing but whitespace. *)
Definition blank (line : str) : bool := forallb isspace line.

(** The lines left when the blank lines at the end are taken away. *)
Fixpoint drop_trailing_blank (lines : list str) : list str :=
  match lines with
  | [] => []
  | l :: ls =>
      match drop_trailing_blank ls with
      | [] => if blank l then [] else [l]
      | r => l :: r
      end
  end.

(** The lines left when the blank lines at the start are taken away. *)
Fixpoint drop_leading_blank (lines : list str) : list str :=
  match lines with
  | [] => []
  | l :: ls => if blank l then drop_leading_blank ls else lines
  end.

(** The same, the first line that stays being left-trimmed. *)
Fixpoint trim_start (lines : list str) : list str :=
  match lines with
  | [] => []
  | l :: ls => if blank l then trim_start ls else lstrip l :: ls
  end.

(** The same as [drop_trailing_blank], the last line that stays being
    right-trimmed. *)
Fixpoint trim_end (lines : list str) : list str :=
  match lines with
  | [] => []
  | l :: ls =>
      match trim_end ls with
      | [] => if blank l then [] else [rstrip l]
      | r => l :: r
      end
  end.

(** [replace("\r\n", "\n")] read character by character: a carriage
    return that a line feed follows is dropped. *)
Fixpoint crlf_to_lf (s : str) : str :=
  match s with
  | [] => []
  | c :: s' =>
      match s' with
      | [] => [c]
      | d :: s'' =>
          if (c =? CR)%N && (d =? LF)%N then LF :: crlf_to_lf s''
          else c :: crlf_to_lf s'
      end
  end.

(** [replace("\r", "\n")] on one character. *)
Definition cr_to_lf (c : char) : char := if (c =? CR)%N then LF else c.

(** The two replacements of the normalizer, one after the other. *)
Definition unify_newlines (s : str) : str :=
  List.map cr_to_lf (crlf_to_lf s).

(** [replace("\n", "\r\n")] read character by character: the text with
    the line endings of the other convention. *)
Definition lf_to_crlf (s : str) : str :=
  flat_map (fun c => if (c =? LF)%N then [CR; LF] else [c]) s.

(** The lines start with a line that is not blank and whose first
    character is not whitespace, if there is a line at all. *)
Definition starts_trimmed (lines : list str) : Prop :=
  match lines with
  | [] => True
  | l :: _ => blank l = false /\ lstrip l = l
  end.

(** §4.1 as claim C3 reads it: line endings unified to a line feed, the
    blank lines at the start and at the end dropped (the lines that stay
    keep their leading characters), every line that stays right-trimmed. *)
Definition normalize (text : str) : str :=
  let unified := replace [CR] [LF] (replace [CR; LF] [LF] text) in
  join [LF]
    (List.map rstrip
       (drop_trailing_blank (drop_leading_blank (split LF unified)))).

(** §4.2 step 4: the diagnostic block of one test case, [None] when the
    case passes. *)
Definition case_diagnostic (w : Workflow.World) (case : str * str)
    : option str :=
  let expected_name := Workflow.with_suffix_out (fst case) in
  match Workflow.read_text (Workflow.directory w) expected_name with
  | None => Some (lit "Missing expected output file: " ++ expected_name)
  | Some expected_output =>
      let p := Workflow.solution_bin w (snd case) in
      if (CompletedProcess.returncode p =? 0)%Z then
        if Str.eqb (Workflow._normalize_output (CompletedProcess.stdout p))
                   (Workflow._normalize_output expected_output)
        then None
        else
          Some (lit "[" ++ fst case ++ lit "] Wrong answer" ++ [LF] ++
                lit "Expected:" ++ [LF] ++ rstrip expected_output ++ [LF] ++
                lit "Got:" ++ [LF] ++ rstrip (CompletedProcess.stdout p))
      else
        Some (lit "[" ++ fst case ++ lit "] Runtime error (code " ++
              of_int (CompletedProcess.returncode p) ++ lit "):" ++ [LF] ++
              strip (CompletedProcess.stderr p))
  end.

(** The diagnostic blocks that are present, in order. *)
Fixpoint blocks (ds : list (option str)) : list str :=
  match ds with
  | [] => []
  | Some d :: ds' => d :: blocks ds'
  | None :: ds' => blocks ds'
  end.

Definition no_diagnostic (d : option str) : bool :=
  match d with
  | None => true
  | Some _ => false
  end.

(** The cases on which the binary is executed: those with an expected
    output file. *)
Definition has_expected (w : Workflow.World) (case : str * str) : bool :=
  match Workflow.read_text (Workflow.directory w)
          (Workflow.with_suffix_out (fst case)) with
  | None => false
  | Some _ => true
  end.

End WorkflowSpec.

(** A workspace with three test cases, the second of which has no
    expected output file, and a binary that copies its input. *)
Definition copy_input (stdin : Str.str) : CompletedProcess.t :=
  CompletedProcess.mk 0 stdin [].

Definition three_cases : Workflow.World :=
  Workflow.mkWorld true (CompletedProcess.mk 0 [] [])
    [(Str.lit "test_3.in", Str.lit "3");
     (Str.lit "test_1.in", Str.lit "1");
     (Str.lit "test_1.out", Str.lit "1" ++ [Str.CR; Str.LF]);
     (Str.lit "test_2.in", Str.lit "2");
     (Str.lit "test_3.out", Str.lit "3");
     (Str.lit "solution.cpp", Str.lit "int main() {}")]
    copy_input.

(* ================================================================== *)
(** ** models.py *)

Module Problem.
Record t : Type := mk {
  id : Z;
  title : Str.str;
  contest_id : Str.str;
  html_content : Str.str
}.
End Problem.

Module FSRSState.
Record t : Type := mk {
  problem_id : Z;
  stability : Q;
  difficulty : Q;
  last_reviewed : Py.datetime;
  next_review_date : Py.datetime
}.
End FSRSState.

(* ================================================================== *)
(** ** tui.py: the query of [_populate_daily_review] *)

Module Tui.

(** The two tables, their rows in the order in which the storage engine
    delivers them. *)
Record Database : Type := mkDatabase {
  problems : list Problem.t;
  fsrs_states : list FSRSState.t
}.

Definition Row : Type := (Problem.t * FSRSState.t)%type.

(** [date.today()] for the clock reading [now]: the number of whole days
    since 0001-01-01. *)
Definition today (now : Py.datetime) : Z := (now / Py.us_per_day)%Z.

(** [datetime.combine(d, time.max)]: the last microsecond of day [d]. *)
Definition combine_time_max (d : Z) : Py.datetime :=
  (d * Py.us_per_day + (Py.us_per_day - 1))%Z.

(** [select(Problem, FSRSState).join(FSRSState,
    FSRSState.problem_id == Problem.id)]. *)
Definition joined (db : Database) : list Row :=
  flat_map
    (fun p =>
       List.map (pair p)
         (filter (fun s => (FSRSState.problem_id s =? Problem.id p)%Z)
            (fsrs_states db)))
    (problems db).

(** The rows of the query: the join, [where(next_review_date <=
    end_of_today)], [order_by(next_review_date.asc())].  The query names
    no other sort key: rows with the same [next_review_date] stay in the
    order in which the engine delivers them. *)
Definition daily_review_rows (db : Database) (now : Py.datetime) : list Row :=
  let end_of_today := combine_time_max (today now) in
  Py.sorted_by Z.leb (fun row : Row => FSRSState.next_review_date (snd row))
    (filter
       (fun row : Row =>
          (FSRSState.next_review_date (snd row) <=? end_of_today)%Z)
       (joined db)).

End Tui.

(* ================================================================== *)
(** ** The review queue as §4.5 of the specification words it *)

Module TuiSpec.



End TuiSpec.

(** Two problems due at the same instant, the one with the larger
    identifier delivered first. *)
Definition problem_n (n : Z) : Problem.t :=
  Problem.mk n (Str.lit "Problem") (Str.lit "contest") (Str.lit "").

Definition state_due (n : Z) (due : Py.datetime) : FSRSState.t :=
  FSRSState.mk n 0.5 5.0 0%Z due.


(** Problem 1 is due at 23:59 of the day before [clock_2026], problem 2
    at 00:01 of the day after, problem 3 has no review state. *)
Definition scenario_db : Tui.Database :=
  Tui.mkDatabase
    [problem_n 1; problem_n 2; problem_n 3]
    [state_due 2 (clock_2026 + Py.us_per_day + 60000000)%Z;
     state_due 1 (clock_2026 - 60000000)%Z].

(* ================================================================== *)
(** ** workflow.py: the sample cache and [setup_workspace] *)

Module Json.

Unset Elimination Schemes.

(** A value of the cache: what [json.load] returns, and what the
    in-memory cache holds. *)
Inductive t : Type :=
| Null
| Bool (b : bool)
| Number (q : Q)
| String (s : Str.str)
| List (l : list t)
| Dict (d : list (Str.str * t)).

Set Elimination Schemes.

(** [d[k]] when [k in d]. *)
Fixpoint lookup (d : list (Str.str * t)) (k : Str.str) : option t :=
  match d with
  | [] => None
  | (k', v) :: d' => if Str.eqb k' k then Some v else lookup d' k
  end.

(** [d.get(k, default)]. *)
Definition get (d : list (Str.str * t)) (k : Str.str) (default : t) : t :=
  match lookup d k with
  | Some v => v
  | None => default
  end.

(** [[s for s in l if isinstance(s, dict)]]. *)
Fixpoint dicts (l : list t) : list (list (Str.str * t)) :=
  match l with
  | [] => []
  | Dict d :: l' => d :: dicts l'
  | _ :: l' => dicts l'
  end.

End Json.

Module WorkflowManager.

Import Str.

(** The fields of a manager that the methods below read.  [cache_file] is
    the parsed content of the cache file, [None] when the file does not
    exist. *)
Record t : Type := mk {
  template : str;
  cached_samples : option Json.t;
  cache_file : option Json.t
}.

Definition _load_cache_file (self : t) : Json.t :=
  match cache_file self with
  | None => Json.Dict []
  | Some payload =>
      match payload with
      | Json.Dict _ => payload
      | _ => Json.Dict []
      end
  end.

(** The samples of one candidate entry, [None] when the loop goes on to
    the next candidate. *)
Definition candidate_samples (candidate : Json.t)
    : option (list (list (str * Json.t))) :=
  match candidate with
  | Json.Dict d =>
      match Json.get d (lit "samples") Json.Null with
      | Json.List samples => Some (Json.dicts samples)
      | _ => None
      end
  | Json.List l => Some (Json.dicts l)
  | _ => None
  end.

Definition _get_cached_samples (self : t) (contest problem_id : str)
    : list (list (str * Json.t)) :=
  let cache :=
    match cached_samples self with
    | Some c => c
    | None => _load_cache_file self
    end in
  match cache with
  | Json.Dict cache =>
      let candidates :=
        match Json.lookup cache contest with
        | Some (Json.Dict by_problem) =>
            [Json.get by_problem problem_id Json.Null]
        | _ => []
        end
        ++ [Json.get cache (contest ++ lit "/" ++ problem_id) Json.Null] in
      (fix loop (cs : list Json.t) : list (list (str * Json.t)) :=
         match cs with
         | [] => []
         | candidate :: cs' =>
             match candidate_samples candidate with
             | Some samples => samples
             | None => loop cs'
             end
         end) candidates
  | _ => []
  end.

(** [path.write_text(content)] in the workspace directory: the file is
    replaced when it exists and created when it does not. *)
Fixpoint write_text (dir : list (str * str)) (name content : str)
    : list (str * str) :=
  match dir with
  | [] => [(name, content)]
  | (n, c) :: dir' =>
      if Str.eqb n name then (n, content) :: dir'
      else (n, c) :: write_text dir' name content
  end.

(** How a call of [setup_workspace] ends. *)
Inductive outcome : Type :=
| Returned
| FileNotFoundError
| TypeError
| UnicodeEncodeError.

(** UTF-8 encodes every code point but the surrogates, which a text read
    from a JSON file may hold. *)
Definition encodable (s : str) : bool :=
  forallb (fun c => negb ((55296 <=? c) && (c <=? 57343))%N) s.

(** [path.write_text(data, encoding="utf-8")], where the platform writes
    a line feed as it is: a value that is not a [str] raises [TypeError]
    before the file is opened; a text that cannot be encoded raises
    [UnicodeEncodeError] once the file is open for writing, and leaves it
    empty.  The files afterwards, and the exception if there is one. *)
Definition path_write_text (dir : list (str * str)) (name : str)
    (data : Json.t) : list (str * str) * option outcome :=
  match data with
  | Json.String s =>
      if encodable s then (write_text dir name s, None)
      else (write_text dir name [], Some UnicodeEncodeError)
  | _ => (dir, Some TypeError)
  end.

(** [setup_workspace(contest, problem_id)] on the files [dir] of the
    workspace directory: the files afterwards, and how the call ended. *)
Definition setup_workspace (self : t) (contest problem_id : str)
    (dir : list (str * str)) : list (str * str) * outcome :=
  match path_write_text dir (lit "solution.cpp")
          (Json.String (template self)) with
  | (dir1, Some e) => (dir1, e)
  | (dir1, None) =>
      match _get_cached_samples self contest problem_id with
      | [] => (dir1, FileNotFoundError)
      | first_sample :: _ =>
          match path_write_text dir1 (lit "test_1.in")
                  (Json.get first_sample (lit "in") (Json.String [])) with
          | (dir2, Some e) => (dir2, e)
          | (dir2, None) =>
              match path_write_text dir2 (lit "test_1.out")
                      (Json.get first_sample (lit "out") (Json.String []))
              with
              | (dir3, Some e) => (dir3, e)
              | (dir3, None) => (dir3, Returned)
              end
          end
      end
  end.

(** What [path.read_text(encoding="utf-8")] makes of the content of a
    file: a text file is read with universal newlines, so a carriage
    return, alone or before a line feed, arrives as a line feed. *)
Definition universal_newlines (content : str) : str :=
  replace [CR] [LF] (replace [CR; LF] [LF] content).

(** What [run_tests(workspace_dir / "solution.cpp")] finds when the
    workspace directory holds the files [dir]. *)
Definition world (dir : list (str * str)) (compile_proc : CompletedProcess.t)
    (solution_bin : str -> CompletedProcess.t) : Workflow.World :=
  Workflow.mkWorld
    (match Workflow.read_text dir (lit "solution.cpp") with
     | Some _ => true
     | None => false
     end)
    compile_proc
    (List.map (fun f => (fst f, universal_newlines (snd f))) dir)
    solution_bin.

End WorkflowManager.

(** A cache in the nested layout with two samples for problem A of
    contest 100, and a manager that holds it in memory. *)
Definition sample_cache : Json.t :=
  Json.Dict
    [(Str.lit "100",
      Json.Dict
        [(Str.lit "A",
          Json.Dict
            [(Str.lit "samples",
              Json.List
                [Json.Dict [(Str.lit "in", Json.String (Str.lit "1 2"));
                            (Str.lit "out", Json.String (Str.lit "3"))];
                 Json.Dict [(Str.lit "in", Json.String (Str.lit "5 5"));
                            (Str.lit "out", Json.String (Str.lit "10"))]])])])].

Definition sample_manager : WorkflowManager.t :=
  WorkflowManager.mk (Str.lit "int main() {}") (Some sample_cache) None.

(* ================================================================== *)
(** ** models.py: attempts *)

Module AttemptStatus.
Inductive t : Type :=
| PASS
| FAIL.
End AttemptStatus.

Module Attempt.
Record t : Type := mk {
  id : Z;
  problem_id : Z;
  timestamp : Py.datetime;
  status : AttemptStatus.t;
  duration : Z
}.
End Attempt.

(* ================================================================== *)
(** ** tui.py: the rating dialogue, attempts and review states *)

Module ProblemData.
Record t : Type := mk {
  id : Z;
  title : Str.str;
  contest_id : Str.str;
  status : Str.str;
  description : Str.str
}.
End ProblemData.

Module DifficultyModal.

Import Str.

(** [int(s)] for a text [s] of ASCII digits. *)
Definition int (s : str) : Z :=
  fold_left (fun acc c => (acc * 10 + (Z.of_N c - 48))%Z) s 0%Z.

(** [_submit()] for the text [value] of the input field: the rating the
    dialogue is dismissed with, [None] when it stays open and the bell
    rings. *)
Definition _submit (value : str) : option Z :=
  let raw_value := strip value in
  if existsb (Str.eqb raw_value) [lit "1"; lit "2"; lit "3"; lit "4"]
  then Some (int raw_value)
  else None.

End DifficultyModal.

Module TrainerApp.

Import Str.

(** A new row of a table, at the place the storage engine gives it among
    the rows it delivers. *)
Definition insert_at {A : Type} (place : nat) (row : A) (rows : list A)
    : list A :=
  firstn place rows ++ row :: skipn place rows.

(** The key of a new row of a table with an integer primary key: one more
    than the largest key in use. *)
Definition next_id (attempts : list Attempt.t) : Z :=
  (1 + fold_right Z.max 0 (List.map Attempt.id attempts))%Z.

(** [int(td.total_seconds())]: the whole seconds of a duration, rounded
    towards zero. *)
Definition whole_seconds (td : Py.timedelta) : Z := Z.quot td 1000000%Z.

(** [_record_attempt(problem_id, passed, started_at)] on the table of
    attempts.  [now] is the clock reading of the first line; [flushed] is
    the one the column default takes when the row is written. *)
Definition _record_attempt (now flushed : Py.datetime) (place : nat)
    (attempts : list Attempt.t) (problem_id : Z) (passed : bool)
    (started_at : Py.datetime) : list Attempt.t :=
  let duration_seconds := Py.maxZ 1 (whole_seconds (now - started_at)%Z) in
  let status := if passed then AttemptStatus.PASS else AttemptStatus.FAIL in
  insert_at place
    (Attempt.mk (next_id attempts) problem_id flushed status duration_seconds)
    attempts.

(** [select(Attempt).where(Attempt.problem_id == problem_id)
    .order_by(Attempt.timestamp.desc()).limit(1)], then
    [scalar_one_or_none()]. *)
Definition latest_attempt (attempts : list Attempt.t) (problem_id : Z)
    : option Attempt.t :=
  hd_error
    (Py.sorted_by (fun a b => (b <=? a)%Z) Attempt.timestamp
       (filter (fun a => (Attempt.problem_id a =? problem_id)%Z) attempts)).

Definition status_of (latest : option Attempt.t) : str :=
  match latest with
  | None => lit "unsolved"
  | Some a =>
      match Attempt.status a with
      | AttemptStatus.PASS => lit "solved"
      | AttemptStatus.FAIL => lit "attempted"
      end
  end.

Definition _load_problems_for_contest (problems : list Problem.t)
    (attempts : list Attempt.t) (contest_id : str) : list ProblemData.t :=
  List.map
    (fun problem =>
       ProblemData.mk (Problem.id problem) (Problem.title problem)
         (Problem.contest_id problem)
         (status_of (latest_attempt attempts (Problem.id problem)))
         (Problem.html_content problem))
    (Py.sorted_by Z.leb Problem.id
       (filter (fun problem => Str.eqb (Problem.contest_id problem) contest_id)
          problems)).

(** [(now - last_reviewed).total_seconds() / 86_400]. *)
Definition total_days (td : Py.timedelta) : Q :=
  inject_Z td / inject_Z Py.us_per_day.

(** The review state a result is stored as. *)
Definition stored (problem_id : Z) (update : FSRSUpdateResult.t)
    : FSRSState.t :=
  FSRSState.mk problem_id
    (FSRSUpdateResult.stability update)
    (FSRSUpdateResult.difficulty update)
    (FSRSUpdateResult.last_reviewed update)
    (FSRSUpdateResult.next_review_date update).

(** [_update_fsrs(problem_id, difficulty)] on the database.  [now] is the
    clock reading of the first line, [clock] the one that
    [calculate_next_review] takes.  [problem_id] is the primary key of the
    table of review states, so the query has one row at most; the row it
    finds is updated in place, and a new row is given a place by the
    engine.  An exception leaves the method before the commit. *)
Definition _update_fsrs (now clock : Py.datetime) (place : nat)
    (db : Tui.Database) (problem_id difficulty : Z) : result Tui.Database :=
  let state :=
    find (fun s => (FSRSState.problem_id s =? problem_id)%Z)
      (Tui.fsrs_states db) in
  let '(previous, elapsed_days) :=
    match state with
    | None => (FSRSReviewState.mk 0.5 5.0 now, 0.0)
    | Some state =>
        (FSRSReviewState.mk (FSRSState.stability state)
           (FSRSState.difficulty state) (FSRSState.last_reviewed state),
         Py.max 0.0 (total_days (now - FSRSState.last_reviewed state)%Z))
    end in
  update <- Fsrs.calculate_next_review clock previous difficulty elapsed_days ;;
  Ok (Tui.mkDatabase (Tui.problems db)
        match state with
        | None =>
            insert_at place (stored problem_id update) (Tui.fsrs_states db)
        | Some _ =>
            List.map
              (fun s =>
                 if (FSRSState.problem_id s =? problem_id)%Z
                 then stored problem_id update
                 else s)
              (Tui.fsrs_states db)
        end).

End TrainerApp.

(** Problem 7 of a contest, attempted once without success. *)
Definition one_failed_attempt : list Attempt.t :=
  [Attempt.mk 1 7 clock_2026 AttemptStatus.FAIL 120].

(* ================================================================== *)
(** ** tui.py: the selection of the practice tab *)

Module WeekData.
Record t : Type := mk {
  week : Str.str;
  problems : list ProblemData.t
}.
End WeekData.

Module Practice.

(** The place in a list of [n] elements that the index [i] names, a
    negative index counting from the end. *)
Definition place (n : nat) (i : Z) : nat :=
  Z.to_nat (if (i <? 0)%Z then Z.of_nat n + i else i).

(** [l[i]]; [None] stands for [IndexError]. *)
Definition getitem {A : Type} (l : list A) (i : Z) : option A :=
  let n := Z.of_nat (List.length l) in
  if ((i <? - n) || (n <=? i))%Z then None
  else nth_error l (place (List.length l) i).

(** The fields of the application that the two methods below read and
    write; the widgets they redraw are left out. *)
Record State : Type := mk {
  weeks : list WeekData.t;
  selected_week_index : Z;
  selected_problem_index : Z
}.

(** [weeks[i]["problems"] = problems], for an index that [weeks[i]] has
    accepted. *)
Definition set_problems (weeks : list WeekData.t) (i : Z)
    (problems : list ProblemData.t) : list WeekData.t :=
  let k := place (List.length weeks) i in
  match nth_error weeks k with
  | Some w =>
      firstn k weeks ++ WeekData.mk (WeekData.week w) problems
                        :: skipn (S k) weeks
  | None => weeks
  end.

(** [_populate_problems()], where [load] is
    [_load_problems_for_contest]; [None] stands for [IndexError]. *)
Definition _populate_problems (load : Str.str -> list ProblemData.t)
    (self : State) : option State :=
  match weeks self with
  | [] => Some self
  | _ :: _ =>
      match getitem (weeks self) (selected_week_index self) with
      | None => None
      | Some current_week =>
          let problems := load (WeekData.week current_week) in
          let stored :=
            set_problems (weeks self) (selected_week_index self) problems in
          match problems with
          | [] =>
              Some (mk stored (selected_week_index self)
                      (selected_problem_index self))
          | _ :: _ =>
              let last := (Z.of_nat (List.length problems) - 1)%Z in
              Some (mk stored (selected_week_index self)
                      (if (last <? selected_problem_index self)%Z
                       then last else selected_problem_index self))
          end
      end
  end.

(** [_selected_problem()]; the outer [None] stands for [IndexError]. *)
Definition _selected_problem (self : State)
    : option (option ProblemData.t) :=
  match weeks self with
  | [] => Some None
  | _ :: _ =>
      match getitem (weeks self) (selected_week_index self) with
      | None => None
      | Some week =>
          match WeekData.problems week with
          | [] => Some None
          | problems =>
              if (Z.of_nat (List.length problems)
                  <=? selected_problem_index self)%Z
              then Some None
              else
                match getitem problems (selected_problem_index self) with
                | None => None
                | Some problem => Some (Some problem)
                end
          end
      end
  end.

End Practice.

(* ================================================================== *)
(** ** scraper.py: navigation with retries *)

Module VJudgeScraper.

(** What one call of [page.goto] does: it returns, or raises
    [PlaywrightTimeoutError], or another [PlaywrightError], or an
    exception that the loop does not catch. *)
Inductive goto : Type :=
| Loaded
| TimeoutError
| Error
| Uncaught.

(** How [_goto_with_retries] ends. *)
Inductive ended : Type :=
| Returned
| RaisedTimeoutError
| RaisedScraperError
| RaisedUncaught.

(** What a call does: how it ends, the attempts at which [page.goto] was
    called, and the seconds of each [asyncio.sleep], in order. *)
Record run : Type := mkRun {
  outcome : ended;
  calls : list Z;
  sleeps : list Z
}.

(** [self.navigation_retries] as [__init__] sets it. *)
Definition navigation_retries (requested : Z) : Z := Py.maxZ 1 requested.

(** [min(2**attempt, 6)]. *)
Definition backoff (attempt : Z) : Z :=
  if (6 <? 2 ^ attempt)%Z then 6%Z else (2 ^ attempt)%Z.

(** The statements after the loop. *)
Definition after_loop (last_error : option goto) : ended :=
  match last_error with
  | Some TimeoutError => RaisedTimeoutError
  | _ => RaisedScraperError
  end.

(** The loop from [attempt] on, with [todo] turns left; [page attempt] is
    what the call of [page.goto] at that attempt does. *)
Fixpoint attempts (page : Z -> goto) (retries : Z) (todo : nat)
    (attempt : Z) (last_error : option goto) : run :=
  match todo with
  | O => mkRun (after_loop last_error) [] []
  | S todo' =>
      match page attempt with
      | Loaded => mkRun Returned [attempt] []
      | Uncaught => mkRun RaisedUncaught [attempt] []
      | exc =>
          let rest :=
            attempts page retries todo' (attempt + 1)%Z (Some exc) in
          mkRun (outcome rest) (attempt :: calls rest)
            ((if (attempt <? retries)%Z then [backoff attempt] else [])
             ++ sleeps rest)
      end
  end.

(** [_goto_with_retries(page, url)] of a scraper whose
    [navigation_retries] is [retries]: [range(1, retries + 1)] has
    [retries] turns. *)
Definition _goto_with_retries (page : Z -> goto) (retries : Z) : run :=
  attempts page retries (Z.to_nat retries) 1%Z None.

End VJudgeScraper.

(** A page that times out twice and loads at the third attempt. *)
Definition loads_at_third (attempt : Z) : VJudgeScraper.goto :=
  if (attempt <? 3)%Z then VJudgeScraper.TimeoutError
  else VJudgeScraper.Loaded.

(* ================================================================== *)
(** * Properties *)

(** ** Python built-ins *)

Lemma Qltb_true (a b : Q) : Py.Qltb a b = true <-> a < b.
Proof.
  unfold Py.Qltb. rewrite negb_true_iff.
  destruct (Qle_bool b a) eqn:E.
  - apply Qle_bool_iff in E. split; [discriminate | intros H; exfalso; lra].
  - split; [intros _ | reflexivity].
    apply Qnot_le_lt. intros H. apply Qle_bool_iff in H. congruence.
Qed.

Lemma Qltb_false (a b : Q) : Py.Qltb a b = false <-> b <= a.
Proof.
  unfold Py.Qltb. rewrite negb_false_iff. apply Qle_bool_iff.
Qed.

#[export] Instance Qltb_comp : Proper (Qeq ==> Qeq ==> eq) Py.Qltb.
Proof.
  intros a a' Ha b b' Hb. unfold Py.Qltb. now rewrite Ha, Hb.
Qed.

Lemma max_cases (a b : Q) :
  (a < b /\ Py.max a b = b) \/ (b <= a /\ Py.max a b = a).
Proof.
  unfold Py.max. destruct (Py.Qltb a b) eqn:E.
  - left. split; [now apply Qltb_true | reflexivity].
  - right. split; [now apply Qltb_false | reflexivity].
Qed.

Lemma min_cases (a b : Q) :
  (b < a /\ Py.min a b = b) \/ (a <= b /\ Py.min a b = a).
Proof.
  unfold Py.min. destruct (Py.Qltb b a) eqn:E.
  - left. split; [now apply Qltb_true | reflexivity].
  - right. split; [now apply Qltb_false | reflexivity].
Qed.

Lemma max_Qmax (a b : Q) : Py.max a b == Qmax a b.
Proof.
  destruct (max_cases a b) as [[H ->] | [H ->]].
  - symmetry. apply Q.max_r. lra.
  - symmetry. now apply Q.max_l.
Qed.

Lemma min_Qmin (a b : Q) : Py.min a b == Qmin a b.
Proof.
  destruct (min_cases a b) as [[H ->] | [H ->]].
  - symmetry. apply Q.min_r. lra.
  - symmetry. now apply Q.min_l.
Qed.

#[export] Instance max_comp : Proper (Qeq ==> Qeq ==> Qeq) Py.max.
Proof.
  intros a a' Ha b b' Hb. rewrite !max_Qmax. now rewrite Ha, Hb.
Qed.

#[export] Instance min_comp : Proper (Qeq ==> Qeq ==> Qeq) Py.min.
Proof.
  intros a a' Ha b b' Hb. rewrite !min_Qmin. now rewrite Ha, Hb.
Qed.

Lemma max_lower_l (a b : Q) : a <= Py.max a b.
Proof. destruct (max_cases a b) as [[H ->] | [H ->]]; lra. Qed.

Lemma max_lower_r (a b : Q) : b <= Py.max a b.
Proof. destruct (max_cases a b) as [[H ->] | [H ->]]; lra. Qed.

Lemma max_mono_l (a a' b : Q) : a <= a' -> Py.max a b <= Py.max a' b.
Proof.
  intros H.
  destruct (max_cases a b) as [[H1 ->] | [H1 ->]];
    destruct (max_cases a' b) as [[H2 ->] | [H2 ->]]; lra.
Qed.

Lemma max_mono_r (a b b' : Q) : b <= b' -> Py.max a b <= Py.max a b'.
Proof.
  intros H.
  destruct (max_cases a b) as [[H1 ->] | [H1 ->]];
    destruct (max_cases a b') as [[H2 ->] | [H2 ->]]; lra.
Qed.

Lemma min_mono_r (a b b' : Q) : b <= b' -> Py.min a b <= Py.min a b'.
Proof.
  intros H.
  destruct (min_cases a b) as [[H1 ->] | [H1 ->]];
    destruct (min_cases a b') as [[H2 ->] | [H2 ->]]; lra.
Qed.

Lemma maxZ_max (a b : Z) : Py.maxZ a b = Z.max a b.
Proof. unfold Py.maxZ. destruct (Z.ltb_spec a b); lia. Qed.


Lemma clamp_bounds (v low high : Q) :
  low <= high -> low <= Fsrs._clamp v low high /\ Fsrs._clamp v low high <= high.
Proof.
  intros H. unfold Fsrs._clamp.
  destruct (min_cases high v) as [[H1 E1] | [H1 E1]]; rewrite E1;
    destruct (max_cases low v) as [[H2 E2] | [H2 E2]];
    destruct (max_cases low high) as [[H3 E3] | [H3 E3]];
    rewrite ?E2, ?E3; lra.
Qed.

Lemma clamp_mono (v v' low high : Q) :
  v <= v' -> Fsrs._clamp v low high <= Fsrs._clamp v' low high.
Proof.
  intros H. unfold Fsrs._clamp. now apply max_mono_r, min_mono_r.
Qed.


#[export] Instance spec_clamp_comp :
  Proper (Qeq ==> Qeq ==> Qeq ==> Qeq) FsrsSpec.clamp.
Proof.
  intros v v' Hv l l' Hl h h' Hh. unfold FsrsSpec.clamp.
  apply Q.max_compat; [exact Hl |]. apply Q.min_compat; assumption.
Qed.

#[export] Instance clamp_comp : Proper (Qeq ==> Qeq ==> Qeq ==> Qeq) Fsrs._clamp.
Proof.
  intros v v' Hv l l' Hl h h' Hh. unfold Fsrs._clamp. now rewrite Hv, Hl, Hh.
Qed.

(** ** The review model *)



Lemma of_int_value (r : Rating.t) : Rating.of_int (Rating.value r) = Ok r.
Proof. now destruct r. Qed.

Lemma of_int_Ok (rating : Z) (r : Rating.t) :
  Rating.of_int rating = Ok r -> rating = Rating.value r.
Proof.
  unfold Rating.of_int.
  destruct (Z.eqb_spec rating 1); [intros [= <-]; assumption |].
  destruct (Z.eqb_spec rating 2); [intros [= <-]; assumption |].
  destruct (Z.eqb_spec rating 3); [intros [= <-]; assumption |].
  destruct (Z.eqb_spec rating 4); [intros [= <-]; assumption |].
  discriminate.
Qed.

Lemma of_int_valid (rating : Z) :
  (1 <= rating <= 4)%Z -> exists r, Rating.of_int rating = Ok r.
Proof.
  intros H.
  assert (C : rating = 1%Z \/ rating = 2%Z \/ rating = 3%Z \/ rating = 4%Z) by lia.
  destruct C as [-> | [-> | [-> | ->]]]; eexists; reflexivity.
Qed.

Lemma of_int_invalid (rating : Z) :
  ~ (1 <= rating <= 4)%Z -> Rating.of_int rating = Raise ValueError.
Proof.
  intros H. unfold Rating.of_int.
  destruct (Z.eqb_spec rating 1); [lia |].
  destruct (Z.eqb_spec rating 2); [lia |].
  destruct (Z.eqb_spec rating 3); [lia |].
  destruct (Z.eqb_spec rating 4); [lia |].
  reflexivity.
Qed.

Lemma safe_denominator (s : Q) : 0 < 9.0 * Py.max s 0.1.
Proof.
  pose proof (max_lower_r s 0.1). lra.
Qed.

Lemma safe_ratio_nonneg (s e : Q) : 0 <= Py.max e 0.0 / (9.0 * Py.max s 0.1).
Proof.
  pose proof (max_lower_r e 0.0) as He.
  pose proof (safe_denominator s) as Hs.
  unfold Qdiv. apply Qmult_le_0_compat; [lra |].
  apply Qinv_le_0_compat. lra.
Qed.

Lemma Qinv_antitone (x y : Q) : 0 < x -> x <= y -> / y <= / x.
Proof.
  intros Hx Hxy.
  apply Qle_shift_inv_r; [lra |].
  assert (E : / x * x == 1) by (field; lra).
  assert (P : 0 <= / x) by (apply Qinv_le_0_compat; lra).
  rewrite <- E. rewrite (Qmult_comm (/ x) y), (Qmult_comm (/ x) x).
  apply Qmult_le_compat_r; assumption.
Qed.

Lemma retrievability_bounds (s e : Q) :
  0 < Fsrs._retrievability s e /\ Fsrs._retrievability s e <= 1.
Proof.
  unfold Fsrs._retrievability. cbv zeta.
  pose proof (safe_ratio_nonneg s e) as H.
  set (q := Py.max e 0.0 / (9.0 * Py.max s 0.1)) in *.
  split.
  - apply Qinv_lt_0_compat. lra.
  - apply Qle_shift_inv_r; lra.
Qed.

Lemma retrievability_antitone (s e1 e2 : Q) :
  e1 <= e2 -> Fsrs._retrievability s e2 <= Fsrs._retrievability s e1.
Proof.
  intros H. unfold Fsrs._retrievability. cbv zeta.
  pose proof (safe_ratio_nonneg s e1) as H1.
  pose proof (safe_denominator s) as Hs.
  apply Qinv_antitone; [lra |].
  apply Qplus_le_r.
  unfold Qdiv. apply Qmult_le_compat_r.
  - now apply max_mono_l.
  - apply Qinv_le_0_compat. lra.
Qed.


Lemma days_after_Ok (now : Py.datetime) (n : Z) :
  Py.days_after_representable now n ->
  (delta <- Py.timedelta_days n ;; Py.datetime_add now delta)
  = Ok (now + n * Py.us_per_day)%Z.
Proof.
  intros [Hn [Hlo Hhi]]. unfold Py.timedelta_days, Py.datetime_add.
  destruct (Z.leb_spec (Z.abs n) 999999999); [| lia]. cbn [bind].
  destruct (Z.leb_spec 0 (now + n * Py.us_per_day)); [| lia].
  destruct (Z.leb_spec (now + n * Py.us_per_day) Py.datetime_max); [| lia].
  reflexivity.
Qed.

Lemma days_after_Raise (now : Py.datetime) (n : Z) :
  ~ Py.days_after_representable now n ->
  (delta <- Py.timedelta_days n ;; Py.datetime_add now delta)
  = Raise OverflowError.
Proof.
  intros H. unfold Py.timedelta_days, Py.datetime_add.
  destruct (Z.leb_spec (Z.abs n) 999999999); [| reflexivity]. cbn [bind].
  destruct (Z.leb_spec 0 (now + n * Py.us_per_day)); [| reflexivity].
  destruct (Z.leb_spec (now + n * Py.us_per_day) Py.datetime_max);
    [| reflexivity].
  exfalso. apply H. unfold Py.days_after_representable. lia.
Qed.

Lemma days_after_cases (now : Py.datetime) (n : Z) :
  Py.days_after_representable now n \/ ~ Py.days_after_representable now n.
Proof. unfold Py.days_after_representable. lia. Qed.

(** The shape of every call with a valid rating: the three numbers of the
    update, then the due date. *)
Lemma calculate_next_review_shape
    (now : Py.datetime) (s : FSRSReviewState.t) (r : Rating.t) (e : Q) :
  exists (nd ns : Q) (n : Z),
    (1 <= nd /\ nd <= 10) /\ 0.1 <= ns /\ (1 <= n)%Z /\
    (r = Rating.AGAIN -> n = 1%Z) /\
    Fsrs.calculate_next_review now s (Rating.value r) e
    = (delta <- Py.timedelta_days n ;;
       due <- Py.datetime_add now delta ;;
       Ok (FSRSUpdateResult.mk ns nd now due)).
Proof.
  unfold Fsrs.calculate_next_review. rewrite of_int_value. cbn [bind].
  assert (B : 1.0 <= 10.0) by lra.
  assert (C : forall v, 1 <= Fsrs._clamp v 1.0 10.0 /\ Fsrs._clamp v 1.0 10.0 <= 10).
  { intros v. destruct (clamp_bounds v B). split; lra. }
  destruct r; cbn [Rating.eqb Rating.value Z.eqb Pos.eqb];
    do 3 eexists; (split; [apply C |]);
    (split; [apply max_lower_l |]); (split; [| split; [| reflexivity]]);
    try (rewrite maxZ_max; lia); try discriminate; try reflexivity; lia.
Qed.

Lemma calculate_next_review_Ok_inv
    (now : Py.datetime) (s : FSRSReviewState.t) (rating : Z) (e : Q)
    (res : FSRSUpdateResult.t) :
  Fsrs.calculate_next_review now s rating e = Ok res ->
  exists (r : Rating.t) (n : Z),
    rating = Rating.value r /\ (1 <= n)%Z /\ (r = Rating.AGAIN -> n = 1%Z) /\
    Py.days_after_representable now n /\
    (1 <= FSRSUpdateResult.difficulty res /\
     FSRSUpdateResult.difficulty res <= 10) /\
    0.1 <= FSRSUpdateResult.stability res /\
    FSRSUpdateResult.last_reviewed res = now /\
    FSRSUpdateResult.next_review_date res = (now + n * Py.us_per_day)%Z.
Proof.
  intros H.
  destruct (Rating.of_int rating) as [r |] eqn:Er;
    [| unfold Fsrs.calculate_next_review in H; rewrite Er in H; discriminate].
  apply of_int_Ok in Er. subst rating.
  destruct (calculate_next_review_shape now s r e)
    as (nd & ns & n & Hnd & Hns & Hn & Hagain & E).
  rewrite E in H. clear E.
  exists r, n.
  destruct (days_after_cases now n) as [R | R].
  - pose proof (days_after_Ok R) as D.
    destruct (Py.timedelta_days n) as [delta |]; cbn [bind] in *; [| discriminate].
    rewrite D in H. cbn [bind] in H. injection H as <-. cbn. tauto.
  - pose proof (days_after_Raise R) as D.
    destruct (Py.timedelta_days n) as [delta |]; cbn [bind] in *; [| discriminate].
    rewrite D in H. discriminate.
Qed.

(** C5.  The state returned by [calculate_next_review] keeps the clamps:
    for every prior state, every rating in 1..4 and every
    [elapsed_days >= 0], the returned difficulty lies in [1, 10] and the
    returned stability is at least 0.1. *)
Theorem calculate_next_review_clamps
    (now : Py.datetime) (s : FSRSReviewState.t) (rating : Z) (e : Q)
    (res : FSRSUpdateResult.t) :
  (1 <= rating <= 4)%Z -> 0 <= e ->
  Fsrs.calculate_next_review now s rating e = Ok res ->
  1.0 <= FSRSUpdateResult.difficulty res /\
  FSRSUpdateResult.difficulty res <= 10.0 /\
  0.1 <= FSRSUpdateResult.stability res.
Proof.
  intros _ _ H.
  destruct (calculate_next_review_Ok_inv _ _ _ _ H)
    as (r & n & _ & _ & _ & _ & [Hlo Hhi] & Hs & _).
  repeat split; lra.
Qed.

Lemma calculate_next_review_clamps_witness :
  exists res,
    Fsrs.calculate_next_review clock_2026 fresh_state 3 1 = Ok res /\
    1.0 <= FSRSUpdateResult.difficulty res /\
    FSRSUpdateResult.difficulty res <= 10.0 /\
    0.1 <= FSRSUpdateResult.stability res.
Proof.
  eexists. split; [vm_compute; reflexivity |].
  apply (@calculate_next_review_clamps clock_2026 fresh_state 3 1).
  - lia.
  - discriminate.
  - vm_compute. reflexivity.
Defined.

(** C6.  For the rating Again the interval is exactly one day, whatever
    the prior stability, the prior difficulty and the elapsed time: as
    long as the clock is a day before the end of the calendar, a result is
    returned, its [last_reviewed] is the clock reading and its
    [next_review_date] is exactly one day later. *)
Theorem again_interval_is_one_day
    (now : Py.datetime) (s : FSRSReviewState.t) (e : Q) :
  (0 <= now)%Z -> (now + Py.us_per_day <= Py.datetime_max)%Z ->
  exists res,
    Fsrs.calculate_next_review now s (Rating.value Rating.AGAIN) e = Ok res /\
    FSRSUpdateResult.last_reviewed res = now /\
    FSRSUpdateResult.next_review_date res
    = (FSRSUpdateResult.last_reviewed res + 1 * Py.us_per_day)%Z.
Proof.
  intros Hlo Hhi.
  destruct (calculate_next_review_shape now s Rating.AGAIN e)
    as (nd & ns & n & _ & _ & _ & Hn & E).
  rewrite (Hn eq_refl) in E.
  assert (R : Py.days_after_representable now 1).
  { unfold Py.days_after_representable, Py.us_per_day in *. lia. }
  pose proof (days_after_Ok R) as D.
  rewrite E. destruct (Py.timedelta_days 1) as [delta |]; cbn [bind] in *;
    [| discriminate].
  rewrite D. cbn [bind]. eexists. split; [reflexivity |]. cbn. split; reflexivity.
Qed.

Lemma again_interval_is_one_day_witness :
  exists res,
    Fsrs.calculate_next_review clock_2026
      (FSRSReviewState.mk 40 7.5 clock_2026) (Rating.value Rating.AGAIN) 12
    = Ok res /\
    FSRSUpdateResult.last_reviewed res = clock_2026 /\
    FSRSUpdateResult.next_review_date res
    = (FSRSUpdateResult.last_reviewed res + 1 * Py.us_per_day)%Z.
Proof.
  apply (@again_interval_is_one_day clock_2026
           (FSRSReviewState.mk 40 7.5 clock_2026) 12).
  - vm_compute. discriminate.
  - vm_compute. discriminate.
Defined.

(** C7.  Every result of [calculate_next_review] has
    [next_review_date >= last_reviewed], and the two are a whole number of
    days apart, at least one. *)
Theorem next_review_whole_days_ahead
    (now : Py.datetime) (s : FSRSReviewState.t) (rating : Z) (e : Q)
    (res : FSRSUpdateResult.t) :
  Fsrs.calculate_next_review now s rating e = Ok res ->
  (FSRSUpdateResult.last_reviewed res <= FSRSUpdateResult.next_review_date res)%Z /\
  exists n : Z,
    (1 <= n)%Z /\
    FSRSUpdateResult.next_review_date res
    = (FSRSUpdateResult.last_reviewed res + n * Py.us_per_day)%Z.
Proof.
  intros H.
  destruct (calculate_next_review_Ok_inv _ _ _ _ H)
    as (r & n & _ & Hn & _ & _ & _ & _ & Hl & Hd).
  rewrite Hl, Hd. split.
  - unfold Py.us_per_day. lia.
  - exists n. split; [assumption | reflexivity].
Qed.

Lemma next_review_whole_days_ahead_witness :
  exists res,
    Fsrs.calculate_next_review clock_2026 fresh_state 4 3 = Ok res /\
    (FSRSUpdateResult.last_reviewed res <= FSRSUpdateResult.next_review_date res)%Z /\
    exists n : Z,
      (1 <= n)%Z /\
      FSRSUpdateResult.next_review_date res
      = (FSRSUpdateResult.last_reviewed res + n * Py.us_per_day)%Z.
Proof.
  eexists. split; [vm_compute; reflexivity |].
  apply (@next_review_whole_days_ahead clock_2026 fresh_state 4 3).
  vm_compute. reflexivity.
Defined.

(** C8.  For the rating Again, with the prior state fixed, a longer
    [elapsed_days] never gives a smaller difficulty penalty
    [0.6 * (1 - r)]; hence the difficulty returned never decreases
    either. *)
Theorem again_penalty_monotone
    (now : Py.datetime) (s : FSRSReviewState.t) (e1 e2 : Q) :
  e1 <= e2 ->
  let previous_stability := Py.max (FSRSReviewState.stability s) 0.1 in
  0.6 * (1.0 - Fsrs._retrievability previous_stability e1)
  <= 0.6 * (1.0 - Fsrs._retrievability previous_stability e2)
  /\
  forall res1 res2,
    Fsrs.calculate_next_review now s (Rating.value Rating.AGAIN) e1 = Ok res1 ->
    Fsrs.calculate_next_review now s (Rating.value Rating.AGAIN) e2 = Ok res2 ->
    FSRSUpdateResult.difficulty res1 <= FSRSUpdateResult.difficulty res2.
Proof.
  intros H ps.
  pose proof (retrievability_antitone ps H) as A.
  assert (P : 0.6 * (1.0 - Fsrs._retrievability ps e1)
              <= 0.6 * (1.0 - Fsrs._retrievability ps e2)) by lra.
  split; [exact P |].
  intros res1 res2. unfold Fsrs.calculate_next_review.
  cbn [Rating.value Rating.of_int Z.eqb Pos.eqb bind Rating.eqb].
  fold ps.
  destruct (Py.timedelta_days 1) as [delta |]; cbn [bind]; [| discriminate].
  destruct (Py.datetime_add now delta) as [due |]; cbn [bind]; [| discriminate].
  intros [= <-] [= <-]. cbn [FSRSUpdateResult.difficulty].
  apply clamp_mono. lra.
Qed.

Lemma again_penalty_monotone_witness :
  0.6 * (1.0 - Fsrs._retrievability (Py.max 0.5 0.1) 1)
  <= 0.6 * (1.0 - Fsrs._retrievability (Py.max 0.5 0.1) 30).
Proof.
  apply (@again_penalty_monotone clock_2026 fresh_state 1 30).
  vm_compute. discriminate.
Defined.

(** C10, as the claim states it, fails: a rating in 1..4 does not always
    give a result.  With a prior stability of ten million days and the
    rating Easy the interval is 32 000 000 days, the due date lies after
    [datetime.max], and the call raises [OverflowError]. *)
Lemma valid_rating_without_result :
  (1 <= 4 <= 4)%Z /\
  Fsrs.calculate_next_review clock_2026
    (FSRSReviewState.mk 10000000 5.0 clock_2026) 4 0
  = Raise OverflowError.
Proof. split; [lia | vm_compute; reflexivity]. Qed.

(** C10, amended.  [calculate_next_review] validates its rating at entry:
    every integer outside 1..4 raises [ValueError] and gives no result;
    for every rating in 1..4 the conversion succeeds, [ValueError] is not
    raised, and there is an interval of [n >= 1] days ([n = 1] for Again)
    such that the call returns a result due [n] days after the clock
    reading when that instant is a representable [datetime], and raises
    [OverflowError] when it is not. *)
Theorem rating_validated_at_entry
    (now : Py.datetime) (s : FSRSReviewState.t) (rating : Z) (e : Q) :
  (~ (1 <= rating <= 4)%Z ->
   Fsrs.calculate_next_review now s rating e = Raise ValueError) /\
  ((1 <= rating <= 4)%Z ->
   exists (r : Rating.t) (n : Z),
     Rating.of_int rating = Ok r /\ (1 <= n)%Z /\
     (rating = 1%Z -> n = 1%Z) /\
     (Py.days_after_representable now n ->
      exists res,
        Fsrs.calculate_next_review now s rating e = Ok res /\
        FSRSUpdateResult.next_review_date res = (now + n * Py.us_per_day)%Z) /\
     (~ Py.days_after_representable now n ->
      Fsrs.calculate_next_review now s rating e = Raise OverflowError)).
Proof.
  split.
  - intros H. unfold Fsrs.calculate_next_review.
    now rewrite (of_int_invalid H).
  - intros H. destruct (of_int_valid H) as [r Er].
    pose proof (of_int_Ok _ Er) as ->.
    destruct (calculate_next_review_shape now s r e)
      as (nd & ns & n & _ & _ & Hn & Hagain & E).
    exists r, n. split; [assumption |]. split; [assumption |].
    split; [intros V; apply Hagain; now destruct r |].
    rewrite E. split; intros R.
    + pose proof (days_after_Ok R) as D.
      destruct (Py.timedelta_days n) as [delta |]; cbn [bind] in *;
        [| discriminate].
      rewrite D. cbn [bind]. eexists. split; reflexivity.
    + pose proof (days_after_Raise R) as D.
      destruct (Py.timedelta_days n) as [delta |]; cbn [bind] in *;
        [| now injection D as ->].
      now rewrite D.
Qed.




(** On a prior state that respects the data model (stability at least
    0.1, difficulty within [1, 10]) sanitizing changes nothing. *)
Lemma sanitize_valid_state (prior : FSRSReviewState.t) :
  0.1 <= FSRSReviewState.stability prior ->
  1 <= FSRSReviewState.difficulty prior ->
  FSRSReviewState.difficulty prior <= 10 ->
  Py.max (FSRSReviewState.stability prior) 0.1
  == FSRSReviewState.stability prior /\
  Fsrs._clamp (FSRSReviewState.difficulty prior) 1.0 10.0
  == FSRSReviewState.difficulty prior.
Proof.
  intros Hs Hlo Hhi. split.
  - destruct (max_cases (FSRSReviewState.stability prior) 0.1)
      as [[H ->] | [H ->]]; lra.
  - unfold Fsrs._clamp.
    destruct (min_cases 10.0 (FSRSReviewState.difficulty prior))
      as [[H E] | [H E]]; rewrite E;
      match goal with
      | |- Py.max ?a ?b == _ =>
          destruct (max_cases a b) as [[H' ->] | [H' ->]]; lra
      end.
Qed.



(* ================================================================== *)
(** ** [sorted] *)

Section Sorting.

Variables (A K : Type) (le : K -> K -> bool) (key : A -> K).

Hypothesis le_total : forall a b, le a b = false -> le b a = true.
Hypothesis le_trans :
  forall a b c, le a b = true -> le b c = true -> le a c = true.

Local Notation "'ordered'" := (fun x y : A => le (key x) (key y) = true).

Lemma insert_by_perm (x : A) (l : list A) :
  Permutation (Py.insert_by le key x l) (x :: l).
Proof.
  induction l as [| y l IH]; cbn; [reflexivity |].
  destruct (le (key x) (key y)); [reflexivity |].
  rewrite IH. apply perm_swap.
Qed.

Lemma sorted_by_perm (l : list A) : Permutation (Py.sorted_by le key l) l.
Proof.
  induction l as [| x l IH]; cbn; [reflexivity |].
  rewrite insert_by_perm. now rewrite IH.
Qed.

Lemma insert_by_sorted (x : A) (l : list A) :
  StronglySorted ordered l -> StronglySorted ordered (Py.insert_by le key x l).
Proof.
  induction 1 as [| y l Hl IH Hy]; cbn.
  - constructor; constructor.
  - destruct (le (key x) (key y)) eqn:E.
    + constructor; [now constructor |].
      constructor; [exact E |].
      eapply Forall_impl; [| exact Hy].
      intros z Hz. cbn in *. eauto.
    + constructor; [exact IH |].
      eapply Permutation_Forall; [symmetry; apply insert_by_perm |].
      constructor; [| exact Hy]. auto.
Qed.

Lemma sorted_by_sorted (l : list A) :
  StronglySorted ordered (Py.sorted_by le key l).
Proof.
  induction l as [| x l IH]; cbn; [constructor | now apply insert_by_sorted].
Qed.

End Sorting.


Lemma Zleb_total (a b : Z) : (a <=? b)%Z = false -> (b <=? a)%Z = true.
Proof. destruct (Z.leb_spec a b), (Z.leb_spec b a); auto; lia. Qed.

Lemma Zleb_trans (a b c : Z) :
  (a <=? b)%Z = true -> (b <=? c)%Z = true -> (a <=? c)%Z = true.
Proof. rewrite !Z.leb_le. lia. Qed.

Lemma str_leb_total (a b : Str.str) :
  Str.leb a b = false -> Str.leb b a = true.
Proof.
  revert b. induction a as [| x a IH]; intros [| y b]; cbn; auto; try discriminate.
  destruct (N.ltb_spec x y), (N.eqb_spec x y), (N.ltb_spec y x), (N.eqb_spec y x);
    auto; try discriminate; lia.
Qed.

Lemma str_leb_trans (a b c : Str.str) :
  Str.leb a b = true -> Str.leb b c = true -> Str.leb a c = true.
Proof.
  revert b c. induction a as [| x a IH]; intros [| y b] [| z c]; cbn; auto;
    try discriminate.
  destruct (N.ltb_spec x y), (N.eqb_spec x y), (N.ltb_spec y z), (N.eqb_spec y z),
    (N.ltb_spec x z), (N.eqb_spec x z); auto; try discriminate; try lia.
  apply IH.
Qed.

(* ================================================================== *)
(** ** The verification harness *)

Lemma join_blocks_nil : Str.join [Str.LF; Str.LF] [] = [].
Proof. reflexivity. Qed.

(** One turn of the loop adds the diagnostic of its case, if any. *)
Lemma test_case_step (w : Workflow.World) (st : Workflow.Run)
    (f : Str.str * Str.str) :
  Workflow.test_case w st f
  = Workflow.mkRun
      (Workflow.all_passed st
       && WorkflowSpec.no_diagnostic (WorkflowSpec.case_diagnostic w f))
      (Workflow.logs st
       ++ WorkflowSpec.blocks [WorkflowSpec.case_diagnostic w f])
      (Workflow.executed st
       ++ (if WorkflowSpec.has_expected w f then [fst f] else [])).
Proof.
  unfold Workflow.test_case, WorkflowSpec.case_diagnostic,
    WorkflowSpec.has_expected.
  destruct (Workflow.read_text (Workflow.directory w)
              (Workflow.with_suffix_out (fst f))) as [expected |]; cbv zeta.
  - destruct (CompletedProcess.returncode
                (Workflow.solution_bin w (snd f)) =? 0)%Z; cbn [negb].
    + destruct (Str.eqb _ _); cbn [negb WorkflowSpec.no_diagnostic
                                   WorkflowSpec.blocks].
      * destruct st as [p l e]. cbn. now rewrite andb_true_r, app_nil_r.
      * rewrite andb_false_r. f_equal. f_equal. cbn [Str.join].
        now rewrite <- !app_assoc.
    + cbn [WorkflowSpec.no_diagnostic WorkflowSpec.blocks].
      now rewrite andb_false_r.
  - cbn [WorkflowSpec.no_diagnostic WorkflowSpec.blocks].
    now rewrite andb_false_r, app_nil_r.
Qed.

Lemma blocks_app (a b : list (option Str.str)) :
  WorkflowSpec.blocks (a ++ b) = WorkflowSpec.blocks a ++ WorkflowSpec.blocks b.
Proof.
  induction a as [| [d |] a IH]; cbn; [reflexivity | now rewrite IH | exact IH].
Qed.

(** The loop as a whole: every file of the list is visited, in order. *)
Lemma fold_test_case (w : Workflow.World) (files : list (Str.str * Str.str))
    (st : Workflow.Run) :
  fold_left (Workflow.test_case w) files st
  = Workflow.mkRun
      (Workflow.all_passed st
       && forallb WorkflowSpec.no_diagnostic
            (List.map (WorkflowSpec.case_diagnostic w) files))
      (Workflow.logs st
       ++ WorkflowSpec.blocks (List.map (WorkflowSpec.case_diagnostic w) files))
      (Workflow.executed st
       ++ List.map fst (filter (WorkflowSpec.has_expected w) files)).
Proof.
  revert st. induction files as [| f files IH]; intros st.
  - destruct st. cbn. now rewrite andb_true_r, !app_nil_r.
  - cbn [fold_left]. rewrite IH, test_case_step.
    cbn [Workflow.all_passed Workflow.logs Workflow.executed List.map forallb
         filter].
    rewrite <- andb_assoc, <- !app_assoc. f_equal.
    + f_equal. change (?x :: ?l) with ([x] ++ l) at 2. apply eq_sym, blocks_app.
    + f_equal. now destruct (WorkflowSpec.has_expected w f).
Qed.

Lemma run_tests_aggregate (w : Workflow.World) (file_path : Str.str) :
  Workflow.source_exists w = true ->
  CompletedProcess.returncode (Workflow.compile_proc w) = 0%Z ->
  Workflow.input_files w <> [] ->
  let diagnostics :=
    List.map (WorkflowSpec.case_diagnostic w) (Workflow.input_files w) in
  Workflow.run_tests w file_path
  = (forallb WorkflowSpec.no_diagnostic diagnostics,
     Str.join [Str.LF; Str.LF] (WorkflowSpec.blocks diagnostics),
     List.map fst (filter (WorkflowSpec.has_expected w) (Workflow.input_files w))).
Proof.
  intros Hs Hc Hf diagnostics. unfold Workflow.run_tests.
  rewrite Hs, Hc. cbn [negb Z.eqb].
  destruct (Workflow.input_files w) as [| f files] eqn:E; [contradiction |].
  rewrite fold_test_case. reflexivity.
Qed.

Lemma blocks_all_pass (ds : list (option Str.str)) :
  forallb WorkflowSpec.no_diagnostic ds = true -> WorkflowSpec.blocks ds = [].
Proof.
  induction ds as [| [d |] ds IH]; cbn; [reflexivity | discriminate | exact IH].
Qed.

Lemma input_files_sorted (w : Workflow.World) :
  Permutation (Workflow.input_files w) (Workflow.glob_in (Workflow.directory w))
  /\ StronglySorted (fun a b => Str.leb (fst a) (fst b) = true)
       (Workflow.input_files w).
Proof.
  split.
  - apply sorted_by_perm.
  - apply sorted_by_sorted; [apply str_leb_total | apply str_leb_trans].
Qed.

(** C2.  In a workspace whose source exists and compiles and that holds
    test-case input files, [run_tests] visits every input file, in the
    order of the file names, whether or not an earlier case failed; the
    verdict is true exactly when no case produced a diagnostic; the
    diagnostics text is the blocks of the cases that produced one, joined
    by a blank line, and is empty when all the cases pass; the binary is
    executed on every case that has an expected output file.  With three
    cases of which only the second lacks its expected output file, the
    verdict is false, the missing-file block of the second case is
    reported (and is the whole text when the other two pass), and the
    binary is executed on the first and the third case. *)
Theorem run_tests_attempts_every_case
    (w : Workflow.World) (file_path : Str.str) :
  Workflow.source_exists w = true ->
  CompletedProcess.returncode (Workflow.compile_proc w) = 0%Z ->
  Workflow.input_files w <> [] ->
  let cases := Workflow.input_files w in
  let diagnostics := List.map (WorkflowSpec.case_diagnostic w) cases in
  (Permutation cases (Workflow.glob_in (Workflow.directory w)) /\
   StronglySorted (fun a b => Str.leb (fst a) (fst b) = true) cases) /\
  Workflow.run_tests w file_path
  = (forallb WorkflowSpec.no_diagnostic diagnostics,
     Str.join [Str.LF; Str.LF] (WorkflowSpec.blocks diagnostics),
     List.map fst (filter (WorkflowSpec.has_expected w) cases)) /\
  (forallb WorkflowSpec.no_diagnostic diagnostics = true ->
   snd (fst (Workflow.run_tests w file_path)) = []) /\
  (forall c1 c2 c3,
     cases = [c1; c2; c3] ->
     WorkflowSpec.has_expected w c1 = true ->
     WorkflowSpec.has_expected w c2 = false ->
     WorkflowSpec.has_expected w c3 = true ->
     let missing :=
       Str.lit "Missing expected output file: "
       ++ Workflow.with_suffix_out (fst c2) in
     fst (fst (Workflow.run_tests w file_path)) = false /\
     snd (Workflow.run_tests w file_path) = [fst c1; fst c3] /\
     In missing (WorkflowSpec.blocks diagnostics) /\
     (WorkflowSpec.case_diagnostic w c1 = None ->
      WorkflowSpec.case_diagnostic w c3 = None ->
      snd (fst (Workflow.run_tests w file_path)) = missing)).
Proof.
  intros Hs Hc Hf cases diagnostics.
  pose proof (run_tests_aggregate w file_path Hs Hc Hf) as R.
  cbv zeta in R. fold cases in R. fold diagnostics in R.
  split; [apply input_files_sorted |].
  split; [exact R |].
  split.
  - intros Hall. rewrite R. cbn [fst snd].
    now rewrite (blocks_all_pass _ Hall).
  - intros c1 c2 c3 E H1 H2 H3 missing. rewrite R. cbn [fst snd].
    assert (D2 : WorkflowSpec.case_diagnostic w c2 = Some missing).
    { unfold WorkflowSpec.case_diagnostic. unfold WorkflowSpec.has_expected in H2.
      destruct (Workflow.read_text (Workflow.directory w)
                  (Workflow.with_suffix_out (fst c2))); [discriminate | reflexivity]. }
    unfold diagnostics. rewrite E. cbn [List.map forallb filter].
    rewrite H1, H2, H3, D2. cbn [WorkflowSpec.no_diagnostic List.map fst].
    split; [now rewrite andb_false_r |].
    split; [reflexivity |].
    split.
    + cbn [WorkflowSpec.blocks].
      destruct (WorkflowSpec.case_diagnostic w c1);
        destruct (WorkflowSpec.case_diagnostic w c3); cbn; auto.
    + intros -> ->. reflexivity.
Qed.

Lemma run_tests_attempts_every_case_witness :
  Workflow.run_tests three_cases (Str.lit "solution.cpp")
  = (false, Str.lit "Missing expected output file: test_2.out",
     [Str.lit "test_1.in"; Str.lit "test_3.in"]).
Proof.
  assert (Hs : Workflow.source_exists three_cases = true) by reflexivity.
  assert (Hc : CompletedProcess.returncode (Workflow.compile_proc three_cases)
               = 0%Z) by reflexivity.
  assert (Hf : Workflow.input_files three_cases <> [])
    by (vm_compute; discriminate).
  destruct (@run_tests_attempts_every_case three_cases
              (Str.lit "solution.cpp") Hs Hc Hf) as (_ & R & _ & _).
  rewrite R. vm_compute. reflexivity.
Defined.

(* ================================================================== *)
(** ** Texts: trimming *)

Lemma isspace_LF : Str.isspace Str.LF = true.
Proof. reflexivity. Qed.

Lemma isspace_CR : Str.isspace Str.CR = true.
Proof. reflexivity. Qed.

Lemma str_eqb_eq (a b : Str.str) : Str.eqb a b = true <-> a = b.
Proof.
  revert b. induction a as [| x a IH]; intros [| y b]; cbn;
    try (split; [discriminate | discriminate]); [tauto |].
  rewrite andb_true_iff, N.eqb_eq, IH. split; [intros [-> ->] | intros [= -> ->]]; auto.
Qed.

Lemma rstrip_nil_iff (s : Str.str) :
  Str.rstrip s = [] <-> WorkflowSpec.blank s = true.
Proof.
  induction s as [| c s IH]; cbn; [tauto |].
  destruct (Str.rstrip s) as [| r rs].
  - destruct (Str.isspace c); cbn; [tauto |].
    split; discriminate.
  - split; [discriminate |]. rewrite andb_true_iff. intros [_ H].
    now apply IH in H.
Qed.

Lemma rstrip_cons (c : Str.char) (s : Str.str) :
  Str.rstrip (c :: s)
  = if Str.isspace c && WorkflowSpec.blank s then [] else c :: Str.rstrip s.
Proof.
  cbn [Str.rstrip].
  destruct (WorkflowSpec.blank s) eqn:B.
  - apply rstrip_nil_iff in B. rewrite B, andb_true_r.
    now destruct (Str.isspace c).
  - rewrite andb_false_r. destruct (Str.rstrip s) eqn:R; [| reflexivity].
    apply rstrip_nil_iff in R. congruence.
Qed.

Lemma rstrip_blank (s : Str.str) :
  WorkflowSpec.blank s = true -> Str.rstrip s = [].
Proof. apply rstrip_nil_iff. Qed.

Lemma lstrip_blank (s : Str.str) :
  WorkflowSpec.blank s = true -> Str.lstrip s = [].
Proof.
  induction s as [| c s IH]; cbn; [reflexivity |].
  rewrite andb_true_iff. intros [-> H]. auto.
Qed.

Lemma blank_cons (c : Str.char) (s : Str.str) :
  WorkflowSpec.blank (c :: s) = Str.isspace c && WorkflowSpec.blank s.
Proof. reflexivity. Qed.

Lemma blank_rstrip (s : Str.str) :
  WorkflowSpec.blank (Str.rstrip s) = WorkflowSpec.blank s.
Proof.
  induction s as [| c s IH]; [reflexivity |]. rewrite rstrip_cons, blank_cons.
  destruct (Str.isspace c) eqn:C, (WorkflowSpec.blank s) eqn:B;
    cbn [andb]; rewrite ?blank_cons, ?C, ?IH; reflexivity.
Qed.

Lemma blank_lstrip (s : Str.str) :
  WorkflowSpec.blank (Str.lstrip s) = WorkflowSpec.blank s.
Proof.
  induction s as [| c s IH]; [reflexivity |]. cbn [Str.lstrip].
  rewrite blank_cons.
  destruct (Str.isspace c) eqn:C; [exact IH |].
  now rewrite blank_cons, C.
Qed.

Lemma blank_app (a b : Str.str) :
  WorkflowSpec.blank (a ++ b) = WorkflowSpec.blank a && WorkflowSpec.blank b.
Proof. apply forallb_app. Qed.

Lemma rstrip_app (a b : Str.str) :
  Str.rstrip (a ++ b)
  = if WorkflowSpec.blank b then Str.rstrip a else a ++ Str.rstrip b.
Proof.
  induction a as [| c a IH].
  - cbn [app]. destruct (WorkflowSpec.blank b) eqn:B; [| reflexivity].
    now apply rstrip_blank.
  - cbn [app]. rewrite !rstrip_cons, IH, blank_app.
    destruct (WorkflowSpec.blank b).
    + now rewrite andb_true_r.
    + now rewrite andb_false_r, andb_false_r.
Qed.

Lemma lstrip_app (a b : Str.str) :
  Str.lstrip (a ++ b)
  = if WorkflowSpec.blank a then Str.lstrip b else Str.lstrip a ++ b.
Proof.
  induction a as [| c a IH]; [reflexivity |]. cbn.
  destruct (Str.isspace c); cbn; [exact IH | reflexivity].
Qed.

Lemma rstrip_idem (s : Str.str) : Str.rstrip (Str.rstrip s) = Str.rstrip s.
Proof.
  induction s as [| c s IH]; [reflexivity |]. rewrite rstrip_cons.
  destruct (Str.isspace c && WorkflowSpec.blank s) eqn:E; [reflexivity |].
  rewrite rstrip_cons, blank_rstrip, E, IH. reflexivity.
Qed.

Lemma lstrip_idem (s : Str.str) : Str.lstrip (Str.lstrip s) = Str.lstrip s.
Proof.
  induction s as [| c s IH]; [reflexivity |]. cbn.
  destruct (Str.isspace c) eqn:C; [exact IH |]. cbn. now rewrite C.
Qed.

Lemma lstrip_rstrip (s : Str.str) :
  Str.lstrip (Str.rstrip s) = Str.rstrip (Str.lstrip s).
Proof.
  induction s as [| c s IH]; [reflexivity |]. rewrite rstrip_cons.
  cbn [Str.lstrip].
  destruct (Str.isspace c) eqn:C; cbn [andb].
  - destruct (WorkflowSpec.blank s) eqn:B.
    + now rewrite (lstrip_blank _ B).
    + cbn [Str.lstrip]. now rewrite C.
  - cbn [Str.lstrip]. rewrite C, rstrip_cons, C. reflexivity.
Qed.

(* ================================================================== *)
(** ** Texts: lines *)

Lemma join_cons (sep l : Str.str) (ls : list Str.str) :
  Str.join sep (l :: ls)
  = l ++ match ls with [] => [] | _ :: _ => sep ++ Str.join sep ls end.
Proof. destruct ls; cbn [Str.join]; [now rewrite app_nil_r | reflexivity]. Qed.

Lemma blank_join (ls : list Str.str) :
  WorkflowSpec.blank (Str.join [Str.LF] ls) = forallb WorkflowSpec.blank ls.
Proof.
  induction ls as [| l ls IH]; [reflexivity |].
  rewrite join_cons, blank_app. cbn [forallb]. f_equal.
  destruct ls as [| l' ls]; [reflexivity |].
  change ([Str.LF] ++ ?x) with (Str.LF :: x).
  rewrite blank_cons, isspace_LF. exact IH.
Qed.

Lemma drop_trailing_blank_nil_iff (ls : list Str.str) :
  WorkflowSpec.drop_trailing_blank ls = [] <-> forallb WorkflowSpec.blank ls = true.
Proof.
  induction ls as [| l ls IH]; cbn; [tauto |].
  destruct (WorkflowSpec.drop_trailing_blank ls) as [| r rs].
  - assert (E : forallb WorkflowSpec.blank ls = true) by now apply IH.
    rewrite E, andb_true_r.
    destruct (WorkflowSpec.blank l); split; auto; discriminate.
  - split; [discriminate |]. rewrite andb_true_iff. intros [_ H].
    now apply IH in H.
Qed.

Lemma trim_end_nil_iff (ls : list Str.str) :
  WorkflowSpec.trim_end ls = [] <-> forallb WorkflowSpec.blank ls = true.
Proof.
  induction ls as [| l ls IH]; cbn; [tauto |].
  destruct (WorkflowSpec.trim_end ls) as [| r rs].
  - assert (E : forallb WorkflowSpec.blank ls = true) by now apply IH.
    rewrite E, andb_true_r.
    destruct (WorkflowSpec.blank l); split; auto; discriminate.
  - split; [discriminate |]. rewrite andb_true_iff. intros [_ H].
    now apply IH in H.
Qed.

Lemma drop_trailing_blank_cons (l : Str.str) (ls : list Str.str) :
  WorkflowSpec.drop_trailing_blank (l :: ls)
  = if forallb WorkflowSpec.blank (l :: ls) then []
    else l :: WorkflowSpec.drop_trailing_blank ls.
Proof.
  cbn [WorkflowSpec.drop_trailing_blank forallb].
  destruct (forallb WorkflowSpec.blank ls) eqn:B.
  - apply drop_trailing_blank_nil_iff in B. rewrite B, andb_true_r.
    now destruct (WorkflowSpec.blank l).
  - rewrite andb_false_r.
    destruct (WorkflowSpec.drop_trailing_blank ls) eqn:R; [| reflexivity].
    apply drop_trailing_blank_nil_iff in R. congruence.
Qed.

Lemma trim_end_cons (l : Str.str) (ls : list Str.str) :
  WorkflowSpec.trim_end (l :: ls)
  = if forallb WorkflowSpec.blank ls
    then (if WorkflowSpec.blank l then [] else [Str.rstrip l])
    else l :: WorkflowSpec.trim_end ls.
Proof.
  cbn [WorkflowSpec.trim_end].
  destruct (forallb WorkflowSpec.blank ls) eqn:B.
  - apply trim_end_nil_iff in B. now rewrite B.
  - destruct (WorkflowSpec.trim_end ls) eqn:R; [| reflexivity].
    apply trim_end_nil_iff in R. congruence.
Qed.

(** Right-trimming a text, seen on its lines. *)
Lemma rstrip_join (ls : list Str.str) :
  Str.rstrip (Str.join [Str.LF] ls)
  = Str.join [Str.LF] (WorkflowSpec.trim_end ls).
Proof.
  induction ls as [| l ls IH]; [reflexivity |].
  rewrite join_cons, trim_end_cons, rstrip_app.
  destruct ls as [| l' ls].
  - cbn [forallb WorkflowSpec.blank].
    destruct (WorkflowSpec.blank l) eqn:B; cbn [Str.join]; [| reflexivity].
    now apply rstrip_blank.
  - change ([Str.LF] ++ ?x) with (Str.LF :: x).
    rewrite blank_cons, isspace_LF, blank_join. cbn [andb].
    destruct (forallb WorkflowSpec.blank (l' :: ls)) eqn:B.
    + destruct (WorkflowSpec.blank l) eqn:Bl; cbn [Str.join]; [| reflexivity].
      now apply rstrip_blank.
    + rewrite rstrip_cons, isspace_LF, blank_join, B. cbn [andb].
      rewrite IH, join_cons.
      destruct (WorkflowSpec.trim_end (l' :: ls)) eqn:R; [| reflexivity].
      apply trim_end_nil_iff in R. congruence.
Qed.

(** Left-trimming a text, seen on its lines. *)
Lemma lstrip_join (ls : list Str.str) :
  Str.lstrip (Str.join [Str.LF] ls)
  = Str.join [Str.LF] (WorkflowSpec.trim_start ls).
Proof.
  induction ls as [| l ls IH]; [reflexivity |].
  rewrite join_cons, lstrip_app. cbn [WorkflowSpec.trim_start].
  destruct (WorkflowSpec.blank l).
  - destruct ls as [| l' ls]; [reflexivity |].
    change ([Str.LF] ++ ?x) with (Str.LF :: x). cbn [Str.lstrip].
    rewrite isspace_LF. exact IH.
  - now rewrite join_cons.
Qed.

Lemma split_nonempty (s : Str.str) : Str.split Str.LF s <> [].
Proof.
  destruct s as [| c s]; cbn; [discriminate |].
  destruct (c =? Str.LF)%N; [discriminate |].
  destruct (Str.split Str.LF s); discriminate.
Qed.

Lemma split_cons (c : Str.char) (s : Str.str) :
  Str.split Str.LF (c :: s)
  = if (c =? Str.LF)%N then [] :: Str.split Str.LF s
    else (c :: hd [] (Str.split Str.LF s)) :: tl (Str.split Str.LF s).
Proof.
  cbn [Str.split]. destruct (c =? Str.LF)%N; [reflexivity |].
  pose proof (split_nonempty s).
  destruct (Str.split Str.LF s); [contradiction | reflexivity].
Qed.

(** The lines of a text, joined again, give the text back. *)
Lemma join_split (s : Str.str) : Str.join [Str.LF] (Str.split Str.LF s) = s.
Proof.
  induction s as [| c s IH]; [reflexivity |].
  rewrite split_cons. pose proof (split_nonempty s) as N.
  destruct (Str.split Str.LF s) as [| l ls]; [contradiction |].
  destruct (N.eqb_spec c Str.LF) as [-> | _].
  - rewrite join_cons, IH. reflexivity.
  - cbn [hd tl]. rewrite join_cons. rewrite join_cons in IH.
    rewrite <- app_comm_cons. now rewrite IH.
Qed.

(** No line of a text holds a line feed. *)
Lemma split_lines (s : Str.str) :
  Forall (fun l => ~ In Str.LF l) (Str.split Str.LF s).
Proof.
  induction s as [| c s IH]; [repeat constructor; auto |].
  rewrite split_cons. pose proof (split_nonempty s) as N.
  destruct (Str.split Str.LF s) as [| l ls]; [contradiction |].
  destruct (N.eqb_spec c Str.LF) as [-> | Hc].
  - constructor; [intros [] | exact IH].
  - cbn [hd tl]. inversion IH as [| ? ? Hl Hls]; subst.
    constructor; [| exact Hls]. intros [E | E]; [now apply Hc | now apply Hl].
Qed.

Lemma split_line (l : Str.str) :
  ~ In Str.LF l -> Str.split Str.LF l = [l].
Proof.
  induction l as [| c l IH]; intros H; [reflexivity |].
  rewrite split_cons.
  destruct (N.eqb_spec c Str.LF) as [-> | _]; [exfalso; apply H; now left |].
  rewrite IH; [reflexivity |]. intros E. apply H. now right.
Qed.

Lemma split_app_line (l s : Str.str) :
  ~ In Str.LF l ->
  Str.split Str.LF (l ++ Str.LF :: s) = l :: Str.split Str.LF s.
Proof.
  induction l as [| c l IH]; intros H.
  - cbn [app]. rewrite split_cons. now rewrite N.eqb_refl.
  - cbn [app]. rewrite split_cons.
    destruct (N.eqb_spec c Str.LF) as [-> | _]; [exfalso; apply H; now left |].
    rewrite IH; [reflexivity |]. intros E. apply H. now right.
Qed.

(** Lines without a line feed, joined, split into the same lines. *)
Lemma split_join (ls : list Str.str) :
  ls <> [] -> Forall (fun l => ~ In Str.LF l) ls ->
  Str.split Str.LF (Str.join [Str.LF] ls) = ls.
Proof.
  induction ls as [| l ls IH]; intros N H; [contradiction |].
  inversion H as [| ? ? Hl Hls]; subst. rewrite join_cons.
  destruct ls as [| l' ls].
  - rewrite app_nil_r. now apply split_line.
  - change ([Str.LF] ++ ?x) with (Str.LF :: x).
    rewrite split_app_line by assumption. f_equal.
    apply IH; [discriminate | assumption].
Qed.

(** Trimming keeps the characters of a text in place: what holds of all
    of them still holds. *)
Lemma lstrip_Forall (P : Str.char -> Prop) (s : Str.str) :
  Forall P s -> Forall P (Str.lstrip s).
Proof.
  induction 1 as [| c s Hc Hs IH]; cbn; [constructor |].
  destruct (Str.isspace c); [exact IH | now constructor].
Qed.

Lemma rstrip_Forall (P : Str.char -> Prop) (s : Str.str) :
  Forall P s -> Forall P (Str.rstrip s).
Proof.
  induction 1 as [| c s Hc Hs IH]; [constructor |]. rewrite rstrip_cons.
  destruct (Str.isspace c && WorkflowSpec.blank s); now constructor.
Qed.

Lemma join_Forall (P : Str.char -> Prop) (ls : list Str.str) :
  P Str.LF -> Forall (Forall P) ls -> Forall P (Str.join [Str.LF] ls).
Proof.
  intros HLF. induction 1 as [| l ls Hl Hls IH]; [constructor |].
  rewrite join_cons. apply Forall_app. split; [exact Hl |].
  destruct ls; [constructor |]. now constructor.
Qed.

Lemma split_Forall (P : Str.char -> Prop) (s : Str.str) :
  Forall P s -> Forall (Forall P) (Str.split Str.LF s).
Proof.
  induction 1 as [| c s Hc Hs IH]; [repeat constructor |].
  rewrite split_cons. pose proof (split_nonempty s) as N.
  destruct (Str.split Str.LF s) as [| l ls]; [contradiction |].
  inversion IH; subst.
  destruct (c =? Str.LF)%N; cbn [hd tl]; repeat constructor; assumption.
Qed.

(** Case analysis on the test of the first conditional of the goal. *)
Ltac case_if B :=
  match goal with
  | |- context [if ?b then _ else _] => destruct b eqn:B
  end.

Lemma not_In_Forall (a : Str.char) (l : Str.str) :
  ~ In a l <-> Forall (fun c => c <> a) l.
Proof.
  rewrite Forall_forall. split.
  - intros H c Hc ->. now apply H.
  - intros H Ha. now apply (H a Ha).
Qed.

Lemma lines_Forall (a : Str.char) (ls : list Str.str) :
  Forall (fun l => ~ In a l) ls <-> Forall (Forall (fun c => c <> a)) ls.
Proof.
  split; intros H; eapply Forall_impl; try exact H;
    intros l; apply not_In_Forall.
Qed.

Lemma trim_start_Forall (P : Str.char -> Prop) (ls : list Str.str) :
  Forall (Forall P) ls -> Forall (Forall P) (WorkflowSpec.trim_start ls).
Proof.
  induction 1 as [| l ls Hl Hls IH]; cbn; [constructor |].
  destruct (WorkflowSpec.blank l); [exact IH |].
  constructor; [now apply lstrip_Forall | exact Hls].
Qed.

Lemma trim_end_Forall (P : Str.char -> Prop) (ls : list Str.str) :
  Forall (Forall P) ls -> Forall (Forall P) (WorkflowSpec.trim_end ls).
Proof.
  induction 1 as [| l ls Hl Hls IH]; [constructor |]. rewrite trim_end_cons.
  destruct (forallb WorkflowSpec.blank ls).
  - destruct (WorkflowSpec.blank l); repeat constructor.
    now apply rstrip_Forall.
  - now constructor.
Qed.

Lemma drop_trailing_blank_Forall (P : Str.char -> Prop) (ls : list Str.str) :
  Forall (Forall P) ls ->
  Forall (Forall P) (WorkflowSpec.drop_trailing_blank ls).
Proof.
  induction 1 as [| l ls Hl Hls IH]; [constructor |].
  rewrite drop_trailing_blank_cons.
  case_if B; now constructor.
Qed.

Lemma map_rstrip_Forall (P : Str.char -> Prop) (ls : list Str.str) :
  Forall (Forall P) ls -> Forall (Forall P) (List.map Str.rstrip ls).
Proof.
  induction 1; cbn; constructor; [now apply rstrip_Forall | assumption].
Qed.

Lemma map_rstrip_trim_end (ls : list Str.str) :
  List.map Str.rstrip (WorkflowSpec.trim_end ls)
  = List.map Str.rstrip (WorkflowSpec.drop_trailing_blank ls).
Proof.
  induction ls as [| l ls IH]; [reflexivity |].
  rewrite trim_end_cons, drop_trailing_blank_cons. cbn [forallb].
  destruct (forallb WorkflowSpec.blank ls) eqn:B.
  - rewrite andb_true_r.
    assert (E : WorkflowSpec.drop_trailing_blank ls = [])
      by now apply drop_trailing_blank_nil_iff.
    destruct (WorkflowSpec.blank l); [reflexivity |].
    rewrite E. cbn. now rewrite rstrip_idem.
  - rewrite andb_false_r. cbn [List.map]. now rewrite IH.
Qed.

Lemma map_rstrip_idem (ls : list Str.str) :
  List.map Str.rstrip (List.map Str.rstrip ls) = List.map Str.rstrip ls.
Proof.
  induction ls as [| l ls IH]; cbn; [reflexivity |].
  now rewrite rstrip_idem, IH.
Qed.

Lemma forallb_blank_map_rstrip (ls : list Str.str) :
  forallb WorkflowSpec.blank (List.map Str.rstrip ls)
  = forallb WorkflowSpec.blank ls.
Proof.
  induction ls as [| l ls IH]; cbn; [reflexivity |].
  now rewrite blank_rstrip, IH.
Qed.

Lemma drop_trailing_blank_map_rstrip (ls : list Str.str) :
  WorkflowSpec.drop_trailing_blank (List.map Str.rstrip ls)
  = List.map Str.rstrip (WorkflowSpec.drop_trailing_blank ls).
Proof.
  induction ls as [| l ls IH]; [reflexivity |]. cbn [List.map].
  rewrite !drop_trailing_blank_cons.
  change (Str.rstrip l :: List.map Str.rstrip ls)
    with (List.map Str.rstrip (l :: ls)).
  rewrite forallb_blank_map_rstrip.
  destruct (forallb WorkflowSpec.blank (l :: ls)); [reflexivity |].
  cbn [List.map]. now rewrite IH.
Qed.

Lemma forallb_blank_drop_trailing (ls : list Str.str) :
  forallb WorkflowSpec.blank (WorkflowSpec.drop_trailing_blank ls)
  = forallb WorkflowSpec.blank ls.
Proof.
  induction ls as [| l ls IH]; [reflexivity |].
  rewrite drop_trailing_blank_cons.
  destruct (forallb WorkflowSpec.blank (l :: ls)) eqn:B; [reflexivity |].
  cbn [forallb] in *. now rewrite IH.
Qed.

Lemma drop_trailing_blank_idem (ls : list Str.str) :
  WorkflowSpec.drop_trailing_blank (WorkflowSpec.drop_trailing_blank ls)
  = WorkflowSpec.drop_trailing_blank ls.
Proof.
  induction ls as [| l ls IH]; [reflexivity |].
  rewrite drop_trailing_blank_cons.
  destruct (forallb WorkflowSpec.blank (l :: ls)) eqn:B; [reflexivity |].
  rewrite drop_trailing_blank_cons. cbn [forallb] in *.
  now rewrite forallb_blank_drop_trailing, B, IH.
Qed.

(* ================================================================== *)
(** ** The output normalizer *)

(** After [replace("\r", "\n")] no carriage return is left. *)
Lemma replace_CR_free (s : Str.str) :
  Forall (fun c => c <> Str.CR) (Str.replace [Str.CR] [Str.LF] s).
Proof.
  unfold Str.replace. induction s as [| c s IH]; [constructor |].
  cbn [Str.replace_from Str.startswith List.length Nat.pred].
  destruct (N.eqb_spec Str.CR c) as [E | E]; cbn [andb app].
  - constructor; [discriminate | exact IH].
  - constructor; [congruence | exact IH].
Qed.

(** A text without carriage return has no occurrence of a pattern that
    starts with one, and [replace] leaves it as it is. *)
Lemma replace_without_CR (old new s : Str.str) :
  Forall (fun c => c <> Str.CR) s ->
  Str.replace (Str.CR :: old) new s = s.
Proof.
  unfold Str.replace. induction 1 as [| c s Hc Hs IH]; [reflexivity |].
  cbn [Str.replace_from Str.startswith].
  destruct (N.eqb_spec Str.CR c) as [E | E]; [congruence |].
  cbn [andb]. now rewrite IH.
Qed.

(** The normalizer, seen on the lines of the text whose line endings
    were unified: the blank lines at the start go and the first line that
    stays is left-trimmed, the blank lines at the end go, every line is
    right-trimmed. *)
Lemma normalize_lines (content : Str.str) :
  Workflow._normalize_output content
  = Str.join [Str.LF]
      (List.map Str.rstrip
         (WorkflowSpec.drop_trailing_blank
            (WorkflowSpec.trim_start
               (Str.split Str.LF
                  (Str.replace [Str.CR] [Str.LF]
                     (Str.replace [Str.CR; Str.LF] [Str.LF] content)))))).
Proof.
  unfold Workflow._normalize_output. cbv zeta.
  set (t := Str.replace [Str.CR] [Str.LF] _).
  unfold Str.strip.
  rewrite <- (join_split t) at 1.
  rewrite lstrip_join, rstrip_join.
  rewrite <- map_rstrip_trim_end.
  set (K := WorkflowSpec.trim_end _).
  destruct K as [| k K'] eqn:E; [reflexivity |].
  rewrite split_join; [reflexivity | discriminate |].
  rewrite <- E. unfold K. apply lines_Forall.
  apply trim_end_Forall, trim_start_Forall. apply lines_Forall, split_lines.
Qed.

Lemma trim_start_starts_trimmed (ls : list Str.str) :
  WorkflowSpec.starts_trimmed (WorkflowSpec.trim_start ls).
Proof.
  induction ls as [| l ls IH]; cbn; [exact I |].
  destruct (WorkflowSpec.blank l) eqn:B; [exact IH |]. cbn.
  split; [now rewrite blank_lstrip | apply lstrip_idem].
Qed.

Lemma trim_start_fixed (ls : list Str.str) :
  WorkflowSpec.starts_trimmed ls -> WorkflowSpec.trim_start ls = ls.
Proof.
  destruct ls as [| l ls]; cbn; [reflexivity |]. intros [-> ->]. reflexivity.
Qed.

Lemma drop_trailing_blank_starts_trimmed (ls : list Str.str) :
  WorkflowSpec.starts_trimmed ls ->
  WorkflowSpec.starts_trimmed (WorkflowSpec.drop_trailing_blank ls).
Proof.
  destruct ls as [| l ls]; [auto |]. intros [B E].
  rewrite drop_trailing_blank_cons. cbn [forallb]. rewrite B. cbn. auto.
Qed.

Lemma map_rstrip_starts_trimmed (ls : list Str.str) :
  WorkflowSpec.starts_trimmed ls ->
  WorkflowSpec.starts_trimmed (List.map Str.rstrip ls).
Proof.
  destruct ls as [| l ls]; [auto |]. intros [B E]. cbn.
  split; [now rewrite blank_rstrip | now rewrite lstrip_rstrip, E].
Qed.

Lemma normalize_CR_free (content : Str.str) :
  Forall (fun c => c <> Str.CR) (Workflow._normalize_output content).
Proof.
  rewrite normalize_lines.
  apply join_Forall; [discriminate |].
  apply map_rstrip_Forall, drop_trailing_blank_Forall, trim_start_Forall,
    split_Forall, replace_CR_free.
Qed.

(** C9.  Output normalization is idempotent:
    normalize(normalize(x)) = normalize(x) for every text x. *)
Theorem normalize_output_idempotent (x : Str.str) :
  Workflow._normalize_output (Workflow._normalize_output x)
  = Workflow._normalize_output x.
Proof.
  rewrite (normalize_lines (Workflow._normalize_output x)).
  rewrite (@replace_without_CR [Str.LF] [Str.LF] _ (normalize_CR_free x)).
  rewrite (@replace_without_CR [] [Str.LF] _ (normalize_CR_free x)).
  rewrite (normalize_lines x).
  set (L := Str.split Str.LF
              (Str.replace [Str.CR] [Str.LF]
                 (Str.replace [Str.CR; Str.LF] [Str.LF] x))).
  set (K := List.map Str.rstrip
              (WorkflowSpec.drop_trailing_blank (WorkflowSpec.trim_start L))).
  destruct K as [| k K'] eqn:E; [reflexivity |].
  rewrite split_join; [| discriminate |].
  - rewrite <- E. unfold K.
    rewrite trim_start_fixed.
    + rewrite drop_trailing_blank_map_rstrip, drop_trailing_blank_idem.
      now rewrite map_rstrip_idem.
    + apply map_rstrip_starts_trimmed, drop_trailing_blank_starts_trimmed,
        trim_start_starts_trimmed.
  - rewrite <- E. unfold K. apply lines_Forall.
    apply map_rstrip_Forall, drop_trailing_blank_Forall, trim_start_Forall.
    apply lines_Forall, split_lines.
Qed.

Lemma trim_start_drop_leading (ls : list Str.str) :
  WorkflowSpec.trim_start ls
  = match WorkflowSpec.drop_leading_blank ls with
    | [] => []
    | l :: ls' => Str.lstrip l :: ls'
    end.
Proof.
  induction ls as [| l ls IH]; cbn; [reflexivity |].
  now destruct (WorkflowSpec.blank l).
Qed.

Lemma drop_leading_blank_head (ls : list Str.str) :
  match WorkflowSpec.drop_leading_blank ls with
  | [] => True
  | l :: _ => WorkflowSpec.blank l = false
  end.
Proof.
  induction ls as [| l ls IH]; cbn; [exact I |].
  destruct (WorkflowSpec.blank l) eqn:B; [exact IH | exact B].
Qed.

(** The normalizer is the normalization by lines of the specification,
    followed by a left trim of the text. *)
Lemma normalize_lstrip_spec (x : Str.str) :
  Workflow._normalize_output x = Str.lstrip (WorkflowSpec.normalize x).
Proof.
  rewrite normalize_lines. unfold WorkflowSpec.normalize. cbv zeta.
  set (L := Str.split Str.LF _).
  rewrite lstrip_join. f_equal.
  rewrite trim_start_drop_leading.
  pose proof (drop_leading_blank_head L) as H.
  destruct (WorkflowSpec.drop_leading_blank L) as [| l ls]; [reflexivity |].
  rewrite !drop_trailing_blank_cons. cbn [forallb].
  rewrite blank_lstrip, H. cbn [andb List.map WorkflowSpec.trim_start].
  rewrite blank_rstrip, H. now rewrite lstrip_rstrip.
Qed.

(** C3, as the claim states it, fails: the normalizer does not leave the
    leading characters of the first line in place.  The text [" x"] has
    no blank line, so dropping blank lines and right-trimming leaves it as
    it is, while the source gives ["x"]. *)
Lemma normalize_strips_leading_spaces :
  WorkflowSpec.normalize (Str.lit " x") = Str.lit " x" /\
  Workflow._normalize_output (Str.lit " x") = Str.lit "x" /\
  Workflow._normalize_output (Str.lit " x")
  <> WorkflowSpec.normalize (Str.lit " x").
Proof. repeat split. vm_compute. discriminate. Qed.

(** C3, amended.  For every text, the normalizer unifies the line
    endings to a line feed, drops the blank lines at the start and at the
    end, right-trims every line that stays, and also removes the leading
    whitespace of the first line that stays: its result is the
    normalization by lines, left-trimmed.  Two outputs are equal for
    grading exactly when their normalized forms are the same text: a case
    whose expected output exists and whose run exits with zero leaves the
    verdict as it was when the forms agree and makes it false when they do
    not. *)
Theorem normalize_output_by_lines (x : Str.str) :
  Workflow._normalize_output x = Str.lstrip (WorkflowSpec.normalize x) /\
  forall (w : Workflow.World) (st : Workflow.Run) (f : Str.str * Str.str)
         (expected_output : Str.str),
    Workflow.read_text (Workflow.directory w)
      (Workflow.with_suffix_out (fst f)) = Some expected_output ->
    CompletedProcess.returncode (Workflow.solution_bin w (snd f)) = 0%Z ->
    Workflow.all_passed st = true ->
    (Workflow.all_passed (Workflow.test_case w st f) = true <->
     Workflow._normalize_output
       (CompletedProcess.stdout (Workflow.solution_bin w (snd f)))
     = Workflow._normalize_output expected_output).
Proof.
  split; [apply normalize_lstrip_spec |].
  intros w st f expected_output He Hr Hp.
  unfold Workflow.test_case. rewrite He. cbv zeta. rewrite Hr. cbn [Z.eqb negb].
  rewrite <- str_eqb_eq.
  destruct (Str.eqb _ _); cbn [negb Workflow.all_passed].
  - rewrite Hp. tauto.
  - split; discriminate.
Qed.

(* ================================================================== *)
(** ** The review queue *)

Lemma joined_In (db : Tui.Database) (p : Problem.t) (s : FSRSState.t) :
  In (p, s) (Tui.joined db) <->
  In p (Tui.problems db) /\ In s (Tui.fsrs_states db) /\
  FSRSState.problem_id s = Problem.id p.
Proof.
  unfold Tui.joined. rewrite in_flat_map. split.
  - intros (p' & Hp & H). apply in_map_iff in H as (s' & [= <- <-] & Hs).
    apply filter_In in Hs as [Hs E]. apply Z.eqb_eq in E. auto.
  - intros (Hp & Hs & E). exists p. split; [exact Hp |].
    apply in_map. apply filter_In. split; [exact Hs | now apply Z.eqb_eq].
Qed.




(** The scenario of §8: P is due yesterday at 23:59 and Q tomorrow at
    00:01; as of today only P is returned. *)
Example due_queue_scenario :
  List.map (fun row : Tui.Row => Problem.id (fst row))
    (Tui.daily_review_rows scenario_db (clock_2026 + 1000)%Z) = [1%Z].
Proof. vm_compute. reflexivity. Qed.

(* ================================================================== *)
(** * Further properties *)

(** ** The review model: the fields of a result *)

(** What a returned result holds, rating by rating. *)
Lemma calculate_next_review_fields
    (now : Py.datetime) (s : FSRSReviewState.t) (rating : Z) (e : Q)
    (res : FSRSUpdateResult.t) :
  Fsrs.calculate_next_review now s rating e = Ok res ->
  let ps := Py.max (FSRSReviewState.stability s) 0.1 in
  let pd := Fsrs._clamp (FSRSReviewState.difficulty s) 1.0 10.0 in
  let ret := Fsrs._retrievability ps e in
  let recalled (delta bonus mult : Q) :=
    let nd := Fsrs._clamp (pd + delta) 1.0 10.0 in
    let ns := Py.max 0.1 (ps * (1.0 + (11.0 - nd) * 0.04 * (1.0 - ret) * bonus)) in
    FSRSUpdateResult.difficulty res = nd /\
    FSRSUpdateResult.stability res = ns /\
    FSRSUpdateResult.next_review_date res
    = (now + Py.maxZ 1 (Py.round (ns * mult)) * Py.us_per_day)%Z in
  FSRSUpdateResult.last_reviewed res = now /\
  ((rating = 1%Z /\
    FSRSUpdateResult.difficulty res
    = Fsrs._clamp (pd + 0.6 * (1.0 - ret)) 1.0 10.0 /\
    FSRSUpdateResult.stability res = Py.max 0.1 (ps * (0.35 + 0.25 * ret)) /\
    FSRSUpdateResult.next_review_date res = (now + 1 * Py.us_per_day)%Z) \/
   (rating = 2%Z /\ recalled 0.15 0.9 1.3) \/
   (rating = 3%Z /\ recalled (-0.1) 1.2 2.4) \/
   (rating = 4%Z /\ recalled (-0.3) 1.5 3.2)).
Proof.
  intros H ps pd ret recalled.
  unfold Fsrs.calculate_next_review in H.
  destruct (Rating.of_int rating) as [r |] eqn:Er; cbn [bind] in H;
    [| discriminate].
  apply of_int_Ok in Er. subst rating.
  fold ps pd ret in H.
  destruct r; cbn [Rating.eqb Rating.value Z.eqb Pos.eqb] in H;
    match type of H with
    | (delta <- Py.timedelta_days ?n ;; _) = _ =>
        unfold Py.timedelta_days, Py.datetime_add in H;
        destruct (Z.abs n <=? 999999999)%Z; cbn [bind] in H; [| discriminate];
        match type of H with
        | context [if ?b then _ else _] =>
            destruct b; cbn [bind] in H; [| discriminate]
        end
    end;
    injection H as <-; cbn [FSRSUpdateResult.last_reviewed Rating.value];
    (split; [reflexivity |]).
  - left. repeat split.
  - right; left. repeat split.
  - right; right; left. repeat split.
  - right; right; right. repeat split.
Qed.

(** [round] never decreases when its argument grows. *)
Lemma round_mono (x y : Q) : x <= y -> (Py.round x <= Py.round y)%Z.
Proof.
  intros H. unfold Py.round. cbv zeta.
  pose proof (Qfloor_resp_le _ _ H) as F.
  pose proof (Qfloor_le x) as Lx. pose proof (Qlt_floor x) as Ux.
  pose proof (Qfloor_le y) as Ly. pose proof (Qlt_floor y) as Uy.
  rewrite inject_Z_plus in Ux, Uy.
  set (fx := Qfloor x) in *. set (fy := Qfloor y) in *.
  assert (C : (fx < fy)%Z \/ fx = fy) by lia.
  destruct C as [C | C].
  - repeat (let B := fresh "B" in case_if B); lia.
  - rewrite <- C in *. clear C F.
    destruct (Py.Qltb (x - inject_Z fx) 0.5) eqn:X1;
      destruct (Py.Qltb (y - inject_Z fx) 0.5) eqn:Y1;
      destruct (Py.Qltb 0.5 (x - inject_Z fx)) eqn:X2;
      destruct (Py.Qltb 0.5 (y - inject_Z fx)) eqn:Y2;
      destruct (Z.even fx);
      rewrite ?Qltb_true, ?Qltb_false in *;
      try lia; exfalso; lra.
Qed.

Lemma retrievability_at_zero (stability elapsed_days : Q) :
  elapsed_days <= 0 -> Fsrs._retrievability stability elapsed_days == 1.
Proof.
  intros H. unfold Fsrs._retrievability. cbv zeta.
  pose proof (safe_denominator stability) as D.
  set (a := 9.0 * Py.max stability 0.1) in *.
  assert (M : Py.max elapsed_days 0.0 == 0)
    by (destruct (max_cases elapsed_days 0.0) as [[H1 ->] | [H1 ->]]; lra).
  rewrite M.
  assert (E : 1.0 + 0 / a == 1) by (field; lra).
  rewrite E. reflexivity.
Qed.


Lemma clamp_raise (pd x : Q) :
  1 <= pd -> pd <= 10 -> 0 <= x ->
  pd <= Fsrs._clamp (pd + x) 1.0 10.0 /\ Fsrs._clamp (pd + x) 1.0 10.0 <= pd + x.
Proof.
  intros Hlo Hhi Hx. unfold Fsrs._clamp.
  destruct (min_cases 10.0 (pd + x)) as [[H E] | [H E]]; rewrite E;
    match goal with
    | |- _ <= Py.max ?a ?b /\ _ =>
        destruct (max_cases a b) as [[H' ->] | [H' ->]]; split; lra
    end.
Qed.

Lemma clamp_lower (pd x : Q) :
  1 <= pd -> pd <= 10 -> 0 <= x ->
  pd - x <= Fsrs._clamp (pd - x) 1.0 10.0 /\ Fsrs._clamp (pd - x) 1.0 10.0 <= pd.
Proof.
  intros Hlo Hhi Hx. unfold Fsrs._clamp.
  destruct (min_cases 10.0 (pd - x)) as [[H E] | [H E]]; rewrite E;
    match goal with
    | |- _ <= Py.max ?a ?b /\ _ =>
        destruct (max_cases a b) as [[H' ->] | [H' ->]]; split; lra
    end.
Qed.

Lemma sanitized_bounds (s : FSRSReviewState.t) :
  0.1 <= Py.max (FSRSReviewState.stability s) 0.1 /\
  1 <= Fsrs._clamp (FSRSReviewState.difficulty s) 1.0 10.0 /\
  Fsrs._clamp (FSRSReviewState.difficulty s) 1.0 10.0 <= 10.
Proof.
  split; [apply max_lower_r |].
  assert (B : 1.0 <= 10.0) by lra.
  destruct (clamp_bounds (FSRSReviewState.difficulty s) B). split; lra.
Qed.

(** X2.  A lapse (rating Again) never raises the stability and never
    lowers the difficulty: the returned stability lies between 0.35 times
    the sanitized prior stability and that stability itself (and is at
    most the larger of 0.1 and 0.6 times it), and the returned difficulty
    lies between the sanitized prior difficulty and 0.6 above it. *)
Theorem again_lapse_effect
    (now : Py.datetime) (s : FSRSReviewState.t) (e : Q)
    (res : FSRSUpdateResult.t) :
  Fsrs.calculate_next_review now s 1 e = Ok res ->
  let ps := Py.max (FSRSReviewState.stability s) 0.1 in
  let pd := Fsrs._clamp (FSRSReviewState.difficulty s) 1.0 10.0 in
  0.35 * ps <= FSRSUpdateResult.stability res /\
  FSRSUpdateResult.stability res <= ps /\
  FSRSUpdateResult.stability res <= Py.max 0.1 (0.6 * ps) /\
  pd <= FSRSUpdateResult.difficulty res /\
  FSRSUpdateResult.difficulty res <= pd + 0.6.
Proof.
  intros H ps pd.
  destruct (calculate_next_review_fields _ _ _ _ H)
    as [_ [(_ & Hd & Hs & _) | [(C & _) | [(C & _) | (C & _)]]]];
    try discriminate.
  fold ps pd in Hd, Hs. rewrite Hd, Hs. clear Hd Hs H.
  destruct (sanitized_bounds s) as (Ps & Pd1 & Pd2). fold ps pd in Ps, Pd1, Pd2.
  destruct (retrievability_bounds ps e) as [R0 R1].
  set (r := Fsrs._retrievability ps e) in *.
  assert (M1 : 0.35 * ps <= ps * (0.35 + 0.25 * r)) by nra.
  assert (M2 : ps * (0.35 + 0.25 * r) <= 0.6 * ps) by nra.
  destruct (@clamp_raise pd (0.6 * (1.0 - r)) Pd1 Pd2 ltac:(lra)) as [D1 D2].
  repeat split; try lra.
  - pose proof (max_lower_r 0.1 (ps * (0.35 + 0.25 * r))). lra.
  - destruct (max_cases 0.1 (ps * (0.35 + 0.25 * r))) as [[H ->] | [H ->]]; lra.
  - now apply max_mono_r.
Qed.

Lemma again_lapse_effect_witness :
  exists res,
    Fsrs.calculate_next_review clock_2026
      (FSRSReviewState.mk 40 7.5 clock_2026) 1 12 = Ok res /\
    FSRSUpdateResult.stability res <= 40 /\
    7.5 <= FSRSUpdateResult.difficulty res.
Proof.
  eexists. split; [vm_compute; reflexivity |].
  destruct (@again_lapse_effect clock_2026
              (FSRSReviewState.mk 40 7.5 clock_2026) 12 _
              ltac:(vm_compute; reflexivity)) as (_ & S & _ & D & _).
  split; [exact S | exact D].
Defined.

(** The growth factor of a recalled rating lies between 1 and 1.6; it is
    larger for a larger bonus and for a lower difficulty. *)
Lemma growth_bounds (nd r bonus : Q) :
  1 <= nd -> nd <= 10 -> 0 < r -> r <= 1 -> 0 <= bonus -> bonus <= 1.5 ->
  1 <= 1.0 + (11.0 - nd) * 0.04 * (1.0 - r) * bonus /\
  1.0 + (11.0 - nd) * 0.04 * (1.0 - r) * bonus <= 1.6.
Proof.
  intros H1 H2 H3 H4 H5 H6.
  assert (A : 0 <= (11.0 - nd) * (1.0 - r)) by nra.
  assert (B : (11.0 - nd) * (1.0 - r) <= 10) by nra.
  set (k := (11.0 - nd) * (1.0 - r)) in *.
  assert (E : (11.0 - nd) * 0.04 * (1.0 - r) * bonus == 0.04 * (k * bonus))
    by (unfold k; ring).
  rewrite E.
  assert (0 <= k * bonus) by nra.
  assert (k * bonus <= 15) by nra.
  split; lra.
Qed.

Lemma growth_mono (nd nd' r bonus bonus' : Q) :
  nd' <= nd -> nd <= 10 -> 0 < r -> r <= 1 -> 0 <= bonus -> bonus <= bonus' ->
  1.0 + (11.0 - nd) * 0.04 * (1.0 - r) * bonus
  <= 1.0 + (11.0 - nd') * 0.04 * (1.0 - r) * bonus'.
Proof.
  intros H1 H2 H3 H4 H5 H6.
  assert (E : forall a b, (11.0 - a) * 0.04 * (1.0 - r) * b
                          == 0.04 * (1.0 - r) * ((11.0 - a) * b))
    by (intros; ring).
  rewrite !E.
  assert ((11.0 - nd) * bonus <= (11.0 - nd') * bonus') by nra.
  assert (0 <= 0.04 * (1.0 - r)) by lra.
  nra.
Qed.

(** X3.  A recalled rating (Hard, Good, Easy) never lowers the stability:
    the returned stability lies between the sanitized prior stability and
    1.6 times it, and equals it when no time has elapsed.  Hard never
    lowers the difficulty and raises it by at most 0.15; Good and Easy
    never raise it and lower it by at most 0.1 and 0.3. *)
Theorem recall_effect
    (now : Py.datetime) (s : FSRSReviewState.t) (rating : Z) (e : Q)
    (res : FSRSUpdateResult.t) :
  (2 <= rating <= 4)%Z ->
  Fsrs.calculate_next_review now s rating e = Ok res ->
  let ps := Py.max (FSRSReviewState.stability s) 0.1 in
  let pd := Fsrs._clamp (FSRSReviewState.difficulty s) 1.0 10.0 in
  ps <= FSRSUpdateResult.stability res /\
  FSRSUpdateResult.stability res <= 1.6 * ps /\
  (e <= 0 -> FSRSUpdateResult.stability res == ps) /\
  (rating = 2%Z ->
   pd <= FSRSUpdateResult.difficulty res /\
   FSRSUpdateResult.difficulty res <= pd + 0.15) /\
  (rating = 3%Z ->
   pd - 0.1 <= FSRSUpdateResult.difficulty res /\
   FSRSUpdateResult.difficulty res <= pd) /\
  (rating = 4%Z ->
   pd - 0.3 <= FSRSUpdateResult.difficulty res /\
   FSRSUpdateResult.difficulty res <= pd).
Proof.
  intros Hr H ps pd.
  destruct (sanitized_bounds s) as (Ps & Pd1 & Pd2). fold ps pd in Ps, Pd1, Pd2.
  destruct (retrievability_bounds ps e) as [R0 R1].
  pose proof (@retrievability_at_zero ps e) as Rz.
  assert (B : 1.0 <= 10.0) by lra.
  assert (S : forall delta bonus,
             0 <= bonus -> bonus <= 1.5 ->
             let nd := Fsrs._clamp (pd + delta) 1.0 10.0 in
             let ns := Py.max 0.1
                         (ps * (1.0 + (11.0 - nd) * 0.04
                                      * (1.0 - Fsrs._retrievability ps e) * bonus)) in
             ps <= ns /\ ns <= 1.6 * ps /\ (e <= 0 -> ns == ps)).
  { intros delta bonus B0 B1 nd ns.
    destruct (clamp_bounds (pd + delta) B) as [N1 N2]. fold nd in N1, N2.
    destruct (@growth_bounds nd (Fsrs._retrievability ps e) bonus)
      as [G1 G2]; try lra.
    unfold ns. set (g := 1.0 + _) in *.
    assert (M1 : ps <= ps * g) by nra.
    assert (M2 : ps * g <= 1.6 * ps) by nra.
    destruct (max_cases 0.1 (ps * g)) as [[Hm ->] | [Hm ->]].
    - repeat split; try lra. intros Hz. apply Rz in Hz.
      unfold g. rewrite Hz. ring.
    - repeat split; lra. }
  destruct (calculate_next_review_fields _ _ _ _ H)
    as [_ [(C & _) | [(C & Hd & Hs & _) | [(C & Hd & Hs & _) | (C & Hd & Hs & _)]]]];
    [lia | | |]; fold ps pd in Hd, Hs; rewrite Hd, Hs; subst rating.
  - destruct (S 0.15 0.9) as (S1 & S2 & S3); try lra.
    destruct (@clamp_raise pd 0.15 Pd1 Pd2 ltac:(lra)).
    repeat split; auto; try discriminate.
  - destruct (S (-0.1) 1.2) as (S1 & S2 & S3); try lra.
    destruct (@clamp_lower pd 0.1 Pd1 Pd2 ltac:(lra)) as [L1 L2].
    assert (E : pd + -0.1 == pd - 0.1) by ring.
    rewrite E. repeat split; auto; try discriminate.
  - destruct (S (-0.3) 1.5) as (S1 & S2 & S3); try lra.
    destruct (@clamp_lower pd 0.3 Pd1 Pd2 ltac:(lra)) as [L1 L2].
    assert (E : pd + -0.3 == pd - 0.3) by ring.
    rewrite E. repeat split; auto; try discriminate.
Qed.

Lemma recall_effect_witness :
  exists res,
    Fsrs.calculate_next_review clock_2026 fresh_state 3 1 = Ok res /\
    0.5 <= FSRSUpdateResult.stability res /\
    FSRSUpdateResult.difficulty res <= 5.0.
Proof.
  eexists. split; [vm_compute; reflexivity |].
  destruct (@recall_effect clock_2026 fresh_state 3 1 _
              ltac:(lia) ltac:(vm_compute; reflexivity))
    as (S & _ & _ & _ & G & _).
  split; [exact S | exact (proj2 (G eq_refl))].
Defined.

(** X4.  With the same prior state, elapsed time and clock reading, an
    easier rating never gives a lower stability, a higher difficulty or
    an earlier due date: Hard, Good, Easy in that order. *)
Theorem easier_rating_later_due
    (now : Py.datetime) (s : FSRSReviewState.t) (e : Q)
    (hard good easy : FSRSUpdateResult.t) :
  Fsrs.calculate_next_review now s 2 e = Ok hard ->
  Fsrs.calculate_next_review now s 3 e = Ok good ->
  Fsrs.calculate_next_review now s 4 e = Ok easy ->
  (FSRSUpdateResult.stability hard <= FSRSUpdateResult.stability good /\
   FSRSUpdateResult.stability good <= FSRSUpdateResult.stability easy) /\
  (FSRSUpdateResult.difficulty easy <= FSRSUpdateResult.difficulty good /\
   FSRSUpdateResult.difficulty good <= FSRSUpdateResult.difficulty hard) /\
  (FSRSUpdateResult.next_review_date hard
   <= FSRSUpdateResult.next_review_date good)%Z /\
  (FSRSUpdateResult.next_review_date good
   <= FSRSUpdateResult.next_review_date easy)%Z.
Proof.
  intros Hh Hg He.
  destruct (calculate_next_review_fields _ _ _ _ Hh)
    as [_ [(C & _) | [(_ & Dh & Sh & Nh) | [(C & _) | (C & _)]]]];
    try discriminate.
  destruct (calculate_next_review_fields _ _ _ _ Hg)
    as [_ [(C & _) | [(C & _) | [(_ & Dg & Sg & Ng) | (C & _)]]]];
    try discriminate.
  destruct (calculate_next_review_fields _ _ _ _ He)
    as [_ [(C & _) | [(C & _) | [(C & _) | (_ & De & Se & Ne)]]]];
    try discriminate.
  clear Hh Hg He.
  set (ps := Py.max (FSRSReviewState.stability s) 0.1) in *.
  set (pd := Fsrs._clamp (FSRSReviewState.difficulty s) 1.0 10.0) in *.
  set (r := Fsrs._retrievability ps e) in *.
  destruct (sanitized_bounds s) as (Ps & _). fold ps in Ps.
  destruct (retrievability_bounds ps e) as [R0 R1]. fold r in R0, R1.
  assert (B : 1.0 <= 10.0) by lra.
  set (ndh := Fsrs._clamp (pd + 0.15) 1.0 10.0) in *.
  set (ndg := Fsrs._clamp (pd + -0.1) 1.0 10.0) in *.
  set (nde := Fsrs._clamp (pd + -0.3) 1.0 10.0) in *.
  assert (Dgh : ndg <= ndh) by (apply clamp_mono; lra).
  assert (Deg : nde <= ndg) by (apply clamp_mono; lra).
  destruct (clamp_bounds (pd + 0.15) B) as [_ Uh]. fold ndh in Uh.
  destruct (clamp_bounds (pd + -0.1) B) as [Lg Ug]. fold ndg in Ug, Lg.
  destruct (clamp_bounds (pd + -0.3) B) as [Le _]. fold nde in Le.
  pose proof (@growth_mono ndh ndg r 0.9 1.2 Dgh ltac:(lra) R0 R1
                ltac:(lra) ltac:(lra)) as Ghg.
  pose proof (@growth_mono ndg nde r 1.2 1.5 Deg ltac:(lra) R0 R1
                ltac:(lra) ltac:(lra)) as Gge.
  destruct (@growth_bounds ndh r 0.9) as [G1 _]; try lra.
  destruct (clamp_bounds (pd + 0.15) B) as [Lh _]. fold ndh in Lh.
  destruct (@growth_bounds ndg r 1.2) as [G2 _]; try lra.
  set (gh := 1.0 + (11.0 - ndh) * 0.04 * (1.0 - r) * 0.9) in *.
  set (gg := 1.0 + (11.0 - ndg) * 0.04 * (1.0 - r) * 1.2) in *.
  set (ge := 1.0 + (11.0 - nde) * 0.04 * (1.0 - r) * 1.5) in *.
  assert (Shg : Py.max 0.1 (ps * gh) <= Py.max 0.1 (ps * gg))
    by (apply max_mono_r; nra).
  assert (Sge : Py.max 0.1 (ps * gg) <= Py.max 0.1 (ps * ge))
    by (apply max_mono_r; nra).
  pose proof (max_lower_l 0.1 (ps * gh)) as Ph.
  pose proof (max_lower_l 0.1 (ps * gg)) as Pg.
  set (sh := Py.max 0.1 (ps * gh)) in *.
  set (sg := Py.max 0.1 (ps * gg)) in *.
  set (se := Py.max 0.1 (ps * ge)) in *.
  rewrite Sh, Sg, Se, Dh, Dg, De, Nh, Ng, Ne.
  split; [split; assumption |]. split; [split; assumption |].
  assert (Rhg : (Py.round (sh * 1.3) <= Py.round (sg * 2.4))%Z)
    by (apply round_mono; nra).
  assert (Rge : (Py.round (sg * 2.4) <= Py.round (se * 3.2))%Z)
    by (apply round_mono; nra).
  rewrite !maxZ_max. unfold Py.us_per_day. split; nia.
Qed.

Lemma easier_rating_later_due_witness :
  exists hard good easy,
    Fsrs.calculate_next_review clock_2026
      (FSRSReviewState.mk 12 6.5 clock_2026) 2 20 = Ok hard /\
    Fsrs.calculate_next_review clock_2026
      (FSRSReviewState.mk 12 6.5 clock_2026) 3 20 = Ok good /\
    Fsrs.calculate_next_review clock_2026
      (FSRSReviewState.mk 12 6.5 clock_2026) 4 20 = Ok easy /\
    (FSRSUpdateResult.next_review_date hard
     <= FSRSUpdateResult.next_review_date good)%Z /\
    (FSRSUpdateResult.next_review_date good
     <= FSRSUpdateResult.next_review_date easy)%Z.
Proof.
  do 3 eexists.
  split; [vm_compute; reflexivity |].
  split; [vm_compute; reflexivity |].
  split; [vm_compute; reflexivity |].
  apply (@easier_rating_later_due clock_2026
           (FSRSReviewState.mk 12 6.5 clock_2026) 20);
    vm_compute; reflexivity.
Defined.

(* ================================================================== *)
(** ** The verification harness: verdict and diagnostics *)

Lemma case_diagnostic_None_iff (w : Workflow.World) (f : Str.str * Str.str) :
  WorkflowSpec.case_diagnostic w f = None <->
  exists expected,
    Workflow.read_text (Workflow.directory w)
      (Workflow.with_suffix_out (fst f)) = Some expected /\
    CompletedProcess.returncode (Workflow.solution_bin w (snd f)) = 0%Z /\
    Workflow._normalize_output
      (CompletedProcess.stdout (Workflow.solution_bin w (snd f)))
    = Workflow._normalize_output expected.
Proof.
  unfold WorkflowSpec.case_diagnostic.
  destruct (Workflow.read_text (Workflow.directory w)
              (Workflow.with_suffix_out (fst f))) as [expected |].
  - cbv zeta.
    destruct (Z.eqb_spec
                (CompletedProcess.returncode (Workflow.solution_bin w (snd f)))
                0) as [Hr | Hr].
    + destruct (Str.eqb _ _) eqn:E.
      * apply str_eqb_eq in E. split; [| reflexivity].
        intros _. exists expected. auto.
      * split; [discriminate |]. intros (x & [= <-] & _ & N).
        apply str_eqb_eq in N. congruence.
    + split; [discriminate |]. intros (x & _ & N & _). contradiction.
  - split; [discriminate |]. intros (x & N & _). discriminate.
Qed.

Lemma case_diagnostic_nonempty (w : Workflow.World) (f : Str.str * Str.str)
    (d : Str.str) :
  WorkflowSpec.case_diagnostic w f = Some d -> d <> [].
Proof.
  unfold WorkflowSpec.case_diagnostic.
  destruct (Workflow.read_text _ _); cbv zeta.
  - destruct (_ =? 0)%Z.
    + destruct (Str.eqb _ _); [discriminate |].
      intros [= <-]. discriminate.
    + intros [= <-]. discriminate.
  - intros [= <-]. discriminate.
Qed.

Lemma forallb_no_diagnostic (w : Workflow.World)
    (files : list (Str.str * Str.str)) :
  forallb WorkflowSpec.no_diagnostic
    (List.map (WorkflowSpec.case_diagnostic w) files) = true <->
  forall f, In f files -> WorkflowSpec.case_diagnostic w f = None.
Proof.
  rewrite forallb_forall. split.
  - intros H f Hf.
    specialize (H _ (in_map (WorkflowSpec.case_diagnostic w) _ _ Hf)).
    now destruct (WorkflowSpec.case_diagnostic w f).
  - intros H d Hd. apply in_map_iff in Hd as (f & <- & Hf).
    now rewrite (H f Hf).
Qed.

Lemma blocks_nonempty (w : Workflow.World) (files : list (Str.str * Str.str)) :
  Forall (fun d => d <> [])
    (WorkflowSpec.blocks (List.map (WorkflowSpec.case_diagnostic w) files)).
Proof.
  induction files as [| f files IH]; cbn; [constructor |].
  destruct (WorkflowSpec.case_diagnostic w f) as [d |] eqn:E; [| exact IH].
  constructor; [now apply (case_diagnostic_nonempty w f) | exact IH].
Qed.

Lemma blocks_nil_iff (ds : list (option Str.str)) :
  WorkflowSpec.blocks ds = [] <-> forallb WorkflowSpec.no_diagnostic ds = true.
Proof.
  induction ds as [| [d |] ds IH]; cbn; [tauto | | exact IH].
  split; discriminate.
Qed.

Lemma join_nil_iff (sep : Str.str) (ls : list Str.str) :
  Forall (fun d => d <> []) ls -> (Str.join sep ls = [] <-> ls = []).
Proof.
  intros H. destruct ls as [| l ls]; [tauto |].
  inversion H as [| ? ? Hl _]; subst. rewrite join_cons.
  split; [| discriminate]. destruct l; [contradiction | discriminate].
Qed.

(** The three ways in which [run_tests] ends. *)
Lemma run_tests_cases (w : Workflow.World) (file_path : Str.str) :
  (Workflow.source_exists w = false /\
   Workflow.run_tests w file_path
   = (false, Str.lit "Source file not found: " ++ file_path, [])) \/
  (Workflow.source_exists w = true /\
   CompletedProcess.returncode (Workflow.compile_proc w) <> 0%Z /\
   fst (fst (Workflow.run_tests w file_path)) = false /\
   snd (fst (Workflow.run_tests w file_path)) <> [] /\
   snd (Workflow.run_tests w file_path) = []) \/
  (Workflow.source_exists w = true /\
   CompletedProcess.returncode (Workflow.compile_proc w) = 0%Z /\
   Workflow.input_files w = [] /\
   Workflow.run_tests w file_path
   = (false, Str.lit "No .in test files found.", [])) \/
  (Workflow.source_exists w = true /\
   CompletedProcess.returncode (Workflow.compile_proc w) = 0%Z /\
   Workflow.input_files w <> [] /\
   let diagnostics :=
     List.map (WorkflowSpec.case_diagnostic w) (Workflow.input_files w) in
   Workflow.run_tests w file_path
   = (forallb WorkflowSpec.no_diagnostic diagnostics,
      Str.join [Str.LF; Str.LF] (WorkflowSpec.blocks diagnostics),
      List.map fst
        (filter (WorkflowSpec.has_expected w) (Workflow.input_files w)))).
Proof.
  destruct (Workflow.source_exists w) eqn:Hs.
  - right.
    destruct (Z.eq_dec (CompletedProcess.returncode (Workflow.compile_proc w)) 0)
      as [Hc | Hc].
    + right.
      destruct (Workflow.input_files w) as [| f files] eqn:Hf.
      * left. unfold Workflow.run_tests. rewrite Hs, Hc, Hf. auto.
      * right. split; [reflexivity |]. split; [exact Hc |].
        split; [discriminate |]. rewrite <- Hf.
        apply run_tests_aggregate; [exact Hs | exact Hc |].
        rewrite Hf. discriminate.
    + left. split; [reflexivity |]. split; [exact Hc |].
      unfold Workflow.run_tests. rewrite Hs. cbn [negb].
      apply Z.eqb_neq in Hc. rewrite Hc. cbn [negb fst snd].
      split; [reflexivity |]. split; [| reflexivity].
      destruct (CompletedProcess.stderr (Workflow.compile_proc w));
        discriminate.
  - left. split; [reflexivity |]. unfold Workflow.run_tests. now rewrite Hs.
Qed.

(** X5.  [run_tests] gives the verdict "passed" exactly when the source
    exists, the compiler exits with zero, there is at least one input
    file, and every input file has an expected output file and a run of
    the binary that exits with zero and whose normalized output is the
    normalized expected output. *)
Theorem run_tests_pass_iff (w : Workflow.World) (file_path : Str.str) :
  fst (fst (Workflow.run_tests w file_path)) = true <->
  Workflow.source_exists w = true /\
  CompletedProcess.returncode (Workflow.compile_proc w) = 0%Z /\
  Workflow.input_files w <> [] /\
  forall f, In f (Workflow.input_files w) ->
    exists expected,
      Workflow.read_text (Workflow.directory w)
        (Workflow.with_suffix_out (fst f)) = Some expected /\
      CompletedProcess.returncode (Workflow.solution_bin w (snd f)) = 0%Z /\
      Workflow._normalize_output
        (CompletedProcess.stdout (Workflow.solution_bin w (snd f)))
      = Workflow._normalize_output expected.
Proof.
  destruct (run_tests_cases w file_path)
    as [(Hs & R) | [(Hs & Hc & R & _) | [(Hs & Hc & Hf & R) | (Hs & Hc & Hf & R)]]].
  - rewrite R. cbn [fst]. split; [discriminate |]. intros (N & _). congruence.
  - rewrite R. split; [discriminate |]. intros (_ & N & _). contradiction.
  - rewrite R. cbn [fst]. split; [discriminate |]. intros (_ & _ & N & _).
    contradiction.
  - cbv zeta in R. rewrite R. cbn [fst]. rewrite forallb_no_diagnostic. split.
    + intros H. repeat split; try assumption.
      intros f Hin. now apply case_diagnostic_None_iff, H.
    + intros (_ & _ & _ & H) f Hin. now apply case_diagnostic_None_iff, H.
Qed.

(** X6.  The diagnostics text of [run_tests] is empty exactly when the
    verdict is "passed": every failed run says why. *)
Theorem run_tests_silent_iff_passed (w : Workflow.World) (file_path : Str.str) :
  snd (fst (Workflow.run_tests w file_path)) = [] <->
  fst (fst (Workflow.run_tests w file_path)) = true.
Proof.
  destruct (run_tests_cases w file_path)
    as [(Hs & R) | [(Hs & Hc & R & N & _) | [(Hs & Hc & Hf & R) | (Hs & Hc & Hf & R)]]].
  - rewrite R. cbn [fst snd]. split; discriminate.
  - rewrite R. split; [contradiction | discriminate].
  - rewrite R. cbn [fst snd]. split; discriminate.
  - cbv zeta in R. rewrite R. cbn [fst snd].
    rewrite join_nil_iff by apply blocks_nonempty.
    apply blocks_nil_iff.
Qed.




(* ================================================================== *)
(** ** The output normalizer: line endings *)

(** Induction two characters at a time. *)
Lemma list_ind2 (A : Type) (P : list A -> Prop) :
  P [] -> (forall c, P [c]) ->
  (forall c d s, P s -> P (d :: s) -> P (c :: d :: s)) ->
  forall s, P s.
Proof.
  intros H0 H1 H2 s.
  assert (B : P s /\ forall c, P (c :: s)).
  { induction s as [| d s [IH1 IH2]]; [split; auto |].
    split; [apply IH2 |]. intros c. apply H2; auto. }
  exact (proj1 B).
Qed.

Lemma crlf_to_lf_cons2 (c d : Str.char) (s : Str.str) :
  WorkflowSpec.crlf_to_lf (c :: d :: s)
  = if (c =? Str.CR)%N && (d =? Str.LF)%N
    then Str.LF :: WorkflowSpec.crlf_to_lf s
    else c :: WorkflowSpec.crlf_to_lf (d :: s).
Proof. reflexivity. Qed.

(** [replace("\r\n", "\n")] is [crlf_to_lf]. *)
Lemma replace_crlf (s : Str.str) :
  Str.replace [Str.CR; Str.LF] [Str.LF] s = WorkflowSpec.crlf_to_lf s.
Proof.
  unfold Str.replace. induction s as [| c | c d s IH1 IH2] using list_ind2.
  - reflexivity.
  - cbn [Str.replace_from Str.startswith]. now rewrite andb_false_r.
  - rewrite crlf_to_lf_cons2.
    cbn [Str.replace_from Str.startswith List.length Nat.pred].
    rewrite (N.eqb_sym Str.CR c), (N.eqb_sym Str.LF d), andb_true_r.
    destruct ((c =? Str.CR)%N && (d =? Str.LF)%N) eqn:E.
    + cbn [app]. now rewrite IH1.
    + now rewrite <- IH2.
Qed.

(** [replace("\r", "\n")] maps every character on its own. *)
Lemma replace_cr (s : Str.str) :
  Str.replace [Str.CR] [Str.LF] s = List.map WorkflowSpec.cr_to_lf s.
Proof.
  unfold Str.replace. induction s as [| c s IH]; [reflexivity |].
  cbn [Str.replace_from Str.startswith List.length Nat.pred List.map].
  unfold WorkflowSpec.cr_to_lf at 1. rewrite (N.eqb_sym Str.CR c), andb_true_r.
  destruct (c =? Str.CR)%N; cbn [app]; now rewrite IH.
Qed.

Lemma unify_spec (s : Str.str) :
  Str.replace [Str.CR] [Str.LF] (Str.replace [Str.CR; Str.LF] [Str.LF] s)
  = WorkflowSpec.unify_newlines s.
Proof. now rewrite replace_crlf, replace_cr. Qed.

Lemma isspace_cr_to_lf (c : Str.char) :
  Str.isspace (WorkflowSpec.cr_to_lf c) = Str.isspace c.
Proof.
  unfold WorkflowSpec.cr_to_lf. destruct (N.eqb_spec c Str.CR) as [-> | _];
    reflexivity.
Qed.

Lemma blank_map_cr_to_lf (s : Str.str) :
  WorkflowSpec.blank (List.map WorkflowSpec.cr_to_lf s) = WorkflowSpec.blank s.
Proof.
  induction s as [| c s IH]; [reflexivity |]. cbn [List.map].
  now rewrite !blank_cons, isspace_cr_to_lf, IH.
Qed.

Lemma blank_crlf_to_lf (s : Str.str) :
  WorkflowSpec.blank (WorkflowSpec.crlf_to_lf s) = WorkflowSpec.blank s.
Proof.
  induction s as [| c | c d s IH1 IH2] using list_ind2; try reflexivity.
  rewrite crlf_to_lf_cons2.
  destruct (N.eqb_spec c Str.CR) as [-> | _];
    destruct (N.eqb_spec d Str.LF) as [-> | _]; cbn [andb];
    rewrite ?blank_cons, ?isspace_LF, ?isspace_CR, ?IH1; cbn [andb];
    try reflexivity; now rewrite IH2, ?blank_cons.
Qed.

Lemma blank_unify (s : Str.str) :
  WorkflowSpec.blank (WorkflowSpec.unify_newlines s) = WorkflowSpec.blank s.
Proof.
  unfold WorkflowSpec.unify_newlines.
  now rewrite blank_map_cr_to_lf, blank_crlf_to_lf.
Qed.

(** Unifying the line endings of two texts put end to end: the line
    endings of each are unified, except that a carriage return ending the
    first and a line feed starting the second make one line ending. *)
Lemma unify_app (a b : Str.str) :
  WorkflowSpec.unify_newlines (a ++ b)
  = WorkflowSpec.unify_newlines a ++ WorkflowSpec.unify_newlines b \/
  exists b', b = Str.LF :: b' /\
    WorkflowSpec.unify_newlines (a ++ b)
    = WorkflowSpec.unify_newlines a ++ WorkflowSpec.unify_newlines b'.
Proof.
  unfold WorkflowSpec.unify_newlines.
  induction a as [| c | c d s IH1 IH2] using list_ind2.
  - left. reflexivity.
  - cbn [app]. destruct b as [| e b]; [left; reflexivity |].
    rewrite crlf_to_lf_cons2.
    destruct (N.eqb_spec c Str.CR) as [-> | Hc];
      destruct (N.eqb_spec e Str.LF) as [-> | He]; cbn [andb];
      try (left; reflexivity).
    right. exists b. split; reflexivity.
  - cbn [app]. rewrite !crlf_to_lf_cons2.
    destruct ((c =? Str.CR)%N && (d =? Str.LF)%N).
    + destruct IH1 as [E | (b' & -> & E)]; [left | right; exists b'; split; auto];
        cbn [List.map app]; now rewrite E.
    + change (d :: s ++ b) with ((d :: s) ++ b).
      destruct IH2 as [E | (b' & -> & E)]; [left | right; exists b'; split; auto];
        cbn [List.map]; rewrite E; reflexivity.
Qed.

Lemma strip_app_blank (a b : Str.str) :
  WorkflowSpec.blank b = true -> Str.strip (a ++ b) = Str.strip a.
Proof.
  intros B. unfold Str.strip. rewrite lstrip_app.
  destruct (WorkflowSpec.blank a) eqn:A.
  - now rewrite (lstrip_blank _ B), (lstrip_blank _ A).
  - now rewrite rstrip_app, B.
Qed.

Lemma strip_blank_app (a b : Str.str) :
  WorkflowSpec.blank a = true -> Str.strip (a ++ b) = Str.strip b.
Proof. intros A. unfold Str.strip. now rewrite lstrip_app, A. Qed.

Lemma crlf_to_lf_cons_other (c : Str.char) (s : Str.str) :
  c <> Str.CR ->
  WorkflowSpec.crlf_to_lf (c :: s) = c :: WorkflowSpec.crlf_to_lf s.
Proof.
  intros H. destruct s as [| d s]; [reflexivity |].
  rewrite crlf_to_lf_cons2. apply N.eqb_neq in H. now rewrite H.
Qed.

Lemma unify_cons_LF (s : Str.str) :
  WorkflowSpec.unify_newlines (Str.LF :: s)
  = Str.LF :: WorkflowSpec.unify_newlines s.
Proof.
  unfold WorkflowSpec.unify_newlines.
  rewrite crlf_to_lf_cons_other by discriminate. reflexivity.
Qed.

Lemma normalize_unify (x : Str.str) :
  Workflow._normalize_output x
  = Str.join [Str.LF]
      (List.map Str.rstrip
         (Str.split Str.LF (Str.strip (WorkflowSpec.unify_newlines x)))).
Proof. unfold Workflow._normalize_output. cbv zeta. now rewrite unify_spec. Qed.

(** X8.  Whitespace around a text does not count: for every text [x] and
    every text [w] made of whitespace only, [x] followed by [w] and [w]
    followed by [x] normalize to what [x] normalizes to. *)
Theorem normalize_ignores_outer_whitespace (x w : Str.str) :
  WorkflowSpec.blank w = true ->
  Workflow._normalize_output (x ++ w) = Workflow._normalize_output x /\
  Workflow._normalize_output (w ++ x) = Workflow._normalize_output x.
Proof.
  intros B. rewrite !normalize_unify. split; do 3 f_equal.
  - destruct (unify_app x w) as [E | (w' & -> & E)]; rewrite E;
      apply strip_app_blank; rewrite blank_unify; [exact B |].
    rewrite blank_cons in B. now apply andb_true_iff in B.
  - destruct (unify_app w x) as [E | (x' & -> & E)]; rewrite E.
    + apply strip_blank_app. now rewrite blank_unify.
    + rewrite unify_cons_LF.
      change (Str.LF :: ?s) with ([Str.LF] ++ s).
      rewrite !strip_blank_app; [reflexivity | reflexivity |].
      now rewrite blank_unify.
Qed.

Lemma normalize_ignores_outer_whitespace_witness :
  Workflow._normalize_output (Str.lit "42" ++ [Str.CR; Str.LF; 32%N])
  = Workflow._normalize_output (Str.lit "42") /\
  Workflow._normalize_output ([Str.CR; Str.LF; 32%N] ++ Str.lit "42")
  = Workflow._normalize_output (Str.lit "42").
Proof.
  apply (@normalize_ignores_outer_whitespace (Str.lit "42")
           [Str.CR; Str.LF; 32%N]).
  reflexivity.
Defined.

Lemma forallb_blank_trim_start (ls : list Str.str) :
  forallb WorkflowSpec.blank (WorkflowSpec.trim_start ls)
  = forallb WorkflowSpec.blank ls.
Proof.
  induction ls as [| l ls IH]; [reflexivity |].
  cbn [WorkflowSpec.trim_start forallb].
  destruct (WorkflowSpec.blank l) eqn:B; [exact IH |].
  cbn [forallb]. now rewrite blank_lstrip, B.
Qed.

(** The lines the normalizer joins. *)
Lemma normalize_kept_lines (x : Str.str) :
  let K := List.map Str.rstrip
             (WorkflowSpec.drop_trailing_blank
                (WorkflowSpec.trim_start
                   (Str.split Str.LF (WorkflowSpec.unify_newlines x)))) in
  Workflow._normalize_output x = Str.join [Str.LF] K /\
  WorkflowSpec.starts_trimmed K /\
  WorkflowSpec.drop_trailing_blank K = K /\
  Forall (fun l => Str.rstrip l = l) K /\
  Forall (fun l => ~ In Str.LF l) K.
Proof.
  intros K. split; [rewrite normalize_lines; now rewrite unify_spec |].
  split.
  { apply map_rstrip_starts_trimmed, drop_trailing_blank_starts_trimmed,
      trim_start_starts_trimmed. }
  split.
  { unfold K. now rewrite drop_trailing_blank_map_rstrip,
      drop_trailing_blank_idem. }
  split.
  { unfold K. apply Forall_forall. intros l Hl.
    apply in_map_iff in Hl as (l' & <- & _). apply rstrip_idem. }
  unfold K. apply lines_Forall.
  apply map_rstrip_Forall, drop_trailing_blank_Forall, trim_start_Forall.
  apply lines_Forall, split_lines.
Qed.

(** X9.  A text normalizes to the empty text exactly when it is made of
    whitespace only (the empty text included). *)
Theorem normalize_empty_iff_blank (x : Str.str) :
  Workflow._normalize_output x = [] <-> WorkflowSpec.blank x = true.
Proof.
  destruct (normalize_kept_lines x) as (E & T & _).
  cbv zeta in E, T. rewrite E.
  set (L := Str.split Str.LF (WorkflowSpec.unify_newlines x)) in *.
  assert (B : forallb WorkflowSpec.blank L = WorkflowSpec.blank x).
  { unfold L. rewrite <- blank_join, join_split. apply blank_unify. }
  rewrite <- B, <- forallb_blank_trim_start, <- drop_trailing_blank_nil_iff.
  destruct (WorkflowSpec.drop_trailing_blank (WorkflowSpec.trim_start L))
    as [| k K'] eqn:D.
  - split; reflexivity.
  - split; [| discriminate]. cbn [List.map] in *. rewrite join_cons.
    destruct T as [Bk _]. destruct (Str.rstrip k); [discriminate |].
    discriminate.
Qed.

Lemma trim_end_fixed (ls : list Str.str) :
  Forall (fun l => Str.rstrip l = l) ls ->
  WorkflowSpec.trim_end ls = WorkflowSpec.drop_trailing_blank ls.
Proof.
  induction 1 as [| l ls Hl Hls IH]; [reflexivity |].
  rewrite trim_end_cons, drop_trailing_blank_cons. cbn [forallb].
  destruct (forallb WorkflowSpec.blank ls) eqn:B.
  - rewrite andb_true_r.
    assert (E : WorkflowSpec.drop_trailing_blank ls = [])
      by now apply drop_trailing_blank_nil_iff.
    destruct (WorkflowSpec.blank l); [reflexivity |]. now rewrite Hl, E.
  - rewrite andb_false_r. now rewrite IH.
Qed.

(** X10.  The normalized form is canonical: it holds no carriage return,
    it neither starts nor ends with whitespace, and none of its lines
    ends with whitespace. *)
Theorem normalize_output_canonical (x : Str.str) :
  let y := Workflow._normalize_output x in
  ~ In Str.CR y /\
  Str.strip y = y /\
  Forall (fun line => Str.rstrip line = line) (Str.split Str.LF y).
Proof.
  intros y. split; [apply not_In_Forall, normalize_CR_free |].
  destruct (normalize_kept_lines x) as (E & T & D & R & F).
  cbv zeta in E, T, D, R, F. unfold y. rewrite E.
  set (K := List.map Str.rstrip _) in *.
  split.
  - unfold Str.strip.
    rewrite lstrip_join, (trim_start_fixed _ T), rstrip_join.
    now rewrite (trim_end_fixed R), D.
  - destruct K as [| k K'] eqn:EK; [repeat constructor |].
    rewrite split_join; [exact R | discriminate | exact F].
Qed.

(** [replace("\n", "\r\n")] is [lf_to_crlf]. *)
Lemma replace_lf (s : Str.str) :
  Str.replace [Str.LF] [Str.CR; Str.LF] s = WorkflowSpec.lf_to_crlf s.
Proof.
  unfold Str.replace. induction s as [| c s IH]; [reflexivity |].
  cbn [Str.replace_from Str.startswith List.length Nat.pred
       WorkflowSpec.lf_to_crlf flat_map].
  rewrite (N.eqb_sym Str.LF c), andb_true_r.
  destruct (c =? Str.LF)%N; cbn [app]; now rewrite IH.
Qed.

Lemma unify_without_CR (s : Str.str) :
  Forall (fun c => c <> Str.CR) s -> WorkflowSpec.unify_newlines s = s.
Proof.
  unfold WorkflowSpec.unify_newlines.
  induction 1 as [| c s Hc Hs IH]; [reflexivity |].
  rewrite crlf_to_lf_cons_other by exact Hc. cbn [List.map]. rewrite IH.
  unfold WorkflowSpec.cr_to_lf. apply N.eqb_neq in Hc. now rewrite Hc.
Qed.

Lemma lf_to_crlf_cons (c : Str.char) (s : Str.str) :
  WorkflowSpec.lf_to_crlf (c :: s)
  = (if (c =? Str.LF)%N then [Str.CR; Str.LF] else [c])
    ++ WorkflowSpec.lf_to_crlf s.
Proof. reflexivity. Qed.

Lemma unify_lf_to_crlf (s : Str.str) :
  Forall (fun c => c <> Str.CR) s ->
  WorkflowSpec.unify_newlines (WorkflowSpec.lf_to_crlf s) = s.
Proof.
  unfold WorkflowSpec.unify_newlines.
  induction 1 as [| c s Hc Hs IH]; [reflexivity |].
  rewrite lf_to_crlf_cons.
  destruct (N.eqb_spec c Str.LF) as [-> | Hl].
  - cbn [app]. rewrite crlf_to_lf_cons2, !N.eqb_refl. cbn [andb List.map].
    now rewrite IH.
  - cbn [app]. rewrite crlf_to_lf_cons_other by exact Hc. cbn [List.map].
    rewrite IH. unfold WorkflowSpec.cr_to_lf.
    apply N.eqb_neq in Hc. now rewrite Hc.
Qed.

(** X11.  The line-ending convention does not count: a text without
    carriage return and the same text with every line feed replaced by a
    carriage return and a line feed normalize to the same text. *)
Theorem normalize_ignores_line_ending_convention (x : Str.str) :
  ~ In Str.CR x ->
  Workflow._normalize_output (Str.replace [Str.LF] [Str.CR; Str.LF] x)
  = Workflow._normalize_output x.
Proof.
  intros H. apply not_In_Forall in H.
  rewrite !normalize_unify, replace_lf.
  now rewrite (unify_lf_to_crlf H), (unify_without_CR H).
Qed.

Lemma normalize_ignores_line_ending_convention_witness :
  Workflow._normalize_output
    (Str.replace [Str.LF] [Str.CR; Str.LF] (Str.lit "1 2" ++ [Str.LF; 51%N]))
  = Workflow._normalize_output (Str.lit "1 2" ++ [Str.LF; 51%N]).
Proof.
  apply (@normalize_ignores_line_ending_convention
           (Str.lit "1 2" ++ [Str.LF; 51%N])).
  vm_compute. intros H. repeat (destruct H as [H | H]; [discriminate |]).
  exact H.
Defined.

(* ================================================================== *)
(** ** The workspace: writing and reading files *)

Lemma str_eqb_refl (a : Str.str) : Str.eqb a a = true.
Proof. now apply str_eqb_eq. Qed.

Lemma str_eqb_neq (a b : Str.str) : a <> b -> Str.eqb a b = false.
Proof.
  intros H. destruct (Str.eqb a b) eqn:E; [| reflexivity].
  apply str_eqb_eq in E. contradiction.
Qed.

Lemma read_write_same (dir : list (Str.str * Str.str)) (name content : Str.str) :
  Workflow.read_text (WorkflowManager.write_text dir name content) name
  = Some content.
Proof.
  induction dir as [| [n c] dir IH]; cbn.
  - now rewrite str_eqb_refl.
  - destruct (Str.eqb n name) eqn:E; cbn; rewrite E; [reflexivity | exact IH].
Qed.

Lemma read_write_other (dir : list (Str.str * Str.str))
    (name content other : Str.str) :
  other <> name ->
  Workflow.read_text (WorkflowManager.write_text dir name content) other
  = Workflow.read_text dir other.
Proof.
  intros H. induction dir as [| [n c] dir IH]; cbn.
  - rewrite str_eqb_neq; [reflexivity | congruence].
  - destruct (Str.eqb n name) eqn:E; cbn.
    + apply str_eqb_eq in E. subst n.
      rewrite str_eqb_neq by congruence. reflexivity.
    + destruct (Str.eqb n other); [reflexivity | exact IH].
Qed.

Lemma names_differ :
  Str.lit "test_1.in" <> Str.lit "solution.cpp" /\
  Str.lit "test_1.out" <> Str.lit "solution.cpp" /\
  Str.lit "test_1.out" <> Str.lit "test_1.in".
Proof. repeat split; discriminate. Qed.

Ltac workspace_reads :=
  repeat first
    [ rewrite read_write_same
    | rewrite read_write_other by (assumption || (apply not_eq_sym; assumption)) ].

Ltac workspace_cases :=
  cbn [fst snd]; repeat split; intros; workspace_reads; try easy.

(** X12.  What [setup_workspace] does to the workspace directory.  It
    opens [solution.cpp] for writing before anything else: whatever the
    file held and however the call ends, it holds the template afterwards
    (nothing, if the template cannot be encoded).  No file other than
    [solution.cpp], [test_1.in] and [test_1.out] changes.  The call raises
    [FileNotFoundError] exactly when the template was written and the cache
    has no sample for the problem, and the two test files are then as they
    were.  When the call returns, the two test files hold the input and the
    output of the first sample, an absent key giving an empty file. *)
Theorem setup_workspace_effects
    (self : WorkflowManager.t) (contest problem_id : Str.str)
    (dir : list (Str.str * Str.str)) :
  let after :=
    fst (WorkflowManager.setup_workspace self contest problem_id dir) in
  let ended :=
    snd (WorkflowManager.setup_workspace self contest problem_id dir) in
  let samples := WorkflowManager._get_cached_samples self contest problem_id in
  Workflow.read_text after (Str.lit "solution.cpp")
  = Some (if WorkflowManager.encodable (WorkflowManager.template self)
          then WorkflowManager.template self else []) /\
  (forall name,
     name <> Str.lit "solution.cpp" -> name <> Str.lit "test_1.in" ->
     name <> Str.lit "test_1.out" ->
     Workflow.read_text after name = Workflow.read_text dir name) /\
  (ended = WorkflowManager.FileNotFoundError <->
   WorkflowManager.encodable (WorkflowManager.template self) = true /\
   samples = []) /\
  (ended = WorkflowManager.FileNotFoundError ->
   Workflow.read_text after (Str.lit "test_1.in")
   = Workflow.read_text dir (Str.lit "test_1.in") /\
   Workflow.read_text after (Str.lit "test_1.out")
   = Workflow.read_text dir (Str.lit "test_1.out")) /\
  (ended = WorkflowManager.Returned ->
   exists first rest,
     samples = first :: rest /\
     option_map Json.String (Workflow.read_text after (Str.lit "test_1.in"))
     = Some (Json.get first (Str.lit "in") (Json.String [])) /\
     option_map Json.String (Workflow.read_text after (Str.lit "test_1.out"))
     = Some (Json.get first (Str.lit "out") (Json.String []))).
Proof.
  intros after ended samples.
  destruct names_differ as (N1 & N2 & N3).
  unfold after, ended, WorkflowManager.setup_workspace,
    WorkflowManager.path_write_text.
  fold samples.
  destruct (WorkflowManager.encodable (WorkflowManager.template self)) eqn:Et;
    [| now workspace_cases].
  destruct samples as [| first rest] eqn:Hs; [now workspace_cases |].
  destruct (Json.get first (Str.lit "in") (Json.String [])) as
    [| b | q | test_in | l | d] eqn:Hi; try (now workspace_cases).
  destruct (WorkflowManager.encodable test_in) eqn:Ei;
    [| now workspace_cases].
  destruct (Json.get first (Str.lit "out") (Json.String [])) as
    [| b | q | test_out | l | d] eqn:Ho; try (now workspace_cases).
  destruct (WorkflowManager.encodable test_out) eqn:Eo;
    [| now workspace_cases].
  workspace_cases.
  exists first, rest. workspace_reads. now rewrite Hi, Ho.
Qed.

(* ================================================================== *)
(** ** The workspace: from [setup_workspace] to [run_tests] *)

Lemma write_text_names (dir : list (Str.str * Str.str))
    (name content x : Str.str) :
  In x (List.map fst (WorkflowManager.write_text dir name content)) ->
  x = name \/ In x (List.map fst dir).
Proof.
  induction dir as [| [n c] dir IH]; cbn.
  - intros [<- | []]. now left.
  - destruct (Str.eqb n name); cbn; [tauto |].
    intros [<- | H]; [tauto |]. destruct (IH H); tauto.
Qed.

Lemma write_text_NoDup (dir : list (Str.str * Str.str))
    (name content : Str.str) :
  NoDup (List.map fst dir) ->
  NoDup (List.map fst (WorkflowManager.write_text dir name content)).
Proof.
  induction dir as [| [n c] dir IH]; cbn.
  - intros _. constructor; [intros [] | constructor].
  - intros H. inversion H as [| ? ? Hn Hd]; subst.
    destruct (Str.eqb n name) eqn:E; cbn; [exact H |].
    constructor; [| now apply IH].
    intros Hin. apply write_text_names in Hin as [-> | Hin]; [| tauto].
    now rewrite str_eqb_refl in E.
Qed.

Lemma glob_in_write_other (dir : list (Str.str * Str.str))
    (name content : Str.str) :
  Workflow.endswith (Str.lit ".in") name = false ->
  Workflow.glob_in (WorkflowManager.write_text dir name content)
  = Workflow.glob_in dir.
Proof.
  intros H. unfold Workflow.glob_in.
  induction dir as [| [n c] dir IH]; cbn [WorkflowManager.write_text filter fst].
  - now rewrite H.
  - destruct (Str.eqb n name) eqn:E; cbn [filter fst].
    + apply str_eqb_eq in E. subst n. now rewrite H.
    + now rewrite IH.
Qed.

(** Writing an input file into a directory that holds no other input
    file leaves it the only one. *)
Lemma glob_in_write_only (dir : list (Str.str * Str.str))
    (name content : Str.str) :
  Workflow.endswith (Str.lit ".in") name = true ->
  NoDup (List.map fst dir) ->
  (forall f, In f (Workflow.glob_in dir) -> fst f = name) ->
  Workflow.glob_in (WorkflowManager.write_text dir name content)
  = [(name, content)].
Proof.
  intros Hname. unfold Workflow.glob_in.
  induction dir as [| [n c] dir IH];
    cbn [WorkflowManager.write_text filter fst List.map].
  - intros _ _. now rewrite Hname.
  - intros Hd Hf. inversion Hd as [| ? ? Hn Hd']; subst.
    destruct (Str.eqb n name) eqn:E; cbn [filter fst].
    + apply str_eqb_eq in E. subst n. rewrite Hname in *. f_equal.
      destruct (filter _ dir) as [| g gs] eqn:G; [reflexivity | exfalso].
      assert (Hg : In g (filter
                 (fun f => Workflow.endswith (Str.lit ".in") (fst f)) dir))
        by (rewrite G; now left).
      apply Hn. rewrite <- (Hf g (or_intror (or_introl eq_refl))).
      apply in_map. now apply filter_In in Hg.
    + destruct (Workflow.endswith (Str.lit ".in") n) eqn:En.
      * specialize (Hf (n, c) (or_introl eq_refl)). cbn in Hf. subst n.
        now rewrite str_eqb_refl in E.
      * apply IH; assumption.
Qed.

Lemma glob_in_map (g : Str.str -> Str.str) (dir : list (Str.str * Str.str)) :
  Workflow.glob_in (List.map (fun f => (fst f, g (snd f))) dir)
  = List.map (fun f => (fst f, g (snd f))) (Workflow.glob_in dir).
Proof.
  unfold Workflow.glob_in.
  induction dir as [| [n c] dir IH]; cbn [List.map filter fst snd];
    [reflexivity |].
  destruct (Workflow.endswith (Str.lit ".in") n); cbn [List.map fst snd];
    now rewrite IH.
Qed.

Lemma read_text_map (g : Str.str -> Str.str) (dir : list (Str.str * Str.str))
    (name : Str.str) :
  Workflow.read_text (List.map (fun f => (fst f, g (snd f))) dir) name
  = option_map g (Workflow.read_text dir name).
Proof.
  induction dir as [| [n c] dir IH]; cbn [List.map Workflow.read_text fst snd];
    [reflexivity |].
  destruct (Str.eqb n name); [reflexivity | exact IH].
Qed.

(** A text read with universal newlines normalizes as the text itself. *)
Lemma normalize_universal_newlines (s : Str.str) :
  Workflow._normalize_output (WorkflowManager.universal_newlines s)
  = Workflow._normalize_output s.
Proof.
  unfold Workflow._normalize_output, WorkflowManager.universal_newlines.
  cbv zeta.
  rewrite (@replace_without_CR [Str.LF] [Str.LF] _ (replace_CR_free _)).
  now rewrite (@replace_without_CR [] [Str.LF] _ (replace_CR_free _)).
Qed.

(** X13.  [setup_workspace] followed by [run_tests], as [action_run_tests]
    calls them.  In a workspace directory that holds no input file other
    than [test_1.in], once [setup_workspace] has returned, the verdict of
    [run_tests] is decided by the first cached sample alone: the tests
    pass exactly when the compiler exits with 0, and the binary, given the
    input of that sample as [read_text] delivers it, exits with 0 and
    prints a text that normalizes as the output of the sample.  The other
    cached samples are never run: when the program compiles the binary is
    executed once, on [test_1.in]. *)
Theorem first_sample_decides_verdict
    (self : WorkflowManager.t) (contest problem_id : Str.str)
    (dir after : list (Str.str * Str.str))
    (compile_proc : CompletedProcess.t)
    (solution_bin : Str.str -> CompletedProcess.t) (file_path : Str.str) :
  NoDup (List.map fst dir) ->
  (forall f, In f (Workflow.glob_in dir) -> fst f = Str.lit "test_1.in") ->
  WorkflowManager.setup_workspace self contest problem_id dir
  = (after, WorkflowManager.Returned) ->
  exists first rest test_in test_out,
    WorkflowManager._get_cached_samples self contest problem_id
    = first :: rest /\
    Json.get first (Str.lit "in") (Json.String []) = Json.String test_in /\
    Json.get first (Str.lit "out") (Json.String []) = Json.String test_out /\
    let run_proc :=
      solution_bin (WorkflowManager.universal_newlines test_in) in
    let result :=
      Workflow.run_tests
        (WorkflowManager.world after compile_proc solution_bin) file_path in
    (fst (fst result) = true <->
     CompletedProcess.returncode compile_proc = 0%Z /\
     CompletedProcess.returncode run_proc = 0%Z /\
     Workflow._normalize_output (CompletedProcess.stdout run_proc)
     = Workflow._normalize_output test_out) /\
    (CompletedProcess.returncode compile_proc = 0%Z ->
     snd result = [Str.lit "test_1.in"]).
Proof.
  intros Hd Hin.
  destruct names_differ as (N1 & N2 & N3).
  unfold WorkflowManager.setup_workspace, WorkflowManager.path_write_text.
  destruct (WorkflowManager.encodable (WorkflowManager.template self));
    [| discriminate].
  destruct (WorkflowManager._get_cached_samples self contest problem_id)
    as [| first rest] eqn:Hs; [discriminate |].
  destruct (Json.get first (Str.lit "in") (Json.String []))
    as [| b | q | test_in | l | d] eqn:Hi; try discriminate.
  destruct (WorkflowManager.encodable test_in); [| discriminate].
  destruct (Json.get first (Str.lit "out") (Json.String []))
    as [| b | q | test_out | l | d] eqn:Ho; try discriminate.
  destruct (WorkflowManager.encodable test_out); [| discriminate].
  intros [= <-]. exists first, rest, test_in, test_out.
  split; [reflexivity |]. split; [exact Hi |]. split; [exact Ho |].
  set (run_proc :=
         solution_bin (WorkflowManager.universal_newlines test_in)).
  set (dir1 := WorkflowManager.write_text dir (Str.lit "solution.cpp")
                 (WorkflowManager.template self)) in *.
  set (dir2 := WorkflowManager.write_text dir1 (Str.lit "test_1.in") test_in)
    in *.
  set (dir3 := WorkflowManager.write_text dir2 (Str.lit "test_1.out") test_out)
    in *.
  set (w := WorkflowManager.world dir3 compile_proc solution_bin) in *.
  assert (Hglob : Workflow.glob_in dir3 = [(Str.lit "test_1.in", test_in)]).
  { unfold dir3. rewrite glob_in_write_other by reflexivity.
    apply glob_in_write_only; [reflexivity | |].
    - now apply write_text_NoDup.
    - unfold dir1. now rewrite glob_in_write_other by reflexivity. }
  assert (Hfiles : Workflow.input_files w
                   = [(Str.lit "test_1.in",
                       WorkflowManager.universal_newlines test_in)]).
  { unfold Workflow.input_files, w, WorkflowManager.world.
    cbn [Workflow.directory]. now rewrite glob_in_map, Hglob. }
  assert (Hsrc : Workflow.source_exists w = true).
  { unfold w, WorkflowManager.world. cbn [Workflow.source_exists].
    unfold dir3, dir2, dir1. now workspace_reads. }
  assert (Hout : Workflow.read_text (Workflow.directory w)
                   (Str.lit "test_1.out")
                 = Some (WorkflowManager.universal_newlines test_out)).
  { unfold w, WorkflowManager.world. cbn [Workflow.directory].
    rewrite read_text_map. unfold dir3. now workspace_reads. }
  assert (Hcase : WorkflowSpec.case_diagnostic w
                    (Str.lit "test_1.in",
                     WorkflowManager.universal_newlines test_in) = None <->
                  CompletedProcess.returncode run_proc = 0%Z /\
                  Workflow._normalize_output (CompletedProcess.stdout run_proc)
                  = Workflow._normalize_output test_out).
  { rewrite case_diagnostic_None_iff. cbn [fst snd].
    change (Workflow.with_suffix_out (Str.lit "test_1.in"))
      with (Str.lit "test_1.out").
    rewrite Hout. fold run_proc.
    change (Workflow.solution_bin w) with solution_bin. fold run_proc.
    split.
    - intros (expected & [= <-] & Hrc & Hn).
      now rewrite normalize_universal_newlines in Hn.
    - intros [Hrc Hn]. eexists. split; [reflexivity |].
      now rewrite normalize_universal_newlines. }
  assert (Hexp : WorkflowSpec.has_expected w
                   (Str.lit "test_1.in",
                    WorkflowManager.universal_newlines test_in) = true).
  { unfold WorkflowSpec.has_expected. cbn [fst].
    change (Workflow.with_suffix_out (Str.lit "test_1.in"))
      with (Str.lit "test_1.out").
    now rewrite Hout. }
  unfold Workflow.run_tests. rewrite Hsrc. cbn [negb].
  change (Workflow.compile_proc w) with compile_proc.
  destruct (Z.eqb_spec (CompletedProcess.returncode compile_proc) 0)
    as [Hc | Hc]; cbn [negb].
  - rewrite Hfiles. cbn [fold_left]. rewrite test_case_step, Hexp.
    cbn [fst snd Workflow.all_passed Workflow.executed andb app].
    split; [| reflexivity].
    rewrite <- Hcase.
    destruct (WorkflowSpec.case_diagnostic w _);
      cbn [WorkflowSpec.no_diagnostic]; now intuition.
  - cbn [fst snd]. now intuition.
Qed.

(** A fresh workspace for problem A of contest 100, and a binary that
    prints the sum the sample expects. *)
Lemma first_sample_decides_verdict_witness :
  let prints_three (_ : Str.str) :=
    CompletedProcess.mk 0 (Str.lit "3" ++ [Str.LF]) [] in
  fst (fst (Workflow.run_tests
              (WorkflowManager.world
                 (fst (WorkflowManager.setup_workspace sample_manager
                         (Str.lit "100") (Str.lit "A") []))
                 (CompletedProcess.mk 0 [] []) prints_three)
              (Str.lit "solution.cpp"))) = true.
Proof.
  intros prints_three.
  destruct (@first_sample_decides_verdict sample_manager (Str.lit "100")
              (Str.lit "A") []
              (fst (WorkflowManager.setup_workspace sample_manager
                      (Str.lit "100") (Str.lit "A") []))
              (CompletedProcess.mk 0 [] []) prints_three
              (Str.lit "solution.cpp"))
    as (first & rest & test_in & test_out & Hs & Hi & Ho & Hv & _).
  - constructor.
  - intros f [].
  - vm_compute. reflexivity.
  - vm_compute in Hs. injection Hs as <- <-.
    vm_compute in Ho. injection Ho as <-.
    apply Hv. vm_compute. repeat split; reflexivity.
Defined.

(* ================================================================== *)
(** ** Attempts and the status of a problem *)

Lemma insert_at_perm (A : Type) (place : nat) (row : A) (rows : list A) :
  Permutation (TrainerApp.insert_at place row rows) (row :: rows).
Proof.
  unfold TrainerApp.insert_at. rewrite <- Permutation_middle.
  now rewrite firstn_skipn.
Qed.

Lemma filter_insert_at_false (A : Type) (f : A -> bool) (place : nat)
    (row : A) (rows : list A) :
  f row = false ->
  filter f (TrainerApp.insert_at place row rows) = filter f rows.
Proof.
  intros H. unfold TrainerApp.insert_at. rewrite filter_app. cbn [filter].
  rewrite H, <- filter_app. now rewrite firstn_skipn.
Qed.

Lemma filter_insert_at_true (A : Type) (f : A -> bool) (place : nat)
    (row : A) (rows : list A) :
  f row = true ->
  Permutation (filter f (TrainerApp.insert_at place row rows))
    (row :: filter f rows).
Proof.
  intros H. unfold TrainerApp.insert_at. rewrite filter_app. cbn [filter].
  rewrite H, <- Permutation_middle, <- filter_app. now rewrite firstn_skipn.
Qed.

Section SortedHead.

Variables (A K : Type) (le : K -> K -> bool) (key : A -> K).

Hypothesis le_total : forall a b, le a b = false -> le b a = true.
Hypothesis le_trans :
  forall a b c, le a b = true -> le b c = true -> le a c = true.

(** An element that no other element comes before is the first of the
    sorted list. *)
Lemma sorted_by_head (x : A) (l l' : list A) :
  Permutation l' (x :: l) ->
  (forall y, In y l -> le (key y) (key x) = false) ->
  hd_error (Py.sorted_by le key l') = Some x.
Proof.
  intros Hp Hx.
  assert (Hs := sorted_by_sorted le key le_total le_trans l').
  assert (Hp' : Permutation (Py.sorted_by le key l') (x :: l))
    by (now rewrite sorted_by_perm).
  destruct (Py.sorted_by le key l') as [| h t].
  - now apply Permutation_nil in Hp'.
  - cbn. f_equal.
    assert (Hh : In h (x :: l))
      by (eapply Permutation_in; [exact Hp' | now left]).
    destruct Hh as [-> | Hh]; [reflexivity |].
    assert (Hxin : In x (h :: t))
      by (eapply Permutation_in; [symmetry; exact Hp' | now left]).
    destruct Hxin as [-> | Hxin]; [reflexivity |].
    inversion Hs as [| ? ? _ Hall]; subst.
    rewrite Forall_forall in Hall. specialize (Hall x Hxin). cbn in Hall.
    rewrite (Hx h Hh) in Hall. discriminate.
Qed.

End SortedHead.

Lemma Zgeb_total (a b : Z) : (b <=? a)%Z = false -> (a <=? b)%Z = true.
Proof. destruct (Z.leb_spec b a), (Z.leb_spec a b); auto; lia. Qed.

Lemma Zgeb_trans (a b c : Z) :
  (b <=? a)%Z = true -> (c <=? b)%Z = true -> (c <=? a)%Z = true.
Proof. rewrite !Z.leb_le. lia. Qed.

(** The latest attempt of a problem once an attempt with a later time
    stamp is recorded. *)
Lemma latest_attempt_recorded (now flushed : Py.datetime) (place : nat)
    (attempts : list Attempt.t) (p q : Z) (passed : bool)
    (started_at : Py.datetime) :
  (forall a, In a attempts -> Attempt.problem_id a = p ->
             (Attempt.timestamp a < flushed)%Z) ->
  TrainerApp.status_of
    (TrainerApp.latest_attempt
       (TrainerApp._record_attempt now flushed place attempts p passed
          started_at) q)
  = if (q =? p)%Z
    then (if passed then Str.lit "solved" else Str.lit "attempted")
    else TrainerApp.status_of (TrainerApp.latest_attempt attempts q).
Proof.
  intros Hlater.
  unfold TrainerApp.latest_attempt, TrainerApp._record_attempt. cbv zeta.
  set (new := Attempt.mk _ _ _ _ _).
  destruct (Z.eqb_spec q p) as [-> | Hq].
  - rewrite (@sorted_by_head _ _ (fun a b => (b <=? a)%Z) Attempt.timestamp
               Zgeb_total Zgeb_trans new
               (filter (fun a => (Attempt.problem_id a =? p)%Z) attempts)).
    + unfold new. now destruct passed.
    + apply filter_insert_at_true. unfold new. cbn. apply Z.eqb_refl.
    + intros y Hy. apply filter_In in Hy as [Hy Hp].
      apply Z.eqb_eq in Hp. specialize (Hlater y Hy Hp).
      unfold new. cbn. apply Z.leb_gt. exact Hlater.
  - rewrite filter_insert_at_false; [reflexivity |].
    unfold new. cbn. apply Z.eqb_neq. congruence.
Qed.

Lemma maxZ_lower (a b : Z) : (a <= Py.maxZ a b)%Z.
Proof. unfold Py.maxZ. destruct (Z.ltb_spec a b); lia. Qed.

(** X14.  [_record_attempt] followed by [_load_problems_for_contest], as
    [action_run_tests] calls them.  Provided that the attempts of the
    problem on record are older than the new one, the list of the contest
    shows the problem as solved when the tests passed and as attempted when
    they did not, whatever its attempts were before, and shows every other
    problem as it did.  The table gains one row and loses none, and the
    duration it records is one second at least, also when the clock reads
    less than when the work started. *)
Theorem recorded_attempt_decides_status
    (problems : list Problem.t) (attempts : list Attempt.t)
    (contest_id : Str.str) (now flushed : Py.datetime) (place : nat)
    (p : Z) (passed : bool) (started_at : Py.datetime) :
  (forall a, In a attempts -> Attempt.problem_id a = p ->
             (Attempt.timestamp a < flushed)%Z) ->
  let recorded :=
    TrainerApp._record_attempt now flushed place attempts p passed
      started_at in
  TrainerApp._load_problems_for_contest problems recorded contest_id
  = List.map
      (fun row =>
         if (ProblemData.id row =? p)%Z
         then ProblemData.mk (ProblemData.id row) (ProblemData.title row)
                (ProblemData.contest_id row)
                (if passed then Str.lit "solved" else Str.lit "attempted")
                (ProblemData.description row)
         else row)
      (TrainerApp._load_problems_for_contest problems attempts contest_id)
  /\ exists a,
       Permutation recorded (a :: attempts) /\
       Attempt.problem_id a = p /\
       Attempt.timestamp a = flushed /\
       (1 <= Attempt.duration a)%Z.
Proof.
  intros Hlater recorded. split.
  - unfold TrainerApp._load_problems_for_contest. rewrite map_map.
    apply map_ext. intros problem. cbn [ProblemData.id].
    unfold recorded. rewrite latest_attempt_recorded by exact Hlater.
    now destruct (Problem.id problem =? p)%Z.
  - eexists. split; [apply insert_at_perm |].
    cbn. repeat split. apply maxZ_lower.
Qed.

Lemma recorded_attempt_decides_status_witness :
  List.map ProblemData.status
    (TrainerApp._load_problems_for_contest
       [problem_n 7; problem_n 8]
       (TrainerApp._record_attempt (clock_2026 + 90000000)%Z
          (clock_2026 + 90000001)%Z 0 one_failed_attempt 7 true
          (clock_2026 + 60000000)%Z)
       (Str.lit "contest"))
  = [Str.lit "solved"; Str.lit "unsolved"].
Proof.
  assert (Hlater : forall a, In a one_failed_attempt ->
            Attempt.problem_id a = 7%Z ->
            (Attempt.timestamp a < clock_2026 + 90000001)%Z).
  { intros a [<- | []] _. vm_compute. reflexivity. }
  rewrite (proj1 (@recorded_attempt_decides_status
                    [problem_n 7; problem_n 8] one_failed_attempt
                    (Str.lit "contest") (clock_2026 + 90000000)%Z
                    (clock_2026 + 90000001)%Z 0 7 true
                    (clock_2026 + 60000000)%Z Hlater)).
  vm_compute. reflexivity.
Defined.

(* ================================================================== *)
(** ** Review states: a rating and the queue of the day *)

Section SortedFilter.

Variables (A K : Type) (le : K -> K -> bool) (key : A -> K) (f : A -> bool).

Hypothesis le_total : forall a b, le a b = false -> le b a = true.
Hypothesis le_trans :
  forall a b c, le a b = true -> le b c = true -> le a c = true.

Lemma insert_by_front (x : A) (l : list A) :
  (forall y, In y l -> le (key x) (key y) = true) ->
  Py.insert_by le key x l = x :: l.
Proof.
  destruct l as [| y l]; [reflexivity |]. intros H. cbn.
  now rewrite (H y (or_introl eq_refl)).
Qed.

Lemma filter_insert_by (x : A) (s : list A) :
  StronglySorted (fun a b => le (key a) (key b) = true) s ->
  filter f (Py.insert_by le key x s)
  = if f x then Py.insert_by le key x (filter f s) else filter f s.
Proof.
  induction 1 as [| y l Hl IH Hy]; cbn [Py.insert_by filter].
  - now destruct (f x).
  - destruct (le (key x) (key y)) eqn:E; cbn [filter].
    + destruct (f x) eqn:Fx; [| reflexivity].
      destruct (f y) eqn:Fy.
      * cbn [Py.insert_by]. now rewrite E.
      * symmetry. apply insert_by_front. intros z Hz.
        apply filter_In in Hz as [Hz _].
        rewrite Forall_forall in Hy. eauto.
    + rewrite IH. destruct (f y) eqn:Fy, (f x) eqn:Fx; try reflexivity.
      cbn [Py.insert_by]. now rewrite E.
Qed.

(** A stable sort and a selection commute. *)
Lemma sorted_by_filter (l : list A) :
  Py.sorted_by le key (filter f l) = filter f (Py.sorted_by le key l).
Proof.
  induction l as [| x l IH]; [reflexivity |].
  cbn [Py.sorted_by filter].
  rewrite filter_insert_by
    by (apply sorted_by_sorted; [exact le_total | exact le_trans]).
  destruct (f x); [| exact IH]. cbn [Py.sorted_by]. now rewrite IH.
Qed.

End SortedFilter.

Lemma filter_none (A : Type) (f : A -> bool) (l : list A) :
  (forall x, In x l -> f x = false) -> filter f l = [].
Proof.
  induction l as [| x l IH]; [reflexivity |]. intros H. cbn.
  rewrite (H x (or_introl eq_refl)). apply IH. intros y Hy. apply H. now right.
Qed.

Lemma filter_all (A : Type) (f : A -> bool) (l : list A) :
  (forall x, In x l -> f x = true) -> filter f l = l.
Proof.
  induction l as [| x l IH]; [reflexivity |]. intros H. cbn.
  rewrite (H x (or_introl eq_refl)). f_equal. apply IH. intros y Hy.
  apply H. now right.
Qed.

(** What a successful call of [_update_fsrs] does to the table of review
    states: the rows of other problems are the rows of before, and every
    row of the problem holds the result of [calculate_next_review]. *)
Lemma update_fsrs_states (now clock : Py.datetime) (place : nat)
    (db db' : Tui.Database) (p rating : Z) :
  TrainerApp._update_fsrs now clock place db p rating = Ok db' ->
  Tui.problems db' = Tui.problems db /\
  (forall q, q <> p ->
     filter (fun s => (FSRSState.problem_id s =? q)%Z) (Tui.fsrs_states db')
     = filter (fun s => (FSRSState.problem_id s =? q)%Z) (Tui.fsrs_states db)) /\
  exists previous elapsed_days update,
    Fsrs.calculate_next_review clock previous rating elapsed_days
    = Ok update /\
    (forall s, In s (Tui.fsrs_states db') -> FSRSState.problem_id s = p ->
               s = TrainerApp.stored p update) /\
    In (TrainerApp.stored p update) (Tui.fsrs_states db').
Proof.
  unfold TrainerApp._update_fsrs.
  destruct (find _ (Tui.fsrs_states db)) as [state |] eqn:F.
  - destruct (Fsrs.calculate_next_review clock _ rating _) as [update | e]
      eqn:E; cbn [bind]; [| discriminate].
    intros [= <-]. cbn [Tui.problems Tui.fsrs_states].
    split; [reflexivity |]. split.
    + intros q Hq. induction (Tui.fsrs_states db) as [| s l IH] in |- *;
        [reflexivity |].
      cbn [List.map filter].
      destruct (Z.eqb_spec (FSRSState.problem_id s) p) as [Hs | Hs].
      * cbn [TrainerApp.stored FSRSState.problem_id]. rewrite Hs.
        destruct (Z.eqb_spec p q) as [Hpq | _]; [congruence | exact IH].
      * rewrite IH. reflexivity.
    + do 3 eexists. split; [exact E |]. split.
      * intros s Hs Hp. apply in_map_iff in Hs as (s0 & <- & _).
        destruct (Z.eqb_spec (FSRSState.problem_id s0) p) as [_ | H0];
          [reflexivity | contradiction].
      * apply find_some in F as [Hin Hp].
        apply in_map_iff. exists state. now rewrite Hp.
  - destruct (Fsrs.calculate_next_review clock _ rating _) as [update | e]
      eqn:E; cbn [bind]; [| discriminate].
    intros [= <-]. cbn [Tui.problems Tui.fsrs_states].
    split; [reflexivity |]. split.
    + intros q Hq. apply filter_insert_at_false. cbn.
      apply Z.eqb_neq. congruence.
    + do 3 eexists. split; [exact E |]. split.
      * intros s Hs Hp.
        apply (Permutation_in _ (insert_at_perm place _ _)) in Hs.
        destruct Hs as [<- | Hs]; [reflexivity |].
        apply (find_none _ _ F) in Hs. apply Z.eqb_neq in Hs. contradiction.
      * apply (Permutation_in _ (Permutation_sym (insert_at_perm place _ _))).
        now left.
Qed.

Lemma filter_flat_map (A B : Type) (f : B -> bool) (g : A -> list B)
    (l : list A) :
  filter f (flat_map g l) = flat_map (fun x => filter f (g x)) l.
Proof.
  induction l as [| x l IH]; [reflexivity |]. cbn.
  now rewrite filter_app, IH.
Qed.

Lemma today_start (a b : Py.datetime) :
  (Tui.today a <= Tui.today b)%Z ->
  (Tui.combine_time_max (Tui.today a) < b + Py.us_per_day)%Z.
Proof.
  unfold Tui.today, Tui.combine_time_max, Py.us_per_day. intros H.
  pose proof (Z.mul_div_le b 86400000000 ltac:(lia)). nia.
Qed.

(** X15.  [_update_fsrs] followed by the query of
    [_populate_daily_review], as [action_run_tests] calls them.  When
    [_update_fsrs] has stored a rating, and the local date that
    [date.today()] gives is not later than the date of the UTC clock that
    [calculate_next_review] reads, the queue of the day is the queue as it
    was without the rows of the rated problem: the problem has left the
    queue, whatever the rating, and the other problems are in it as
    before, in the same order. *)
Theorem rated_problem_leaves_queue
    (now clock local : Py.datetime) (place : nat)
    (db db' : Tui.Database) (p rating : Z) :
  TrainerApp._update_fsrs now clock place db p rating = Ok db' ->
  (Tui.today local <= Tui.today clock)%Z ->
  Tui.daily_review_rows db' local
  = filter (fun row : Tui.Row => negb (Problem.id (fst row) =? p)%Z)
      (Tui.daily_review_rows db local).
Proof.
  intros Hupd Hday.
  destruct (update_fsrs_states _ _ _ _ _ _ Hupd)
    as (Hproblems & Hothers & previous & e & update & Hcalc & Hrows & _).
  destruct (calculate_next_review_Ok_inv _ _ _ _ Hcalc)
    as (r & n & _ & Hn & _ & _ & _ & _ & _ & Hnext).
  pose proof (today_start _ _ Hday) as Hend.
  unfold Tui.daily_review_rows. cbv zeta.
  rewrite <- (sorted_by_filter Z.leb _ _ Zleb_total Zleb_trans).
  f_equal. unfold Tui.joined. rewrite Hproblems, !filter_flat_map.
  apply flat_map_ext. intros q.
  destruct (Z.eqb_spec (Problem.id q) p) as [Hq | Hq].
  - rewrite !filter_none; [reflexivity | |].
    + intros row Hrow. apply filter_In in Hrow as [Hrow _].
      apply in_map_iff in Hrow as (s & <- & _). cbn [fst].
      apply Z.eqb_eq in Hq. now rewrite Hq.
    + intros row Hrow. apply in_map_iff in Hrow as (s & <- & Hs).
      apply filter_In in Hs as [Hs Hp]. apply Z.eqb_eq in Hp.
      rewrite (Hrows s Hs) by congruence.
      cbn [snd TrainerApp.stored FSRSState.next_review_date].
      apply Z.leb_gt. rewrite Hnext. unfold Py.us_per_day in *. nia.
  - rewrite (Hothers _ Hq). symmetry. apply filter_all.
    intros row Hrow. apply filter_In in Hrow as [Hrow _].
    apply in_map_iff in Hrow as (s & <- & _). cbn [fst].
    apply Z.eqb_neq in Hq. now rewrite Hq.
Qed.

(** Problem 1 of [scenario_db], due since the day before, is rated Good
    at [clock_2026]: the queue of that day is empty afterwards. *)
Lemma rated_problem_leaves_queue_witness :
  exists db',
    TrainerApp._update_fsrs clock_2026 clock_2026 0 scenario_db 1 3 = Ok db' /\
    List.map (fun row : Tui.Row => Problem.id (fst row))
      (Tui.daily_review_rows scenario_db clock_2026) = [1%Z] /\
    Tui.daily_review_rows db' clock_2026 = [].
Proof.
  eexists. split; [vm_compute; reflexivity |].
  split; [vm_compute; reflexivity |].
  rewrite (@rated_problem_leaves_queue clock_2026 clock_2026 clock_2026 0
             scenario_db _ 1 3).
  - vm_compute. reflexivity.
  - vm_compute. reflexivity.
  - vm_compute. discriminate.
Defined.

Lemma tomorrow_start (a b : Py.datetime) :
  (Tui.today b < Tui.today a)%Z ->
  (b + 1 * Py.us_per_day <= Tui.combine_time_max (Tui.today a))%Z.
Proof.
  unfold Tui.today, Tui.combine_time_max, Py.us_per_day. intros H.
  pose proof (Z.div_mod b 86400000000 ltac:(lia)) as E.
  pose proof (Z.mod_pos_bound b 86400000000 ltac:(lia)) as B. nia.
Qed.

(** X16.  The condition of X15 on the two clocks cannot be dropped.
    [calculate_next_review] reads the UTC clock and
    [_populate_daily_review] the local date: while the local date is ahead
    of the UTC date, a problem of the database that has just been rated
    Again, and so is due one day later by the UTC clock, is in the queue
    of the day at once. *)
Theorem rated_again_due_at_once
    (now clock local : Py.datetime) (place : nat)
    (db db' : Tui.Database) (problem : Problem.t) :
  In problem (Tui.problems db) ->
  TrainerApp._update_fsrs now clock place db (Problem.id problem) 1 = Ok db' ->
  (Tui.today clock < Tui.today local)%Z ->
  exists state,
    In (problem, state) (Tui.daily_review_rows db' local) /\
    FSRSState.last_reviewed state = clock /\
    FSRSState.next_review_date state = (clock + 1 * Py.us_per_day)%Z.
Proof.
  intros Hin Hupd Hday.
  destruct (update_fsrs_states _ _ _ _ _ _ Hupd)
    as (Hproblems & _ & previous & e & update & Hcalc & _ & Hstored).
  destruct (calculate_next_review_Ok_inv _ _ _ _ Hcalc)
    as (r & n & Hr & _ & Hagain & _ & _ & _ & Hlast & Hnext).
  assert (Hn : n = 1%Z) by (apply Hagain; now destruct r).
  subst n. exists (TrainerApp.stored (Problem.id problem) update).
  cbn [TrainerApp.stored FSRSState.last_reviewed FSRSState.next_review_date].
  split; [| now split].
  unfold Tui.daily_review_rows. cbv zeta.
  eapply Permutation_in; [symmetry; apply sorted_by_perm |].
  apply filter_In. split.
  - apply joined_In. rewrite Hproblems. now repeat split.
  - cbn [snd TrainerApp.stored FSRSState.next_review_date].
    apply Z.leb_le. rewrite Hnext. now apply tomorrow_start.
Qed.

(** Problem 1 of [scenario_db] is rated Again at 20:00 UTC on the first
    of January 2026, where the local clock reads 05:00 on the second. *)
Lemma rated_again_due_at_once_witness :
  exists db' state,
    TrainerApp._update_fsrs (clock_2026 + 72000000000)%Z
      (clock_2026 + 72000000000)%Z 0 scenario_db 1 1 = Ok db' /\
    In (problem_n 1, state)
      (Tui.daily_review_rows db' (clock_2026 + 104400000000)%Z).
Proof.
  assert (Hupd : { db' | TrainerApp._update_fsrs (clock_2026 + 72000000000)%Z
                           (clock_2026 + 72000000000)%Z 0 scenario_db 1 1
                         = Ok db' })
    by (eexists; vm_compute; reflexivity).
  destruct Hupd as [db' Hupd]. exists db'.
  destruct (@rated_again_due_at_once (clock_2026 + 72000000000)%Z
              (clock_2026 + 72000000000)%Z (clock_2026 + 104400000000)%Z 0
              scenario_db db' (problem_n 1)) as (state & Hstate & _).
  - vm_compute. auto.
  - exact Hupd.
  - vm_compute. reflexivity.
  - exists state. split; [exact Hupd | exact Hstate].
Defined.

(* ================================================================== *)
(** ** Review states: what [_update_fsrs] stores *)

Lemma calculate_next_review_valid_rating
    (clock : Py.datetime) (s : FSRSReviewState.t) (rating : Z) (e : Q) :
  (1 <= rating <= 4)%Z ->
  Fsrs.calculate_next_review clock s rating e <> Raise ValueError.
Proof.
  intros H. destruct (of_int_valid H) as [r Hr].
  apply of_int_Ok in Hr. subst rating.
  destruct (calculate_next_review_shape clock s r e)
    as (nd & ns & n & _ & _ & _ & _ & E).
  rewrite E. unfold Py.timedelta_days, Py.datetime_add.
  destruct (Z.abs n <=? 999999999)%Z; cbn [bind]; [| discriminate].
  destruct ((0 <=? _) && _)%Z; cbn [bind]; discriminate.
Qed.

Lemma update_fsrs_Raise (now clock : Py.datetime) (place : nat)
    (db : Tui.Database) (p rating : Z) (e : exn) :
  TrainerApp._update_fsrs now clock place db p rating = Raise e ->
  exists previous elapsed_days,
    Fsrs.calculate_next_review clock previous rating elapsed_days = Raise e.
Proof.
  unfold TrainerApp._update_fsrs.
  destruct (find _ (Tui.fsrs_states db)) as [state |];
    destruct (Fsrs.calculate_next_review clock _ rating _) as [update | e']
      eqn:E; cbn [bind]; try discriminate;
    intros [= <-]; eauto.
Qed.

(** X17.  The rating dialogue and the scheduler agree on what a rating
    is.  [_submit] dismisses the dialogue with a rating exactly when the
    text of the field, whitespace around it apart, is one of the digits 1
    to 4, and the rating is then the number that the digit writes.  Such a
    rating is a member of [Rating], and [_update_fsrs] called with it never
    ends in the [ValueError] of an unknown rating. *)
Theorem submitted_rating_is_accepted (value : Str.str) (rating : Z) :
  (DifficultyModal._submit value = Some rating <->
   (1 <= rating <= 4)%Z /\ Str.strip value = Str.of_int rating) /\
  (DifficultyModal._submit value = Some rating ->
   (exists r, Rating.of_int rating = Ok r /\ Rating.value r = rating) /\
   forall now clock place db p,
     TrainerApp._update_fsrs now clock place db p rating
     <> Raise ValueError).
Proof.
  assert (Hiff : DifficultyModal._submit value = Some rating <->
                 (1 <= rating <= 4)%Z /\ Str.strip value = Str.of_int rating).
  { unfold DifficultyModal._submit. cbv zeta. cbn [existsb]. split.
    - destruct (Str.eqb (Str.strip value) (Str.lit "1")) eqn:E1;
        [apply str_eqb_eq in E1; rewrite E1; cbn [orb];
         intros [= <-]; split; [vm_compute; intuition discriminate
                               | reflexivity] |].
      destruct (Str.eqb (Str.strip value) (Str.lit "2")) eqn:E2;
        [apply str_eqb_eq in E2; rewrite E2; cbn [orb];
         intros [= <-]; split; [vm_compute; intuition discriminate
                               | reflexivity] |].
      destruct (Str.eqb (Str.strip value) (Str.lit "3")) eqn:E3;
        [apply str_eqb_eq in E3; rewrite E3; cbn [orb];
         intros [= <-]; split; [vm_compute; intuition discriminate
                               | reflexivity] |].
      destruct (Str.eqb (Str.strip value) (Str.lit "4")) eqn:E4;
        [apply str_eqb_eq in E4; rewrite E4; cbn [orb];
         intros [= <-]; split; [vm_compute; intuition discriminate
                               | reflexivity] |].
      discriminate.
    - intros [Hr ->].
      assert (C : rating = 1%Z \/ rating = 2%Z \/ rating = 3%Z
                  \/ rating = 4%Z) by lia.
      destruct C as [-> | [-> | [-> | ->]]]; reflexivity. }
  split; [exact Hiff |]. intros H. apply Hiff in H as [Hr _]. split.
  - destruct (of_int_valid Hr) as [r Er]. exists r. split; [exact Er |].
    symmetry. now apply of_int_Ok.
  - intros now clock place db p Hraise.
    apply update_fsrs_Raise in Hraise as (previous & e & Hraise).
    exact (calculate_next_review_valid_rating _ _ _ Hr Hraise).
Qed.

Lemma find_absent (A : Type) (f : A -> bool) (l : list A) :
  (forall x, In x l -> f x = false) -> find f l = None.
Proof.
  induction l as [| x l IH]; [reflexivity |]. intros H. cbn.
  rewrite (H x (or_introl eq_refl)). apply IH. intros y Hy. apply H. now right.
Qed.

(** X18.  The first rating of a problem.  For a problem without a review
    state [_update_fsrs] starts from stability 0.5 and difficulty 5.0 with
    no time elapsed, so what it stores depends on the rating alone: the
    review is due one day after the clock reading for Again, Hard and Good
    and two days after it for Easy; the stability is 0.3 after Again and
    stays 0.5 otherwise; the difficulty is 5.0, 5.15, 4.9 and 4.7.  The
    table gains this one row. *)
Theorem first_rating_schedule
    (now clock : Py.datetime) (place : nat)
    (db db' : Tui.Database) (p rating : Z) :
  (forall s, In s (Tui.fsrs_states db) -> FSRSState.problem_id s <> p) ->
  TrainerApp._update_fsrs now clock place db p rating = Ok db' ->
  exists state,
    Permutation (Tui.fsrs_states db') (state :: Tui.fsrs_states db) /\
    FSRSState.problem_id state = p /\
    FSRSState.last_reviewed state = clock /\
    FSRSState.next_review_date state
    = (clock + (if (rating =? 4)%Z then 2 else 1) * Py.us_per_day)%Z /\
    FSRSState.stability state == (if (rating =? 1)%Z then 0.3 else 0.5) /\
    FSRSState.difficulty state
    == (if (rating =? 1)%Z then 5.0
        else if (rating =? 2)%Z then 5.15
        else if (rating =? 3)%Z then 4.9
        else 4.7).
Proof.
  intros Hnone. unfold TrainerApp._update_fsrs.
  rewrite find_absent
    by (intros s Hs; apply Z.eqb_neq; now apply Hnone).
  destruct (Fsrs.calculate_next_review clock _ rating 0.0) as [update | e]
    eqn:E; cbn [bind]; [| discriminate].
  intros [= <-]. cbn [Tui.fsrs_states].
  exists (TrainerApp.stored p update).
  split; [apply insert_at_perm |].
  cbn [TrainerApp.stored FSRSState.problem_id FSRSState.last_reviewed
       FSRSState.next_review_date FSRSState.stability FSRSState.difficulty].
  split; [reflexivity |].
  apply calculate_next_review_fields in E. cbv zeta in E.
  cbn [FSRSReviewState.stability FSRSReviewState.difficulty] in E.
  destruct E as [Hlast [(-> & Hd & Hs & Hn) | [(-> & Hd & Hs & Hn) |
                        [(-> & Hd & Hs & Hn) | (-> & Hd & Hs & Hn)]]]];
    (split; [exact Hlast |]); rewrite Hd, Hs, Hn; cbn [Z.eqb Pos.eqb];
    (split; [f_equal; f_equal; vm_compute; reflexivity |]);
    split; vm_compute; reflexivity.
Qed.

(** Problem 3 of [scenario_db] has no review state and is rated Easy. *)
Lemma first_rating_schedule_witness :
  exists db' state,
    TrainerApp._update_fsrs clock_2026 clock_2026 0 scenario_db 3 4 = Ok db' /\
    In state (Tui.fsrs_states db') /\
    FSRSState.problem_id state = 3%Z /\
    FSRSState.next_review_date state = (clock_2026 + 2 * Py.us_per_day)%Z.
Proof.
  assert (Hupd : { db' | TrainerApp._update_fsrs clock_2026 clock_2026 0
                           scenario_db 3 4 = Ok db' })
    by (eexists; vm_compute; reflexivity).
  destruct Hupd as [db' Hupd]. exists db'.
  destruct (@first_rating_schedule clock_2026 clock_2026 0 scenario_db db'
              3 4) as (state & Hperm & Hp & _ & Hnext & _).
  - intros s [<- | [<- | []]]; vm_compute; discriminate.
  - exact Hupd.
  - exists state. split; [exact Hupd |]. split; [| split; assumption].
    eapply Permutation_in; [symmetry; exact Hperm | now left].
Defined.

Lemma map_problem_id_update (p : Z) (new : FSRSState.t)
    (states : list FSRSState.t) :
  FSRSState.problem_id new = p ->
  List.map FSRSState.problem_id
    (List.map
       (fun s => if (FSRSState.problem_id s =? p)%Z then new else s) states)
  = List.map FSRSState.problem_id states.
Proof.
  intros H. rewrite map_map. apply map_ext. intros s.
  destruct (Z.eqb_spec (FSRSState.problem_id s) p); congruence.
Qed.

Lemma update_fsrs_NoDup (now clock : Py.datetime) (place : nat)
    (db db' : Tui.Database) (p rating : Z) :
  TrainerApp._update_fsrs now clock place db p rating = Ok db' ->
  NoDup (List.map FSRSState.problem_id (Tui.fsrs_states db)) ->
  NoDup (List.map FSRSState.problem_id (Tui.fsrs_states db')).
Proof.
  unfold TrainerApp._update_fsrs.
  destruct (find _ (Tui.fsrs_states db)) as [state |] eqn:F;
    destruct (Fsrs.calculate_next_review clock _ rating _) as [u | e']
      eqn:E; cbn [bind]; try discriminate;
    intros [= <-] Hnd; cbn [Tui.fsrs_states].
  - now rewrite map_problem_id_update.
  - eapply Permutation_NoDup;
      [symmetry; apply Permutation_map; apply insert_at_perm |].
    cbn [List.map TrainerApp.stored FSRSState.problem_id].
    constructor; [| exact Hnd].
    intros Hp. apply in_map_iff in Hp as (s & Hs' & Hin').
    apply (find_none _ _ F) in Hin'. apply Z.eqb_neq in Hin'. contradiction.
Qed.

(** X19.  What [_update_fsrs] keeps true of the table of review states.
    If no two rows are for the same problem before the call, none are
    after it, so the primary key is respected.  The table of problems and
    the rows of the other problems are untouched.  The row of the rated
    problem is last reviewed at the clock reading, is due a whole number
    of days later, one at least, and holds a difficulty between 1 and 10
    and a stability of 0.1 at least, whatever numbers the row held
    before. *)
Theorem update_fsrs_keeps_table_sound
    (now clock : Py.datetime) (place : nat)
    (db db' : Tui.Database) (p rating : Z) :
  TrainerApp._update_fsrs now clock place db p rating = Ok db' ->
  (NoDup (List.map FSRSState.problem_id (Tui.fsrs_states db)) ->
   NoDup (List.map FSRSState.problem_id (Tui.fsrs_states db'))) /\
  Tui.problems db' = Tui.problems db /\
  (forall s, FSRSState.problem_id s <> p ->
     (In s (Tui.fsrs_states db') <-> In s (Tui.fsrs_states db))) /\
  exists state,
    In state (Tui.fsrs_states db') /\
    (forall s, In s (Tui.fsrs_states db') -> FSRSState.problem_id s = p ->
               s = state) /\
    FSRSState.problem_id state = p /\
    FSRSState.last_reviewed state = clock /\
    (exists n, (1 <= n)%Z /\
       FSRSState.next_review_date state = (clock + n * Py.us_per_day)%Z) /\
    1 <= FSRSState.difficulty state <= 10 /\
    0.1 <= FSRSState.stability state.
Proof.
  intros Hupd.
  destruct (update_fsrs_states _ _ _ _ _ _ Hupd)
    as (Hproblems & Hothers & previous & e & update & Hcalc & Hrows & Hin).
  destruct (calculate_next_review_Ok_inv _ _ _ _ Hcalc)
    as (r & n & _ & Hn & _ & _ & Hd & Hs & Hlast & Hnext).
  split; [| split; [exact Hproblems | split]].
  - exact (update_fsrs_NoDup _ _ _ _ _ _ Hupd).
  - intros s Hs'.
    assert (Hf : forall l,
               In s l <->
               In s (filter (fun s' => (FSRSState.problem_id s'
                                        =? FSRSState.problem_id s)%Z) l)).
    { intros l. rewrite filter_In, Z.eqb_refl. tauto. }
    rewrite (Hf (Tui.fsrs_states db')), (Hf (Tui.fsrs_states db)).
    now rewrite (Hothers _ Hs').
  - exists (TrainerApp.stored p update).
    cbn [TrainerApp.stored FSRSState.problem_id FSRSState.last_reviewed
         FSRSState.next_review_date FSRSState.stability FSRSState.difficulty].
    split; [exact Hin |]. split; [exact Hrows |]. split; [reflexivity |].
    split; [exact Hlast |]. split; [now exists n |]. split; assumption.
Qed.

Lemma update_fsrs_keeps_table_sound_witness :
  exists db',
    TrainerApp._update_fsrs clock_2026 clock_2026 0 scenario_db 1 3 = Ok db' /\
    NoDup (List.map FSRSState.problem_id (Tui.fsrs_states db')).
Proof.
  assert (Hupd : { db' | TrainerApp._update_fsrs clock_2026 clock_2026 0
                           scenario_db 1 3 = Ok db' })
    by (eexists; vm_compute; reflexivity).
  destruct Hupd as [db' Hupd]. exists db'. split; [exact Hupd |].
  apply (proj1 (@update_fsrs_keeps_table_sound clock_2026 clock_2026 0
                  scenario_db db' 1 3 Hupd)).
  vm_compute. repeat constructor; cbn; intuition discriminate.
Defined.

(* ================================================================== *)
(** ** Navigation with retries *)

Lemma backoff_bounds (attempt : Z) :
  (1 <= attempt)%Z ->
  (2 <= VJudgeScraper.backoff attempt <= 6)%Z.
Proof.
  intros H. unfold VJudgeScraper.backoff.
  assert (2 ^ 1 <= 2 ^ attempt)%Z by (apply Z.pow_le_mono_r; lia).
  change (2 ^ 1)%Z with 2%Z in *.
  destruct (Z.ltb_spec 6 (2 ^ attempt)); lia.
Qed.

Lemma calls_shift (attempt : Z) (k : nat) :
  attempt :: List.map (fun i => (attempt + 1 + Z.of_nat i)%Z) (seq 0 k)
  = List.map (fun i => (attempt + Z.of_nat i)%Z) (seq 0 (S k)).
Proof.
  cbn [seq List.map]. f_equal; [lia |].
  rewrite <- seq_shift, map_map. apply map_ext. intros i. lia.
Qed.

(** The loop from any attempt on, when a turn is left. *)
Lemma attempts_spec (page : Z -> VJudgeScraper.goto) (retries : Z)
    (todo : nat) :
  forall (attempt : Z) (last_error : option VJudgeScraper.goto),
    todo <> 0%nat ->
    (attempt + Z.of_nat todo = retries + 1)%Z ->
    let r := VJudgeScraper.attempts page retries todo attempt last_error in
    exists k : nat,
      (1 <= k <= todo)%nat /\
      VJudgeScraper.calls r
      = List.map (fun i => (attempt + Z.of_nat i)%Z) (seq 0 k) /\
      VJudgeScraper.sleeps r
      = List.map VJudgeScraper.backoff (removelast (VJudgeScraper.calls r)) /\
      (forall j, (attempt <= j < attempt + Z.of_nat k - 1)%Z ->
         page j = VJudgeScraper.TimeoutError \/ page j = VJudgeScraper.Error) /\
      VJudgeScraper.outcome r
      = match page (attempt + Z.of_nat k - 1)%Z with
        | VJudgeScraper.Loaded => VJudgeScraper.Returned
        | VJudgeScraper.TimeoutError => VJudgeScraper.RaisedTimeoutError
        | VJudgeScraper.Error => VJudgeScraper.RaisedScraperError
        | VJudgeScraper.Uncaught => VJudgeScraper.RaisedUncaught
        end /\
      ((k < todo)%nat ->
       page (attempt + Z.of_nat k - 1)%Z = VJudgeScraper.Loaded \/
       page (attempt + Z.of_nat k - 1)%Z = VJudgeScraper.Uncaught).
Proof.
  induction todo as [| t IH]; intros attempt last_error Hne Hsum;
    [congruence |].
  cbn [VJudgeScraper.attempts].
  assert (Hone : (attempt + Z.of_nat 1 - 1 = attempt)%Z) by lia.
  assert (Hfailed :
            forall exc,
              page attempt = exc ->
              exc = VJudgeScraper.TimeoutError \/ exc = VJudgeScraper.Error ->
              let rest :=
                VJudgeScraper.attempts page retries t (attempt + 1)%Z
                  (Some exc) in
              let r :=
                VJudgeScraper.mkRun (VJudgeScraper.outcome rest)
                  (attempt :: VJudgeScraper.calls rest)
                  ((if (attempt <? retries)%Z
                    then [VJudgeScraper.backoff attempt] else [])
                   ++ VJudgeScraper.sleeps rest) in
              exists k : nat,
                (1 <= k <= S t)%nat /\
                VJudgeScraper.calls r
                = List.map (fun i => (attempt + Z.of_nat i)%Z) (seq 0 k) /\
                VJudgeScraper.sleeps r
                = List.map VJudgeScraper.backoff
                    (removelast (VJudgeScraper.calls r)) /\
                (forall j, (attempt <= j < attempt + Z.of_nat k - 1)%Z ->
                   page j = VJudgeScraper.TimeoutError \/
                   page j = VJudgeScraper.Error) /\
                VJudgeScraper.outcome r
                = match page (attempt + Z.of_nat k - 1)%Z with
                  | VJudgeScraper.Loaded => VJudgeScraper.Returned
                  | VJudgeScraper.TimeoutError =>
                      VJudgeScraper.RaisedTimeoutError
                  | VJudgeScraper.Error => VJudgeScraper.RaisedScraperError
                  | VJudgeScraper.Uncaught => VJudgeScraper.RaisedUncaught
                  end /\
                ((k < S t)%nat ->
                 page (attempt + Z.of_nat k - 1)%Z = VJudgeScraper.Loaded \/
                 page (attempt + Z.of_nat k - 1)%Z = VJudgeScraper.Uncaught)).
  { intros exc Ep Hexc rest r. destruct t as [| t'].
    - exists 1%nat. subst r rest.
      cbn [VJudgeScraper.attempts VJudgeScraper.calls VJudgeScraper.sleeps
           VJudgeScraper.outcome].
      destruct (Z.ltb_spec attempt retries) as [Hlt | _]; [lia |].
      rewrite Hone, Ep. split; [lia |]. split; [cbn; f_equal; lia |].
      split; [reflexivity |]. split; [intros j Hj; lia |].
      split; [| intros Hk; lia].
      now destruct Hexc as [-> | ->].
    - destruct (IH (attempt + 1)%Z (Some exc)) as
        (k & Hk & Hcalls & Hsleeps & Hbefore & Hout & Hearly);
        [discriminate | lia |].
      fold rest in Hcalls, Hsleeps, Hout. exists (S k). subst r.
      cbn [VJudgeScraper.calls VJudgeScraper.sleeps VJudgeScraper.outcome].
      replace (attempt + Z.of_nat (S k) - 1)%Z
        with (attempt + 1 + Z.of_nat k - 1)%Z by lia.
      split; [lia |]. split; [rewrite Hcalls; apply calls_shift |].
      split.
      { destruct (Z.ltb_spec attempt retries) as [_ | Hge]; [| lia].
        rewrite Hsleeps, Hcalls.
        destruct k as [| k']; [lia |]. reflexivity. }
      split.
      { intros j Hj. destruct (Z.eq_dec j attempt) as [-> | Hneq].
        - rewrite Ep. exact Hexc.
        - apply Hbefore. lia. }
      split; [exact Hout |]. intros Hlt. apply Hearly. lia. }
  destruct (page attempt) eqn:Ep.
  - exists 1%nat. cbn [VJudgeScraper.calls VJudgeScraper.sleeps
                       VJudgeScraper.outcome].
    rewrite Hone, Ep. split; [lia |]. split; [cbn; f_equal; lia |].
    split; [reflexivity |]. split; [intros j Hj; lia |]. auto.
  - apply Hfailed; auto.
  - apply Hfailed; auto.
  - exists 1%nat. cbn [VJudgeScraper.calls VJudgeScraper.sleeps
                       VJudgeScraper.outcome].
    rewrite Hone, Ep. split; [lia |]. split; [cbn; f_equal; lia |].
    split; [reflexivity |]. split; [intros j Hj; lia |]. auto.
Qed.

Lemma sum_backoff (l : list Z) :
  Forall (fun a => (1 <= a)%Z) l ->
  (fold_right Z.add 0 (List.map VJudgeScraper.backoff l)
   <= 6 * Z.of_nat (List.length l))%Z.
Proof.
  induction 1 as [| a l Ha Hl IH]; [cbn; lia |].
  cbn [List.map fold_right List.length].
  pose proof (backoff_bounds Ha). lia.
Qed.

Lemma removelast_length (A : Type) (l : list A) :
  List.length (removelast l) = Nat.pred (List.length l).
Proof.
  induction l as [| x [| y l] IH]; [reflexivity | reflexivity |].
  cbn [removelast List.length] in *. rewrite IH. reflexivity.
Qed.

Lemma removelast_In (A : Type) (x : A) (l : list A) :
  In x (removelast l) -> In x l.
Proof.
  induction l as [| y [| z l] IH]; [tauto | intros [] |].
  cbn [removelast] in *. intros [-> | H]; [now left | right; auto].
Qed.

(** X20.  [_goto_with_retries] gives up after a bounded effort.  With
    [navigation_retries] as [__init__] sets it, [page.goto] is called at
    the attempts 1 to [k], for some [k] between 1 and [navigation_retries];
    every attempt before the last one failed with an error of the browser,
    and the call goes on to all [navigation_retries] attempts unless the
    page loads or an error of another kind ends it earlier.  How the call
    ends is decided by the last attempt alone.  It sleeps between two
    attempts and never after the last one, [min(2**attempt, 6)] seconds
    each time, which is [6 * (navigation_retries - 1)] seconds in all at
    most. *)
Theorem goto_with_retries_bounded
    (page : Z -> VJudgeScraper.goto) (requested : Z) :
  let retries := VJudgeScraper.navigation_retries requested in
  let r := VJudgeScraper._goto_with_retries page retries in
  exists k : Z,
    (1 <= k <= retries)%Z /\
    VJudgeScraper.calls r = List.map Z.of_nat (seq 1 (Z.to_nat k)) /\
    (forall j, (1 <= j < k)%Z ->
       page j = VJudgeScraper.TimeoutError \/ page j = VJudgeScraper.Error) /\
    ((k < retries)%Z ->
     page k = VJudgeScraper.Loaded \/ page k = VJudgeScraper.Uncaught) /\
    VJudgeScraper.outcome r
    = match page k with
      | VJudgeScraper.Loaded => VJudgeScraper.Returned
      | VJudgeScraper.TimeoutError => VJudgeScraper.RaisedTimeoutError
      | VJudgeScraper.Error => VJudgeScraper.RaisedScraperError
      | VJudgeScraper.Uncaught => VJudgeScraper.RaisedUncaught
      end /\
    VJudgeScraper.sleeps r
    = List.map VJudgeScraper.backoff (removelast (VJudgeScraper.calls r)) /\
    (fold_right Z.add 0 (VJudgeScraper.sleeps r) <= 6 * (retries - 1))%Z.
Proof.
  intros retries r.
  assert (Hr : (1 <= retries)%Z).
  { unfold retries, VJudgeScraper.navigation_retries. apply maxZ_lower. }
  destruct (@attempts_spec page retries (Z.to_nat retries) 1%Z None)
    as (k & Hk & Hcalls & Hsleeps & Hbefore & Hout & Hearly); [lia | lia |].
  subst r. unfold VJudgeScraper._goto_with_retries.
  set (r := VJudgeScraper.attempts page retries (Z.to_nat retries) 1 None)
    in *.
  assert (Hcalls' : VJudgeScraper.calls r = List.map Z.of_nat (seq 1 k)).
  { rewrite Hcalls, <- seq_shift, map_map. apply map_ext. intros i. lia. }
  exists (Z.of_nat k). rewrite Nat2Z.id.
  replace (1 + Z.of_nat k - 1)%Z with (Z.of_nat k) in * by lia.
  split; [lia |]. split; [exact Hcalls' |].
  split; [intros j Hj; apply Hbefore; lia |].
  split; [intros Hlt; apply Hearly; lia |].
  split; [exact Hout |]. split; [exact Hsleeps |].
  rewrite Hsleeps.
  etransitivity; [apply sum_backoff |].
  - rewrite Hcalls'. rewrite Forall_forall. intros a Ha.
    apply removelast_In in Ha. apply in_map_iff in Ha as (i & <- & Hi).
    apply in_seq in Hi. lia.
  - rewrite removelast_length, Hcalls', length_map, length_seq. lia.
Qed.

(** With three attempts allowed and a page that loads at the third, the
    call sleeps two and then four seconds and returns. *)
Example goto_loads_at_third :
  VJudgeScraper._goto_with_retries loads_at_third
    (VJudgeScraper.navigation_retries 3)
  = VJudgeScraper.mkRun VJudgeScraper.Returned [1; 2; 3]%Z [2; 4]%Z.
Proof. vm_compute. reflexivity. Qed.

(* ================================================================== *)
(** ** The selection of the practice tab *)

Lemma getitem_Some (A : Type) (l : list A) (i : Z) (x : A) :
  Practice.getitem l i = Some x ->
  nth_error l (Practice.place (List.length l) i) = Some x /\
  (- Z.of_nat (List.length l) <= i < Z.of_nat (List.length l))%Z.
Proof.
  unfold Practice.getitem. cbv zeta.
  destruct (Z.ltb_spec i (- Z.of_nat (List.length l)));
    [discriminate |].
  destruct (Z.leb_spec (Z.of_nat (List.length l)) i); [discriminate |].
  cbn [orb]. intros Hx. split; [exact Hx | lia].
Qed.

Lemma getitem_nonneg (A : Type) (l : list A) (i : Z) :
  (0 <= i < Z.of_nat (List.length l))%Z ->
  Practice.getitem l i = nth_error l (Z.to_nat i).
Proof.
  intros H. unfold Practice.getitem, Practice.place. cbv zeta.
  destruct (Z.ltb_spec i (- Z.of_nat (List.length l))); [lia |].
  destruct (Z.leb_spec (Z.of_nat (List.length l)) i); [lia |].
  destruct (Z.ltb_spec i 0); [lia | reflexivity].
Qed.

Lemma replace_at (A : Type) (l : list A) (k : nat) (w x : A) :
  nth_error l k = Some w ->
  exists l1 l2,
    l = l1 ++ w :: l2 /\ List.length l1 = k /\
    firstn k l ++ x :: skipn (S k) l = l1 ++ x :: l2.
Proof.
  intros H. apply nth_error_split in H as (l1 & l2 & -> & <-).
  exists l1, l2. split; [reflexivity |]. split; [reflexivity |].
  rewrite firstn_app, firstn_all, Nat.sub_diag. cbn [firstn].
  rewrite app_nil_r. f_equal. f_equal.
  rewrite skipn_app, skipn_all2 by lia.
  replace (S (List.length l1) - List.length l1)%nat with 1%nat by lia.
  reflexivity.
Qed.

(** What the assignment of [_populate_problems] leaves in the list of
    weeks. *)
Lemma set_problems_spec (weeks : list WeekData.t) (i : Z) (w : WeekData.t)
    (problems : list ProblemData.t) :
  Practice.getitem weeks i = Some w ->
  List.map WeekData.week (Practice.set_problems weeks i problems)
  = List.map WeekData.week weeks /\
  Practice.getitem (Practice.set_problems weeks i problems) i
  = Some (WeekData.mk (WeekData.week w) problems).
Proof.
  intros H. apply getitem_Some in H as [Hnth Hrange].
  unfold Practice.set_problems. cbv zeta. rewrite Hnth.
  destruct (replace_at _ _ (WeekData.mk (WeekData.week w) problems) Hnth)
    as (l1 & l2 & Hl & Hk & ->).
  assert (Hlen : List.length (l1 ++ WeekData.mk (WeekData.week w) problems
                                :: l2) = List.length weeks).
  { rewrite Hl, !length_app. reflexivity. }
  split.
  - rewrite Hl, !map_app. reflexivity.
  - unfold Practice.getitem. cbv zeta. rewrite Hlen.
    destruct (Z.ltb_spec i (- Z.of_nat (List.length weeks))); [lia |].
    destruct (Z.leb_spec (Z.of_nat (List.length weeks)) i); [lia |].
    cbn [orb]. rewrite <- Hk, nth_error_app2, Nat.sub_diag by lia.
    reflexivity.
Qed.

Lemma getitem_nil (A : Type) (i : Z) : Practice.getitem (@nil A) i = None.
Proof.
  unfold Practice.getitem. cbn.
  destruct (Z.ltb_spec i 0), (Z.leb_spec 0 i); try reflexivity; lia.
Qed.

(** X21.  [_populate_problems] followed by [_selected_problem]: the
    problem that the actions of the practice tab work on is one of the
    list just loaded.  When the selected week exists and the index of the
    selected problem is not negative, [_populate_problems] raises nothing,
    keeps the weeks and the selected week, stores the loaded list in the
    selected week and moves the index of the selected problem down, if
    need be, to the last problem of the list; the two conditions hold
    again afterwards.  [_selected_problem] then answers [None] when the
    loaded list is empty, and otherwise the problem of the loaded list at
    the index kept; it raises nothing. *)
Theorem populated_selection_is_listed
    (load : Str.str -> list ProblemData.t) (self : Practice.State)
    (week : WeekData.t) :
  Practice.getitem (Practice.weeks self) (Practice.selected_week_index self)
  = Some week ->
  (0 <= Practice.selected_problem_index self)%Z ->
  let loaded := load (WeekData.week week) in
  exists after,
    Practice._populate_problems load self = Some after /\
    List.map WeekData.week (Practice.weeks after)
    = List.map WeekData.week (Practice.weeks self) /\
    Practice.selected_week_index after = Practice.selected_week_index self /\
    Practice.getitem (Practice.weeks after)
      (Practice.selected_week_index after)
    = Some (WeekData.mk (WeekData.week week) loaded) /\
    (0 <= Practice.selected_problem_index after
     <= Practice.selected_problem_index self)%Z /\
    (loaded = [] -> Practice._selected_problem after = Some None) /\
    (loaded <> [] ->
     (Practice.selected_problem_index after
      < Z.of_nat (List.length loaded))%Z /\
     exists problem,
       Practice._selected_problem after = Some (Some problem) /\
       nth_error loaded (Z.to_nat (Practice.selected_problem_index after))
       = Some problem).
Proof.
  intros Hweek Hindex loaded.
  destruct (set_problems_spec _ _ loaded Hweek) as [Hnames Hstored].
  unfold Practice._populate_problems.
  destruct (Practice.weeks self) as [| w0 ws] eqn:Hws;
    [now rewrite getitem_nil in Hweek |].
  rewrite Hweek. cbv zeta. fold loaded.
  assert (Hnonempty :
            forall st, Practice.getitem (Practice.weeks st)
                         (Practice.selected_week_index st)
                       = Some (WeekData.mk (WeekData.week week) loaded) ->
                       Practice._selected_problem st
                       = match loaded with
                         | [] => Some None
                         | _ :: _ =>
                             if (Z.of_nat (List.length loaded)
                                 <=? Practice.selected_problem_index st)%Z
                             then Some None
                             else
                               match Practice.getitem loaded
                                       (Practice.selected_problem_index st)
                               with
                               | None => None
                               | Some problem => Some (Some problem)
                               end
                         end).
  { intros st Hst. unfold Practice._selected_problem.
    destruct (Practice.weeks st) as [| v vs];
      [now rewrite getitem_nil in Hst |].
    rewrite Hst. cbn [WeekData.problems]. clearbody loaded.
    now destruct loaded. }
  destruct loaded as [| p ps] eqn:Hloaded.
  - eexists. split; [reflexivity |].
    cbn [Practice.weeks Practice.selected_week_index
         Practice.selected_problem_index].
    split; [exact Hnames |]. split; [reflexivity |].
    split; [exact Hstored |]. split; [lia |]. split; [| congruence].
    intros _. now rewrite Hnonempty by exact Hstored.
  - eexists. split; [reflexivity |].
    cbn [Practice.weeks Practice.selected_week_index
         Practice.selected_problem_index].
    split; [exact Hnames |]. split; [reflexivity |].
    split; [exact Hstored |].
    set (last := (Z.of_nat (List.length (p :: ps)) - 1)%Z).
    set (kept := if (last <? Practice.selected_problem_index self)%Z
                 then last else Practice.selected_problem_index self).
    assert (Hkept : (0 <= kept <= Practice.selected_problem_index self)%Z
                    /\ (kept < Z.of_nat (List.length (p :: ps)))%Z).
    { unfold kept, last. cbn [List.length].
      destruct (Z.ltb_spec (Z.of_nat (S (List.length ps)) - 1)
                  (Practice.selected_problem_index self)); lia. }
    split; [tauto |]. split; [discriminate |]. intros _.
    split; [tauto |].
    rewrite Hnonempty by exact Hstored.
    cbn [Practice.selected_problem_index]. fold last. fold kept.
    destruct (Z.leb_spec (Z.of_nat (List.length (p :: ps))) kept); [lia |].
    rewrite getitem_nonneg by lia.
    destruct (nth_error (p :: ps) (Z.to_nat kept)) as [problem |] eqn:Hnth.
    + now exists problem.
    + apply nth_error_None in Hnth. lia.
Qed.

Lemma populated_selection_is_listed_witness :
  let week := WeekData.mk (Str.lit "contest") [] in
  let load (_ : Str.str) :=
    TrainerApp._load_problems_for_contest [problem_n 7; problem_n 8]
      one_failed_attempt (Str.lit "contest") in
  exists after problem,
    Practice._populate_problems load (Practice.mk [week] 0 5) = Some after /\
    Practice._selected_problem after = Some (Some problem) /\
    ProblemData.id problem = 8%Z.
Proof.
  intros week load.
  destruct (@populated_selection_is_listed load (Practice.mk [week] 0 5) week)
    as (after & Hafter & _ & _ & _ & _ & _ & Hlisted).
  - reflexivity.
  - cbn. lia.
  - destruct Hlisted as [_ (problem & Hsel & Hnth)]; [discriminate |].
    exists after, problem. split; [exact Hafter |]. split; [exact Hsel |].
    injection Hafter as <-. vm_compute in Hnth. now injection Hnth as <-.
Defined.
